(** * Movie recommender: a shallow embedding of [recommend.py] and [app.py]

    The development follows the Python sources function by function:
    - Python string methods used by the title lookup ([lower], [strip], [in]);
    - the catalog ([movies_df]) as a pandas frame with a default RangeIndex;
    - the pandas selections [nlargest] and [head];
    - the two provider lookups wrapped in [functools.lru_cache];
    - [find_movie_in_dataset], [recommend_for_existing_movie],
      [get_popular_movies], [get_recommendations] and the count validation of
      [api_search].

    Conventions.  Text is ASCII: [lower] only touches [A-Z], whitespace is the
    ASCII whitespace of [str.isspace].  Floating-point cells (ratings, vote
    counts) are rationals, which is exact for the comparisons the code makes.
    A missing value (NaN) in a text column is [None]. *)

From Stdlib Require Import List String Ascii Bool Arith ZArith QArith Lia Lqa Sorted Permutation.
Import ListNotations.
Local Open Scope string_scope.
Local Open Scope list_scope.
Local Open Scope nat_scope.

(** ** Python exceptions and results *)

Inductive exn : Type :=
| KeyError | TypeError | AttributeError | IndexError | ValueError
| OverflowError | RequestException.

Inductive res (A : Type) : Type :=
| Ok (a : A)
| Raise (e : exn).
Arguments Ok {A} a.
Arguments Raise {A} e.

(** ** Python string methods *)

Module PyStr.

(** [str.isspace] on one ASCII character: tab, LF, VT, FF, CR, the four
    separators 0x1c-0x1f and the space. *)
Definition is_space (c : ascii) : bool :=
  let n := nat_of_ascii c in
  ((9 <=? n) && (n <=? 13)) || ((28 <=? n) && (n <=? 32)).

Definition lower_char (c : ascii) : ascii :=
  let n := nat_of_ascii c in
  if (65 <=? n) && (n <=? 90) then ascii_of_nat (n + 32) else c.

(** [s.lower()] *)
Fixpoint lower (s : string) : string :=
  match s with
  | EmptyString => EmptyString
  | String c s' => String (lower_char c) (lower s')
  end.

(** [s.lstrip()] *)
Fixpoint lstrip (s : string) : string :=
  match s with
  | EmptyString => EmptyString
  | String c s' => if is_space c then lstrip s' else s
  end.

(** [s.rstrip()] *)
Fixpoint rstrip (s : string) : string :=
  match s with
  | EmptyString => EmptyString
  | String c s' =>
      match rstrip s' with
      | EmptyString => if is_space c then EmptyString else String c EmptyString
      | r => String c r
      end
  end.

(** [s.strip()] *)
Definition strip (s : string) : string := lstrip (rstrip s).

(** [needle in hay] *)
Fixpoint contains (needle hay : string) : bool :=
  String.prefix needle hay ||
  match hay with
  | EmptyString => false
  | String _ hay' => contains needle hay'
  end.

(** [s.replace(old, new)] for a non-empty [old]: leftmost non-overlapping
    occurrences; [fuel] bounds the scan by the length of [s]. *)
Fixpoint drop (n : nat) (s : string) : string :=
  match n, s with
  | O, _ => s
  | S n', String _ s' => drop n' s'
  | S _, EmptyString => EmptyString
  end.

Fixpoint replace_aux (fuel : nat) (old new s : string) : string :=
  match fuel with
  | O => s
  | S fuel' =>
      match s with
      | EmptyString => EmptyString
      | String c s' =>
          if String.prefix old s
          then (new ++ replace_aux fuel' old new (drop (String.length old) s))%string
          else String c (replace_aux fuel' old new s')
      end
  end.

Definition replace (old new s : string) : string :=
  replace_aux (String.length s) old new s.

(** [sep.join(parts)] *)
Fixpoint join (sep : string) (parts : list string) : string :=
  match parts with
  | [] => EmptyString
  | [p] => p
  | p :: ps => (p ++ sep ++ join sep ps)%string
  end.

End PyStr.

(** ** The catalog: [movies_df], the embedding matrix and the cluster model *)

(** One row of [movies_df].  Text cells are [None] when the cell is NaN; the
    two numeric cells are finite numbers.  A field whose column is absent
    from the frame is never read (see [cell], [cell_rating], [has_col]). *)
Record Row : Type := mkRow {
  title : option string;
  overview : option string;
  genres : option string;
  release_date : option string;
  vote_average : Q;
  vote_count : Q;
  poster_path : option string
}.

(** [movies_df]: the column names and the rows in catalog order.  The frame
    carries the default RangeIndex, so the label of a row is its position.
    A title column that holds a string has dtype object; one that holds none
    (no row, or NaN only) has dtype object or float64, and [title_is_object]
    tells which: it is read in that case only. *)
Record DataFrame : Type := mkDataFrame {
  columns : list string;
  rows : list Row;
  title_is_object : bool
}.

(** A selection of rows of [movies_df], each with its index label. *)
Definition Frame : Type := list (nat * Row).

Definition label (x : nat * Row) : nat := fst x.
Definition rating (x : nat * Row) : Q := vote_average (snd x).
Definition votes (x : nat * Row) : Q := vote_count (snd x).

Definition index_rows (l : list Row) : Frame := combine (seq 0 (List.length l)) l.

(** [col in df.columns] *)
Definition has_col (df : DataFrame) (col : string) : bool :=
  existsb (String.eqb col) (columns df).

(** [movie.get(col, default)] for a text column. *)
Definition cell (df : DataFrame) (col : string) (v : option string) (default : string)
  : option string :=
  if has_col df col then v else Some default.

(** [float(movie.get('vote_average', 0))] *)
Definition cell_rating (df : DataFrame) (r : Row) : Q :=
  if has_col df "vote_average" then vote_average r else 0%Q.

Definition Embedding : Type := list Q.

(** The fitted KMeans object: the stored assignment [labels_] of the training
    rows and the [predict] method, which maps an embedding to the label of
    its nearest centre. *)
Record KMeans : Type := mkKMeans {
  labels_ : list Z;
  predict : Embedding -> Z
}.

Record MovieRecommender : Type := mkRecommender {
  obj_id : nat;
  movies_df : DataFrame;
  tfidf_matrix : list Embedding;
  kmeans_model : option KMeans;
  tmdb_api_key : option string;
  omdb_api_key : option string
}.

(** ** pandas and Python sequence operations *)

(** [l[:n]], also [df.head(n)]: a negative [n] drops the last [-n] items. *)
Definition slice_to {A : Type} (n : Z) (l : list A) : list A :=
  if (0 <=? n)%Z then firstn (Z.to_nat n) l
  else firstn (List.length l - Z.to_nat (- n)) l.

(** Stable insertion in a list that is in descending order of [key]: the new
    item, which precedes the others in the source frame, goes before the
    first item whose key is not larger. *)
Fixpoint insert_desc {A : Type} (key : A -> Q) (x : A) (l : list A) : list A :=
  match l with
  | [] => [x]
  | y :: ys =>
      if Qle_bool (key y) (key x) then x :: l else y :: insert_desc key x ys
  end.

Definition sort_desc {A : Type} (key : A -> Q) (l : list A) : list A :=
  fold_right (insert_desc key) [] l.

(** [df.nlargest(n, col)] with the default [keep='first'], as pandas
    documents it: the first [n] rows in descending order of the column, the
    first occurrences winning among equal values; no row for [n <= 0]. *)
Definition nlargest {A : Type} (key : A -> Q) (n : Z) (l : list A) : list A :=
  if (n <=? 0)%Z then [] else firstn (Z.to_nat n) (sort_desc key l).

(** Position of the first item satisfying [p]: [df[mask].index[0]] after
    [mask.any()]. *)
Fixpoint find_first {A : Type} (p : A -> bool) (l : list A) : option nat :=
  match l with
  | [] => None
  | x :: xs =>
      if p x then Some O
      else match find_first p xs with
           | Some i => Some (S i)
           | None => None
           end
  end.

(** ** Title lookup *)

Definition normalize (s : string) : string := PyStr.strip (PyStr.lower s).

Definition has_title (r : Row) : bool :=
  match title r with
  | Some _ => true
  | None => false
  end.

(** [self.movies_df['title'].str]: the accessor takes a column of dtype
    object and raises [AttributeError] on a float64 column. *)
Definition str_accessor_ok (df : DataFrame) : bool :=
  existsb has_title (rows df) || title_is_object df.

(** One entry of [title.str.lower().str.strip() == movie_name_lower] *)
Definition exact_mask (q : string) (r : Row) : bool :=
  match title r with
  | Some t => String.eqb (PyStr.strip (PyStr.lower t)) q
  | None => false
  end.

(** One entry of [title.str.lower().str.contains(q, na=False, regex=False)] *)
Definition partial_mask (q : string) (r : Row) : bool :=
  match title r with
  | Some t => PyStr.contains q (PyStr.lower t)
  | None => false
  end.

Definition find_movie_in_dataset (self : MovieRecommender) (movie_name : string)
  : res (option nat) :=
  let df := movies_df self in
  if has_col df "title" then
    let movie_name_lower := PyStr.strip (PyStr.lower movie_name) in
    if str_accessor_ok df then
      match find_first (exact_mask movie_name_lower) (rows df) with
      | Some i => Ok (Some i)
      | None =>
          match find_first (partial_mask movie_name_lower) (rows df) with
          | Some i => Ok (Some i)
          | None => Ok None
          end
      end
    else Raise AttributeError
  else Raise KeyError.

(** ** Recommendations *)

Record Rec : Type := mkRec {
  rec_title : option string;
  rec_overview : option string;
  rec_genres : option string;
  rec_release_date : option string;
  rec_vote_average : Q;
  rec_poster_path : option string;
  similarity_score : Q;
  recommendation_method : string
}.

(** The dictionary built in the two [iterrows] loops. *)
Definition to_rec (df : DataFrame) (method : string) (x : nat * Row) : Rec :=
  let movie := snd x in
  {| rec_title := cell df "title" (title movie) "Unknown";
     rec_overview := cell df "overview" (overview movie) EmptyString;
     rec_genres := cell df "genres" (genres movie) EmptyString;
     rec_release_date := cell df "release_date" (release_date movie) EmptyString;
     rec_vote_average := cell_rating df movie;
     rec_poster_path := cell df "poster_path" (poster_path movie) EmptyString;
     similarity_score := 0;
     recommendation_method := method |}.

(** The frame [popular_movies] of [get_popular_movies]. *)
Definition popular_frame (self : MovieRecommender) (n_movies : Z) : Frame :=
  let df := movies_df self in
  let all := index_rows (rows df) in
  if has_col df "vote_average" && has_col df "vote_count" then
    nlargest votes n_movies (nlargest rating (n_movies * 2) all)
  else if has_col df "vote_average" then
    nlargest rating n_movies all
  else
    slice_to n_movies all.

Definition get_popular_movies (self : MovieRecommender) (n_movies : Z) : list Rec :=
  map (to_rec (movies_df self) "popular") (popular_frame self n_movies).

(** The [try] block of [recommend_for_existing_movie] up to [top_movies].
    It raises when the row has no embedding ([predict] on an empty slice),
    when [labels_] and the frame differ in length (boolean indexing) and when
    [movie_idx] is out of the index. *)
Definition cluster_frame (self : MovieRecommender) (km : KMeans)
    (movie_idx : nat) (n_recommendations : Z) : res Frame :=
  let df := movies_df self in
  match nth_error (tfidf_matrix self) movie_idx with
  | None => Raise ValueError
  | Some v =>
      let movie_cluster := predict km v in
      if negb (List.length (labels_ km) =? List.length (rows df)) then Raise ValueError
      else if negb (movie_idx <? List.length (rows df)) then Raise IndexError
      else
        let selected :=
          map fst
            (filter (fun xl => Z.eqb (snd xl) movie_cluster)
                    (combine (index_rows (rows df)) (labels_ km))) in
        let cluster_movies :=
          filter (fun x => negb (label x =? movie_idx)) selected in
        Ok (if has_col df "vote_average"
            then nlargest rating n_recommendations cluster_movies
            else slice_to n_recommendations cluster_movies)
  end.

Definition recommend_for_existing_movie (self : MovieRecommender)
    (movie_idx : nat) (n_recommendations : Z) : list Rec :=
  match kmeans_model self with
  | None => get_popular_movies self n_recommendations
  | Some km =>
      match cluster_frame self km movie_idx n_recommendations with
      | Ok top_movies => map (to_rec (movies_df self) "cluster_based") top_movies
      | Raise _ => get_popular_movies self n_recommendations
      end
  end.

(** ** JSON payloads as Python values *)

Unset Elimination Schemes.
Inductive json : Type :=
| JNull
| JBool (b : bool)
| JInt (z : Z)
| JFloat (q : Q)
| JStr (s : string)
| JArr (items : list json)
| JObj (fields : list (string * json)).
Set Elimination Schemes.

Module PyJson.

Fixpoint assoc (k : string) (fields : list (string * json)) : option json :=
  match fields with
  | [] => None
  | (k', v) :: rest => if String.eqb k k' then Some v else assoc k rest
  end.

(** Truth value of [if v:] *)
Definition truthy (v : json) : bool :=
  match v with
  | JNull => false
  | JBool b => b
  | JInt z => negb (Z.eqb z 0)
  | JFloat q => negb (Qeq_bool q 0)
  | JStr s => negb (String.eqb s EmptyString)
  | JArr items => match items with [] => false | _ => true end
  | JObj fields => match fields with [] => false | _ => true end
  end.

(** [v[k]] for a string [k] *)
Definition getitem_str (v : json) (k : string) : res json :=
  match v with
  | JObj fields =>
      match assoc k fields with
      | Some x => Ok x
      | None => Raise KeyError
      end
  | _ => Raise TypeError
  end.

(** [v[0]] *)
Definition getitem_0 (v : json) : res json :=
  match v with
  | JArr (x :: _) => Ok x
  | JArr [] => Raise IndexError
  | JStr (String c _) => Ok (JStr (String c EmptyString))
  | JStr EmptyString => Raise IndexError
  | JObj _ => Raise KeyError
  | _ => Raise TypeError
  end.

(** [v.get(k, default)]: only dictionaries have the method. *)
Definition get (v : json) (k : string) (default : json) : res json :=
  match v with
  | JObj fields =>
      match assoc k fields with
      | Some x => Ok x
      | None => Ok default
      end
  | _ => Raise AttributeError
  end.

Fixpoint chars (s : string) : list json :=
  match s with
  | EmptyString => []
  | String c s' => JStr (String c EmptyString) :: chars s'
  end.

(** The items visited by [for g in v] *)
Definition iter (v : json) : res (list json) :=
  match v with
  | JArr items => Ok items
  | JStr s => Ok (chars s)
  | JObj fields => Ok (map (fun kv => JStr (fst kv)) fields)
  | _ => Raise TypeError
  end.

(** [[g['name'] for g in items]] *)
Fixpoint names (items : list json) : res (list json) :=
  match items with
  | [] => Ok []
  | g :: rest =>
      match getitem_str g "name" with
      | Raise e => Raise e
      | Ok x =>
          match names rest with
          | Raise e => Raise e
          | Ok xs => Ok (x :: xs)
          end
      end
  end.

(** The strings handed to [' '.join]; any other item is a [TypeError]. *)
Fixpoint strings (items : list json) : res (list string) :=
  match items with
  | [] => Ok []
  | JStr s :: rest =>
      match strings rest with
      | Raise e => Raise e
      | Ok xs => Ok (s :: xs)
      end
  | _ :: _ => Raise TypeError
  end.

(** [v == 'True'] *)
Definition is_str (v : json) (s : string) : bool :=
  match v with
  | JStr s' => String.eqb s' s
  | _ => false
  end.

(** [k in v] for a string [k]: a key of a dictionary, an item of a list, a
    part of a string; other values are not iterable. *)
Definition py_in (k : string) (v : json) : res bool :=
  match v with
  | JObj fields => Ok (match assoc k fields with Some _ => true | None => false end)
  | JArr items => Ok (existsb (fun x => is_str x k) items)
  | JStr s => Ok (PyStr.contains k s)
  | _ => Raise TypeError
  end.

End PyJson.

(** The dictionary a provider lookup returns. *)
Record MovieInfo : Type := mkMovieInfo {
  mi_title : json;
  mi_overview : json;
  mi_genres : string;
  mi_release_date : json;
  mi_vote_average : json;
  mi_poster_path : json;
  mi_tmdb_id : option json;
  mi_imdb_id : option json;
  mi_source : string
}.

(** ** The network and the process state *)

Inductive Request : Type :=
| TmdbSearch (api_key query : string)
| TmdbDetails (api_key : string) (movie_id : json)
| OmdbByTitle (api_key movie_name : string).

(** What [requests.get] does: raise a [RequestException] (connection error,
    timeout) or return a response with a status code and a body; the body is
    [None] when [response.json()] cannot decode it, which [requests] reports
    as its [JSONDecodeError], a [RequestException]. *)
Inductive HttpOutcome : Type :=
| TransportError
| Response (status_code : Z) (body : option json).

(** The providers: the answer to a request may depend on the requests sent
    before it (latest first). *)
Definition Network : Type := list Request -> Request -> HttpOutcome.

(** An [lru_cache] keyed by the call arguments [(self, movie_name)], most
    recently used entry first. *)
Definition Cache : Type := list ((nat * string) * option MovieInfo).

Record World : Type := mkWorld {
  tmdb_cache : Cache;
  omdb_cache : Cache;
  sent : list Request
}.

Definition M (A : Type) : Type := World -> res A * World.

Definition ret {A : Type} (a : A) : M A := fun w => (Ok a, w).

Definition bind {A B : Type} (m : M A) (k : A -> M B) : M B :=
  fun w =>
    match m w with
    | (Ok a, w') => k a w'
    | (Raise e, w') => (Raise e, w')
    end.

Definition lift {A : Type} (r : res A) : M A := fun w => (r, w).

(** The value a run returned, if it returned. *)
Definition result_of {A : Type} (run : res A * World) : option A :=
  match fst run with
  | Ok a => Some a
  | Raise _ => None
  end.

Notation "x <- m ;; k" := (bind m (fun x => k))
  (at level 61, m at next level, right associativity).

Definition maxsize : nat := 100.

Definition key_eqb (k1 k2 : nat * string) : bool :=
  (fst k1 =? fst k2) && String.eqb (snd k1) (snd k2).

Fixpoint cache_lookup (k : nat * string) (c : Cache) : option (option MovieInfo) :=
  match c with
  | [] => None
  | (k', v) :: rest => if key_eqb k k' then Some v else cache_lookup k rest
  end.

Definition cache_remove (k : nat * string) (c : Cache) : Cache :=
  filter (fun e => negb (key_eqb k (fst e))) c.

(** A hit moves the entry to the front. *)
Definition cache_touch (k : nat * string) (v : option MovieInfo) (c : Cache) : Cache :=
  (k, v) :: cache_remove k c.

(** A miss stores the result in front; a full cache loses its last entry. *)
Definition cache_store (k : nat * string) (v : option MovieInfo) (c : Cache) : Cache :=
  firstn maxsize ((k, v) :: c).

(** [@lru_cache(maxsize=100)] around [body]: a result is stored when [body]
    returns, whatever it returns; nothing is stored when it raises. *)
Definition lru_cache (sel : World -> Cache) (upd : Cache -> World -> World)
    (k : nat * string) (body : M (option MovieInfo)) : M (option MovieInfo) :=
  fun w =>
    match cache_lookup k (sel w) with
    | Some v => (Ok v, upd (cache_touch k v (sel w)) w)
    | None =>
        match body w with
        | (Ok v, w') => (Ok v, upd (cache_store k v (sel w')) w')
        | (Raise e, w') => (Raise e, w')
        end
    end.

Definition set_tmdb_cache (c : Cache) (w : World) : World :=
  {| tmdb_cache := c; omdb_cache := omdb_cache w; sent := sent w |}.

Definition set_omdb_cache (c : Cache) (w : World) : World :=
  {| tmdb_cache := tmdb_cache w; omdb_cache := c; sent := sent w |}.

(** [if not self.tmdb_api_key]: unset or empty. *)
Definition api_key_of (k : option string) : option string :=
  match k with
  | Some s => if String.eqb s EmptyString then None else Some s
  | None => None
  end.

(** The double quote of the not-found message. *)
Definition dquote : string := String (ascii_of_nat 34) EmptyString.

(** The record shown as [searched_movie]. *)
Inductive Searched : Type :=
| FromDataset (s_title s_overview s_genres s_release_date : option string)
              (s_vote_average : Q) (s_poster_path : option string)
| FromProvider (info : MovieInfo).

Definition source_of (s : Searched) : string :=
  match s with
  | FromDataset _ _ _ _ _ _ => "dataset"
  | FromProvider info => mi_source info
  end.

Record ResolutionResult : Type := mkResult {
  status : string;
  searched_movie : option Searched;
  recommendations : list Rec;
  message : string
}.

(** [any(genre.lower() in rec.get('genres', '').lower() for genre in prefs)]:
    with no preferred genre the generator is empty; otherwise the genres cell
    must be a string. *)
Definition genre_match (preference_genres : list string) (rec : Rec) : res bool :=
  match preference_genres with
  | [] => Ok false
  | _ :: _ =>
      match rec_genres rec with
      | None => Raise AttributeError
      | Some g =>
          Ok (existsb (fun genre => PyStr.contains (PyStr.lower genre) (PyStr.lower g))
                      preference_genres)
      end
  end.

(** [[rec for rec in recs if genre_match(rec)]] *)
Fixpoint filter_recs (preference_genres : list string) (recs : list Rec)
  : res (list Rec) :=
  match recs with
  | [] => Ok []
  | rec :: rest =>
      match genre_match preference_genres rec with
      | Raise e => Raise e
      | Ok keep =>
          match filter_recs preference_genres rest with
          | Raise e => Raise e
          | Ok kept => Ok (if keep then rec :: kept else kept)
          end
      end
  end.

(** Lines 255-258 of [get_recommendations]. *)
Definition apply_genre_filter (preference_genres : list string) (recs : list Rec)
  : res (list Rec) :=
  match preference_genres with
  | [] => Ok recs
  | _ :: _ =>
      match filter_recs preference_genres recs with
      | Raise e => Raise e
      | Ok [] => Ok recs
      | Ok filtered_recs => Ok filtered_recs
      end
  end.

(** The count [api_search] hands to the resolver: an integer or [True],
    which is an [int] for [isinstance] and lies between 1 and 50. *)
Inductive Count : Type :=
| CountInt (z : Z)
| CountTrue.

(** Lines 109 and 116-117 of [api_search]: the count of the request, or 10
    when it is not an [int] in [1, 50]. *)
Definition validate_count (n_recommendations : json) : Count :=
  match n_recommendations with
  | JInt z => if ((1 <=? z) && (z <=? 50))%Z then CountInt z else CountInt 10
  | JBool true => CountTrue
  | _ => CountInt 10
  end.

(** [n * 2] *)
Definition count_doubled (n : Count) : Z :=
  match n with
  | CountInt z => (z * 2)%Z
  | CountTrue => 2%Z
  end.

(** [recs[:n]]: a list takes [True] as the index 1. *)
Definition slice_to_count {A : Type} (n : Count) (l : list A) : list A :=
  match n with
  | CountInt z => slice_to z l
  | CountTrue => slice_to 1 l
  end.

(** [get_popular_movies(n)]: pandas takes no boolean for a number of rows
    ([nlargest] and [head] end in a positional slice that rejects it). *)
Definition get_popular_movies_count (self : MovieRecommender) (n : Count)
  : res (list Rec) :=
  match n with
  | CountInt z => Ok (get_popular_movies self z)
  | CountTrue => Raise TypeError
  end.

Inductive HttpReply : Type :=
| Reply200 (movie : option Searched) (recs : list Rec) (reply_status : string)
| Reply400 (error : string)
| Reply500
| Reply503.

(** The built-in [float]: on a string, [None] when it raises [ValueError];
    on an integer, [None] when it raises [OverflowError]. *)
Record PyFloat : Type := mkPyFloat {
  float_of_string : string -> option Q;
  float_of_int : Z -> option Q
}.

Section Providers.

Variable pyfloat : PyFloat.

Variable net : Network.

(** [requests.get(...)]: one more request on the wire. *)
Definition requests_get (req : Request) : M HttpOutcome :=
  fun w =>
    (Ok (net (sent w) req),
     {| tmdb_cache := tmdb_cache w; omdb_cache := omdb_cache w;
        sent := req :: sent w |}).

Definition _get_tmdb_movie_details (api_key : string) (movie_id : json)
  : M (option MovieInfo) :=
  detail_response <- requests_get (TmdbDetails api_key movie_id) ;;
  match detail_response with
  | TransportError => ret None
  | Response status_code body =>
      if Z.eqb status_code 200 then
        match body with
        | None => ret None
        | Some detailed_movie =>
            gs <- lift (PyJson.get detailed_movie "genres" (JArr [])) ;;
            items <- lift (PyJson.iter gs) ;;
            ns <- lift (PyJson.names items) ;;
            parts <- lift (PyJson.strings ns) ;;
            t <- lift (PyJson.get detailed_movie "title" (JStr EmptyString)) ;;
            o <- lift (PyJson.get detailed_movie "overview" (JStr EmptyString)) ;;
            d <- lift (PyJson.get detailed_movie "release_date" (JStr EmptyString)) ;;
            v <- lift (PyJson.get detailed_movie "vote_average" (JInt 0)) ;;
            p <- lift (PyJson.get detailed_movie "poster_path" (JStr EmptyString)) ;;
            ret (Some {| mi_title := t; mi_overview := o;
                         mi_genres := PyStr.join " " parts;
                         mi_release_date := d; mi_vote_average := v;
                         mi_poster_path := p; mi_tmdb_id := Some movie_id;
                         mi_imdb_id := None; mi_source := "TMDB" |})
        end
      else ret None
  end.

(** The undecorated body of [search_movie_tmdb]. *)
Definition tmdb_body (self : MovieRecommender) (movie_name : string)
  : M (option MovieInfo) :=
  match api_key_of (tmdb_api_key self) with
  | None => ret None
  | Some api_key =>
      response <- requests_get (TmdbSearch api_key movie_name) ;;
      match response with
      | TransportError => ret None
      | Response status_code body =>
          if Z.eqb status_code 200 then
            match body with
            | None => ret None
            | Some data =>
                results <- lift (PyJson.getitem_str data "results") ;;
                if PyJson.truthy results then
                  movie <- lift (PyJson.getitem_0 results) ;;
                  movie_id <- lift (PyJson.getitem_str movie "id") ;;
                  _get_tmdb_movie_details api_key movie_id
                else ret None
            end
          else ret None
      end
  end.

Definition search_movie_tmdb (self : MovieRecommender) (movie_name : string)
  : M (option MovieInfo) :=
  lru_cache tmdb_cache set_tmdb_cache (obj_id self, movie_name)
            (tmdb_body self movie_name).

(** [ValueError] and [TypeError] give 0.0; the [OverflowError] of an integer
    too large for a float is not caught. *)
Definition _parse_imdb_rating (rating_str : json) : res Q :=
  match rating_str with
  | JStr s =>
      if String.eqb s "N/A" then Ok 0%Q
      else match float_of_string pyfloat s with
           | Some q => Ok q
           | None => Ok 0%Q
           end
  | JInt z =>
      match float_of_int pyfloat z with
      | Some q => Ok q
      | None => Raise OverflowError
      end
  | JFloat q => Ok q
  | JBool b => Ok (if b then 1 else 0)%Q
  | _ => Ok 0%Q
  end.

(** [data.get('Genre', '').replace(', ', ' ')] *)
Definition omdb_genres (g : json) : res string :=
  match g with
  | JStr s => Ok (PyStr.replace ", " " " s)
  | _ => Raise AttributeError
  end.

(** The undecorated body of [search_movie_omdb]. *)
Definition omdb_body (self : MovieRecommender) (movie_name : string)
  : M (option MovieInfo) :=
  match api_key_of (omdb_api_key self) with
  | None => ret None
  | Some api_key =>
      response <- requests_get (OmdbByTitle api_key movie_name) ;;
      match response with
      | TransportError => ret None
      | Response status_code body =>
          if Z.eqb status_code 200 then
            match body with
            | None => ret None
            | Some data =>
                r <- lift (PyJson.get data "Response" JNull) ;;
                if PyJson.is_str r "True" then
                  t <- lift (PyJson.get data "Title" (JStr movie_name)) ;;
                  o <- lift (PyJson.get data "Plot" (JStr EmptyString)) ;;
                  g <- lift (PyJson.get data "Genre" (JStr EmptyString)) ;;
                  gs <- lift (omdb_genres g) ;;
                  y <- lift (PyJson.get data "Year" (JStr EmptyString)) ;;
                  r <- lift (PyJson.get data "imdbRating" (JStr "0")) ;;
                  v <- lift (_parse_imdb_rating r) ;;
                  p <- lift (PyJson.get data "Poster" (JStr EmptyString)) ;;
                  i <- lift (PyJson.get data "imdbID" (JStr EmptyString)) ;;
                  ret (Some {| mi_title := t; mi_overview := o; mi_genres := gs;
                               mi_release_date := y;
                               mi_vote_average := JFloat v;
                               mi_poster_path := p; mi_tmdb_id := None;
                               mi_imdb_id := Some i; mi_source := "OMDB" |})
                else ret None
            end
          else ret None
      end
  end.

Definition search_movie_omdb (self : MovieRecommender) (movie_name : string)
  : M (option MovieInfo) :=
  lru_cache omdb_cache set_omdb_cache (obj_id self, movie_name)
            (omdb_body self movie_name).

(** [self.search_movie_tmdb(name) or self.search_movie_omdb(name)]: a
    returned dictionary is never empty, hence true. *)
Definition lookup_any (self : MovieRecommender) (movie_name : string)
  : M (option MovieInfo) :=
  first <- search_movie_tmdb self movie_name ;;
  match first with
  | Some info => ret (Some info)
  | None => search_movie_omdb self movie_name
  end.

(** Lines 228-253 of [get_recommendations]: the result before filtering,
    with the candidate list [recs]. *)
Definition resolve_candidates (self : MovieRecommender) (movie_name : string)
    (n_recommendations : Z) : M (ResolutionResult * list Rec) :=
  let df := movies_df self in
  movie_idx <- lift (find_movie_in_dataset self movie_name) ;;
  match movie_idx with
  | Some idx =>
      match nth_error (rows df) idx with
      | None => lift (Raise IndexError)
      | Some movie =>
          ret ({| status := "success";
                  searched_movie :=
                    Some (FromDataset
                            (cell df "title" (title movie) movie_name)
                            (cell df "overview" (overview movie) EmptyString)
                            (cell df "genres" (genres movie) EmptyString)
                            (cell df "release_date" (release_date movie) EmptyString)
                            (cell_rating df movie)
                            (cell df "poster_path" (poster_path movie) EmptyString));
                  recommendations := [];
                  message := "Movie found in dataset" |},
               recommend_for_existing_movie self idx (n_recommendations * 2))
      end
  | None =>
      movie_info <- lookup_any self movie_name ;;
      match movie_info with
      | Some info =>
          ret ({| status := "success";
                  searched_movie := Some (FromProvider info);
                  recommendations := [];
                  message := ("Movie found via " ++ mi_source info ++ " API")%string |},
               get_popular_movies self (n_recommendations * 2))
      | None =>
          ret ({| status := "not_found";
                  searched_movie := None;
                  recommendations := [];
                  message := ("Movie " ++ dquote ++ movie_name ++ dquote ++ " not found")%string |},
               get_popular_movies self n_recommendations)
      end
  end.

Definition get_recommendations (self : MovieRecommender) (movie_name : string)
    (n_recommendations : Z) (preference_genres : list string) : M ResolutionResult :=
  pre <- resolve_candidates self movie_name n_recommendations ;;
  recs <- lift (apply_genre_filter preference_genres (snd pre)) ;;
  ret {| status := status (fst pre);
         searched_movie := searched_movie (fst pre);
         recommendations := slice_to n_recommendations recs;
         message := message (fst pre) |}.

(** [get_recommendations] for the count of [api_search], which may be
    [True]: lines 228-261 again, with the three uses of the count. *)
Definition resolve_candidates_count (self : MovieRecommender) (movie_name : string)
    (n_recommendations : Count) : M (ResolutionResult * list Rec) :=
  let df := movies_df self in
  movie_idx <- lift (find_movie_in_dataset self movie_name) ;;
  match movie_idx with
  | Some idx =>
      match nth_error (rows df) idx with
      | None => lift (Raise IndexError)
      | Some movie =>
          ret ({| status := "success";
                  searched_movie :=
                    Some (FromDataset
                            (cell df "title" (title movie) movie_name)
                            (cell df "overview" (overview movie) EmptyString)
                            (cell df "genres" (genres movie) EmptyString)
                            (cell df "release_date" (release_date movie) EmptyString)
                            (cell_rating df movie)
                            (cell df "poster_path" (poster_path movie) EmptyString));
                  recommendations := [];
                  message := "Movie found in dataset" |},
               recommend_for_existing_movie self idx (count_doubled n_recommendations))
      end
  | None =>
      movie_info <- lookup_any self movie_name ;;
      match movie_info with
      | Some info =>
          ret ({| status := "success";
                  searched_movie := Some (FromProvider info);
                  recommendations := [];
                  message := ("Movie found via " ++ mi_source info ++ " API")%string |},
               get_popular_movies self (count_doubled n_recommendations))
      | None =>
          recs <- lift (get_popular_movies_count self n_recommendations) ;;
          ret ({| status := "not_found";
                  searched_movie := None;
                  recommendations := [];
                  message := ("Movie " ++ dquote ++ movie_name ++ dquote ++ " not found")%string |},
               recs)
      end
  end.

Definition get_recommendations_count (self : MovieRecommender) (movie_name : string)
    (n_recommendations : Count) (preference_genres : list string)
  : M ResolutionResult :=
  pre <- resolve_candidates_count self movie_name n_recommendations ;;
  recs <- lift (apply_genre_filter preference_genres (snd pre)) ;;
  ret {| status := status (fst pre);
         searched_movie := searched_movie (fst pre);
         recommendations := slice_to_count n_recommendations recs;
         message := message (fst pre) |}.

(** [api_search] on the parsed body [data] of the request ([JNull] when
    there is none).  The whole handler runs in [try ... except Exception],
    which answers 500.  The recommender has no [_apply_genre_preferences]
    attribute, so the genres of the request are read and then replaced by
    [None]. *)
Definition api_search (movie_recommender : option MovieRecommender) (data : json)
  : World -> HttpReply * World :=
  fun w =>
    if negb (PyJson.truthy data) then (Reply400 "Movie name is required", w)
    else
      match PyJson.py_in "movie_name" data with
      | Raise _ => (Reply500, w)
      | Ok false => (Reply400 "Movie name is required", w)
      | Ok true =>
          match PyJson.getitem_str data "movie_name" with
          | Raise _ => (Reply500, w)
          | Ok (JStr raw) =>
              let movie_name := PyStr.strip raw in
              match PyJson.get data "n_recommendations" (JInt 10),
                    PyJson.get data "preference_genres" (JArr []) with
              | Ok n_recommendations, Ok _ =>
                  if String.eqb movie_name EmptyString
                  then (Reply400 "Movie name cannot be empty", w)
                  else
                    let n := validate_count n_recommendations in
                    match movie_recommender with
                    | None => (Reply503, w)
                    | Some self =>
                        match get_recommendations_count self movie_name n [] w with
                        | (Ok results, w') =>
                            (Reply200 (searched_movie results)
                                      (recommendations results)
                                      (status results), w')
                        | (Raise _, w') => (Reply500, w')
                        end
                    end
              | _, _ => (Reply500, w)
              end
          | Ok _ => (Reply500, w)
          end
      end.

End Providers.

(** ** The provider clients of [services/movie_apis.py] *)

Module MovieApis.

(** The requests of the two clients; [year] is sent when it is given and not
    zero. *)
Inductive ApiRequest : Type :=
| SearchMovie (api_key query : string) (year : option Z)
| MovieDetails (api_key : string) (movie_id : json)
| OmdbSearch (api_key title : string) (year : option Z)
| OmdbByImdbId (api_key : string) (imdb_id : json).

Definition ApiNetwork : Type := list ApiRequest -> ApiRequest -> HttpOutcome.

(** These clients keep no cache: the state is the list of requests sent,
    latest first. *)
Definition Api (A : Type) : Type := list ApiRequest -> res A * list ApiRequest.

Definition aret {A : Type} (a : A) : Api A := fun s => (Ok a, s).

Definition abind {A B : Type} (m : Api A) (k : A -> Api B) : Api B :=
  fun s =>
    match m s with
    | (Ok a, s') => k a s'
    | (Raise e, s') => (Raise e, s')
    end.

Definition alift {A : Type} (r : res A) : Api A := fun s => (r, s).

(** [if year: params['year'] = year] *)
Definition year_param (year : option Z) : option Z :=
  match year with
  | Some y => if Z.eqb y 0 then None else Some y
  | None => None
  end.

(** [requests.get]: a transport failure raises. *)
Definition api_get (net : ApiNetwork) (req : ApiRequest) : Api (Z * option json) :=
  fun s =>
    match net s req with
    | TransportError => (Raise RequestException, req :: s)
    | Response status_code body => (Ok (status_code, body), req :: s)
    end.

(** [response.json()]: a body that is not JSON raises. *)
Definition response_json (body : option json) : res json :=
  match body with
  | Some data => Ok data
  | None => Raise RequestException
  end.

(** [try: ... except Exception as e: print(...); return None]; Python's
    [None] is [JNull]. *)
Definition try_except (body : Api json) : Api json :=
  fun s =>
    match body s with
    | (Ok v, s') => (Ok v, s')
    | (Raise _, s') => (Ok JNull, s')
    end.

Section Clients.

Variable net : ApiNetwork.

(** [TMDBApi.search_movie] *)
Definition tmdb_search_movie (api_key query : string) (year : option Z) : Api json :=
  try_except
    (abind (api_get net (SearchMovie api_key query (year_param year))) (fun response =>
     if Z.eqb (fst response) 200 then
       abind (alift (response_json (snd response))) (fun data =>
       abind (alift (PyJson.get data "results" JNull)) (fun found =>
       if PyJson.truthy found then
         abind (alift (PyJson.getitem_str data "results")) (fun results =>
         alift (PyJson.getitem_0 results))
       else aret JNull))
     else aret JNull)).

(** [TMDBApi.get_movie_details] *)
Definition tmdb_get_movie_details (api_key : string) (movie_id : json) : Api json :=
  try_except
    (abind (api_get net (MovieDetails api_key movie_id)) (fun response =>
     if Z.eqb (fst response) 200 then alift (response_json (snd response))
     else aret JNull)).

(** The shared body of [OMDBApi.search_movie] and
    [OMDBApi.search_by_imdb_id]. *)
Definition omdb_lookup (req : ApiRequest) : Api json :=
  try_except
    (abind (api_get net req) (fun response =>
     if Z.eqb (fst response) 200 then
       abind (alift (response_json (snd response))) (fun data =>
       abind (alift (PyJson.get data "Response" JNull)) (fun r =>
       if PyJson.is_str r "True" then aret data else aret JNull))
     else aret JNull)).

(** [OMDBApi.search_movie] *)
Definition omdb_search_movie (api_key title : string) (year : option Z) : Api json :=
  omdb_lookup (OmdbSearch api_key title (year_param year)).

(** [OMDBApi.search_by_imdb_id] *)
Definition omdb_search_by_imdb_id (api_key : string) (imdb_id : json) : Api json :=
  omdb_lookup (OmdbByImdbId api_key imdb_id).

(** The two [format_movie_data] methods build strings from arbitrary payload
    values; the service below is modelled for any behaviour of theirs. *)
Variable Formatted : Type.
Variable tmdb_format_movie_data : json -> res Formatted.
Variable omdb_format_movie_data : json -> res Formatted.

(** [tmdb_movie.get('imdb_id') if tmdb_movie and 'imdb_id' in tmdb_movie
    else None] *)
Definition imdb_id_of (tmdb_movie : json) : res json :=
  if PyJson.truthy tmdb_movie then
    match PyJson.py_in "imdb_id" tmdb_movie with
    | Raise e => Raise e
    | Ok true => PyJson.get tmdb_movie "imdb_id" JNull
    | Ok false => Ok JNull
    end
  else Ok JNull.

(** [MovieAPIService.get_movie_details] *)
Definition service_get_movie_details (tmdb_key omdb_key : string) (movie_id : json)
  : Api (option Formatted) :=
  abind (tmdb_get_movie_details tmdb_key movie_id) (fun tmdb_movie =>
  if PyJson.truthy tmdb_movie then
    abind (alift (tmdb_format_movie_data tmdb_movie)) (fun d => aret (Some d))
  else
    abind (alift (imdb_id_of tmdb_movie)) (fun imdb_id =>
    if PyJson.truthy imdb_id then
      abind (omdb_search_by_imdb_id omdb_key imdb_id) (fun omdb_data =>
      if PyJson.truthy omdb_data then
        abind (alift (omdb_format_movie_data omdb_data)) (fun d => aret (Some d))
      else aret None)
    else aret None)).

(** [TMDBApi.search_and_get_details] *)
Definition tmdb_search_and_get_details (api_key movie_name : string)
    (year : option Z) : Api (option Formatted) :=
  abind (tmdb_search_movie api_key movie_name year) (fun search_result =>
  if PyJson.truthy search_result then
    abind (alift (PyJson.getitem_str search_result "id")) (fun movie_id =>
    abind (tmdb_get_movie_details api_key movie_id) (fun movie_details =>
    if PyJson.truthy movie_details then
      abind (alift (tmdb_format_movie_data movie_details)) (fun d => aret (Some d))
    else
      abind (alift (tmdb_format_movie_data search_result)) (fun d => aret (Some d))))
  else aret None).

End Clients.

End MovieApis.

(** ** Vocabulary of the statements *)

(** The normalized stored title of a row, when the cell is a string. *)
Definition norm_title (r : Row) : option string := option_map normalize (title r).

(** The test of the genre filter on a candidate whose genres cell is a
    string. *)
Definition matches (preference_genres : list string) (rec : Rec) : bool :=
  match rec_genres rec with
  | Some g =>
      existsb (fun genre => PyStr.contains (PyStr.lower genre) (PyStr.lower g))
              preference_genres
  | None => false
  end.

(** [a] ranks before [b]: its key is larger, or the keys are equal and [a]
    comes first in the order [prior] of the source frame. *)
Definition ranks_before {A : Type} (key : A -> Q) (prior : A -> A -> Prop)
    (a b : A) : Prop :=
  (key b < key a)%Q \/ ((key a == key b)%Q /\ prior a b).

(** [out] holds the [n] first items of [l] in the order [before]. *)
Definition top_of {A : Type} (before : A -> A -> Prop) (n : Z) (l out : list A)
  : Prop :=
  StronglySorted before out /\
  incl out l /\
  List.length out = Nat.min (Z.to_nat n) (List.length l) /\
  (forall x y, In x l -> ~ In x out -> In y out -> before y x).

(** Catalog order on labelled rows. *)
Definition by_label (a b : nat * Row) : Prop := label a < label b.

(** Rating descending, equal ratings in catalog order. *)
Definition by_rating : nat * Row -> nat * Row -> Prop := ranks_before rating by_label.

(** Vote count descending, equal counts by rating descending, then in
    catalog order. *)
Definition by_votes : nat * Row -> nat * Row -> Prop := ranks_before votes by_rating.

(** A computation that leaves both caches alone and sends at most [b]
    requests. *)
Definition sends_at_most {A : Type} (b : nat) (m : M A) : Prop :=
  forall w r w',
    m w = (r, w') ->
    tmdb_cache w' = tmdb_cache w /\
    omdb_cache w' = omdb_cache w /\
    exists reqs, sent w' = reqs ++ sent w /\ List.length reqs <= b.

(** The 200 reply built from a result of the resolver, the 500 reply of the
    [except] clause when it raised. *)
Definition reply_of (run : res ResolutionResult * World) : HttpReply * World :=
  match run with
  | (Ok results, w') =>
      (Reply200 (searched_movie results) (recommendations results) (status results), w')
  | (Raise _, w') => (Reply500, w')
  end.

(** [data.get('n_recommendations', 10)] on the fields of the body. *)
Definition count_field (fields : list (string * json)) : json :=
  match PyJson.assoc "n_recommendations" fields with
  | Some v => v
  | None => JInt 10
  end.

(** The integer a list slice and the arithmetic of the resolver take the
    count for. *)
Definition count_value (n : Count) : Z :=
  match n with
  | CountInt z => z
  | CountTrue => 1%Z
  end.

(** What a run of the resolver shows when the title lookup found the row
    [movie] at [idx]: either a result that reports the row as found in the
    dataset, in the same world (no provider asked), with the filtered
    cluster recommendations; or the [AttributeError] of the genre filter on a
    candidate without a genres string. *)
Definition reports_row (self : MovieRecommender) (movie_name : string) (n : Z)
    (prefs : list string) (idx : nat) (movie : Row) (w : World)
    (run : res ResolutionResult * World) : Prop :=
  let df := movies_df self in
  let candidates := recommend_for_existing_movie self idx (n * 2) in
  match run with
  | (Ok result, w') =>
      w' = w /\
      status result = "success" /\
      message result = "Movie found in dataset" /\
      searched_movie result =
        Some (FromDataset
                (cell df "title" (title movie) movie_name)
                (cell df "overview" (overview movie) EmptyString)
                (cell df "genres" (genres movie) EmptyString)
                (cell df "release_date" (release_date movie) EmptyString)
                (cell_rating df movie)
                (cell df "poster_path" (poster_path movie) EmptyString)) /\
      exists recs,
        apply_genre_filter prefs candidates = Ok recs /\
        recommendations result = slice_to n recs
  | (Raise e, w') =>
      w' = w /\ e = AttributeError /\ prefs <> [] /\
      exists rec, In rec candidates /\ rec_genres rec = None
  end.

(** A request to TMDB. *)
Definition is_tmdb_request (req : Request) : Prop :=
  match req with
  | TmdbSearch _ _ | TmdbDetails _ _ => True
  | OmdbByTitle _ _ => False
  end.

Definition is_omdb_request (req : Request) : Prop :=
  match req with
  | OmdbByTitle _ _ => True
  | _ => False
  end.

(** A computation that leaves both caches alone and sends only requests
    satisfying [P]. *)
Definition sends_only {A : Type} (P : Request -> Prop) (m : M A) : Prop :=
  forall w r w',
    m w = (r, w') ->
    tmdb_cache w' = tmdb_cache w /\
    omdb_cache w' = omdb_cache w /\
    exists reqs, sent w' = reqs ++ sent w /\ Forall P reqs.

(** Every value a computation returns satisfies [Q]. *)
Definition returns_only {A : Type} (Q : A -> Prop) (m : M A) : Prop :=
  forall w a w', m w = (Ok a, w') -> Q a.

(** A cache holds at most [maxsize] entries, no key twice. *)
Definition cache_ok (c : Cache) : Prop :=
  NoDup (map fst c) /\ List.length c <= maxsize.

(** Every record in a cache carries the given source. *)
Definition cache_source (source : string) (c : Cache) : Prop :=
  forall k info, In (k, Some info) c -> mi_source info = source.

Definition caches_ok (w : World) : Prop :=
  cache_ok (tmdb_cache w) /\ cache_ok (omdb_cache w) /\
  cache_source "TMDB" (tmdb_cache w) /\ cache_source "OMDB" (omdb_cache w).

(** The rows of the queried cluster, in catalog order. *)
Definition cluster_members (self : MovieRecommender) (km : KMeans) (idx : nat)
    (v : Embedding) : Frame :=
  filter (fun x => negb (label x =? idx))
    (map fst
       (filter (fun xl => Z.eqb (snd xl) (predict km v))
          (combine (index_rows (rows (movies_df self))) (labels_ km)))).

(** ** Concrete catalogs, providers and worlds *)

Module Demo.

Definition movie (t g : string) (r v : Q) : Row :=
  {| title := Some t; overview := Some "-"; genres := Some g;
     release_date := Some "2000"; vote_average := r; vote_count := v;
     poster_path := None |}.

Definition all_columns : list string :=
  ["title"; "overview"; "genres"; "release_date"; "vote_average";
   "vote_count"; "poster_path"].

Definition demo_rows : list Row :=
  [ movie "Inception" "Action Sci-Fi" (88 # 10) 30000;
    movie "Interstellar" "Adventure Drama Sci-Fi" (86 # 10) 28000;
    movie "The Matrix" "Action Sci-Fi" (87 # 10) 22000;
    movie "Heat" "Crime Drama" (83 # 10) 6000;
    movie "Alien" "Horror Sci-Fi" (85 # 10) 9000;
    movie " HEAT " "Documentary" (60 # 10) 10 ].

Definition demo_df : DataFrame :=
  {| columns := all_columns; rows := demo_rows; title_is_object := true |}.

(** A cluster model whose [predict] agrees with [labels_] on the demo
    embeddings. *)
Definition demo_km : KMeans :=
  {| labels_ := [0; 0; 0; 1; 1; 1]%Z;
     predict := fun v => match v with [q] => Qnum q | _ => 0%Z end |}.

Definition demo_matrix : list Embedding := [[0]; [0]; [0]; [1]; [1]; [1]]%Q.

Definition demo : MovieRecommender :=
  {| obj_id := 0; movies_df := demo_df; tfidf_matrix := demo_matrix;
     kmeans_model := Some demo_km;
     tmdb_api_key := Some "k1"; omdb_api_key := Some "k2" |}.

(** The same catalog with a model whose [predict] sends every embedding to
    cluster 1, unlike the stored assignment of the first three rows. *)
Definition drifted_km : KMeans :=
  {| labels_ := [0; 0; 0; 1; 1; 1]%Z; predict := fun _ => 1%Z |}.

Definition drifted : MovieRecommender :=
  {| obj_id := 1; movies_df := demo_df; tfidf_matrix := demo_matrix;
     kmeans_model := Some drifted_km;
     tmdb_api_key := Some "k1"; omdb_api_key := Some "k2" |}.

(** A catalog with a blank title after a proper one. *)
Definition blank_rows : list Row :=
  [ movie "Alien" "Horror Sci-Fi" (85 # 10) 9000;
    movie " " "Drama" (50 # 10) 3 ].

Definition blank : MovieRecommender :=
  {| obj_id := 2;
     movies_df := {| columns := all_columns; rows := blank_rows;
                     title_is_object := true |};
     tfidf_matrix := [[0]; [1]]%Q;
     kmeans_model := None;
     tmdb_api_key := None; omdb_api_key := None |}.

(** A catalog whose second row has no genres. *)
Definition sparse : MovieRecommender :=
  {| obj_id := 3;
     movies_df :=
       {| columns := all_columns;
          rows := [ movie "Alien" "Horror Sci-Fi" (85 # 10) 9000;
                    {| title := Some "Solaris"; overview := None; genres := None;
                       release_date := None; vote_average := 80 # 10;
                       vote_count := 500; poster_path := None |} ];
          title_is_object := true |};
     tfidf_matrix := [[0]; [0]]%Q;
     kmeans_model := Some {| labels_ := [0; 0]%Z; predict := fun _ => 0%Z |};
     tmdb_api_key := None; omdb_api_key := None |}.

(** Twelve films, rated 1 to 12, with rating and vote-count columns. *)
Definition dozen : MovieRecommender :=
  {| obj_id := 4;
     movies_df :=
       {| columns := all_columns;
          rows := map (fun k => movie "Film" "Drama" (inject_Z k) (inject_Z k))
                      [1; 2; 3; 4; 5; 6; 7; 8; 9; 10; 11; 12]%Z;
          title_is_object := true |};
     tfidf_matrix := [];
     kmeans_model := None;
     tmdb_api_key := None; omdb_api_key := None |}.

(** A catalog without rows whose title column is float64. *)
Definition untitled : MovieRecommender :=
  {| obj_id := 5;
     movies_df := {| columns := all_columns; rows := []; title_is_object := false |};
     tfidf_matrix := [];
     kmeans_model := None;
     tmdb_api_key := None; omdb_api_key := None |}.

(** The body of a search request. *)
Definition request (movie_name : string) (n_recommendations : json) : json :=
  JObj [("movie_name", JStr movie_name); ("n_recommendations", n_recommendations)].

Definition w0 : World := {| tmdb_cache := []; omdb_cache := []; sent := [] |}.

(** A [float] that parses no string and converts every integer. *)
Definition no_float : PyFloat :=
  {| float_of_string := fun _ => None;
     float_of_int := fun z => Some (inject_Z z) |}.

(** Every request fails in transport. *)
Definition offline : Network := fun _ _ => TransportError.

(** TMDB knows the title; OMDB is unreachable. *)
Definition tmdb_hit : Network :=
  fun _ req =>
    match req with
    | TmdbSearch _ _ =>
        Response 200 (Some (JObj [("results", JArr [JObj [("id", JInt 7)]])]))
    | TmdbDetails _ _ =>
        Response 200
          (Some (JObj [("title", JStr "Zzz");
                       ("genres", JArr [JObj [("name", JStr "Drama")];
                                        JObj [("name", JStr "War")]])]))
    | OmdbByTitle _ _ => TransportError
    end.

(** Both providers answer 200 with a JSON object that lacks the expected
    fields: [{}] from TMDB, a true [Response] with a null [Genre] from OMDB. *)
Definition malformed : Network :=
  fun _ req =>
    match req with
    | OmdbByTitle _ _ =>
        Response 200 (Some (JObj [("Response", JStr "True"); ("Genre", JNull)]))
    | _ => Response 200 (Some (JObj []))
    end.

End Demo.

Module DemoApis.

(** TMDB finds one movie for every search and has no details for it. *)
Definition search_only : MovieApis.ApiNetwork :=
  fun _ req =>
    match req with
    | MovieApis.SearchMovie _ _ _ =>
        Response 200 (Some (JObj [("results", JArr [JObj [("id", JInt 7)]])]))
    | _ => Response 404 None
    end.

End DemoApis.

(** * Properties *)

(** ** String methods *)

Example lower_ex : PyStr.lower "The Matrix" = "the matrix".
Proof. reflexivity. Qed.

Example strip_ex : PyStr.strip "  Heat  " = "Heat".
Proof. reflexivity. Qed.

Example replace_ex : PyStr.replace ", " " " "Action, Sci-Fi, Drama" = "Action Sci-Fi Drama".
Proof. reflexivity. Qed.

Module PyStrFacts.
Import PyStr.

Ltac each_char c :=
  destruct c as [[|] [|] [|] [|] [|] [|] [|] [|]]; vm_compute; reflexivity.

Lemma lower_char_idem (c : ascii) : lower_char (lower_char c) = lower_char c.
Proof. each_char c. Qed.

Lemma is_space_lower_char (c : ascii) : is_space (lower_char c) = is_space c.
Proof. each_char c. Qed.

Lemma lower_idem (s : string) : lower (lower s) = lower s.
Proof.
  induction s as [|c s IH]; simpl; [reflexivity|].
  now rewrite lower_char_idem, IH.
Qed.

Lemma lower_lstrip (s : string) : lower (lstrip s) = lstrip (lower s).
Proof.
  induction s as [|c s IH]; simpl; [reflexivity|].
  rewrite is_space_lower_char.
  destruct (is_space c); [exact IH | reflexivity].
Qed.

Lemma lower_rstrip (s : string) : lower (rstrip s) = rstrip (lower s).
Proof.
  induction s as [|c s IH]; simpl; [reflexivity|].
  rewrite <- IH, is_space_lower_char.
  destruct (rstrip s) as [|d r]; simpl; [|reflexivity].
  destruct (is_space c); reflexivity.
Qed.

Lemma lower_strip (s : string) : lower (strip s) = strip (lower s).
Proof. unfold strip. now rewrite lower_lstrip, lower_rstrip. Qed.

Lemma lstrip_idem (s : string) : lstrip (lstrip s) = lstrip s.
Proof.
  induction s as [|c s IH]; simpl; [reflexivity|].
  destruct (is_space c) eqn:E; [exact IH|].
  simpl. now rewrite E.
Qed.

Lemma rstrip_idem (s : string) : rstrip (rstrip s) = rstrip s.
Proof.
  induction s as [|c s IH]; simpl; [reflexivity|].
  destruct (rstrip s) as [|d r] eqn:E.
  - destruct (is_space c) eqn:Ec; simpl; [reflexivity|].
    now rewrite Ec.
  - change (rstrip (String c (String d r)) = String c (String d r)).
    change (rstrip (String c (String d r)))
      with (match rstrip (String d r) with
            | EmptyString => if is_space c then EmptyString else String c EmptyString
            | r0 => String c r0
            end).
    now rewrite IH.
Qed.

Lemma rstrip_lstrip (s : string) : rstrip (lstrip s) = lstrip (rstrip s).
Proof.
  induction s as [|c s IH]; simpl; [reflexivity|].
  destruct (is_space c) eqn:Ec.
  - rewrite IH. destruct (rstrip s) as [|d r]; simpl; [reflexivity|].
    now rewrite Ec.
  - simpl. destruct (rstrip s) as [|d r]; simpl; now rewrite Ec.
Qed.

Lemma strip_idem (s : string) : strip (strip s) = strip s.
Proof.
  unfold strip.
  now rewrite rstrip_lstrip, rstrip_idem, lstrip_idem.
Qed.

(** The empty string occurs in every string. *)
Lemma contains_empty (s : string) : contains EmptyString s = true.
Proof. destruct s; reflexivity. Qed.

End PyStrFacts.

Lemma normalize_idem (s : string) : normalize (normalize s) = normalize s.
Proof.
  unfold normalize.
  now rewrite PyStrFacts.lower_strip, PyStrFacts.lower_idem, PyStrFacts.strip_idem.
Qed.

(** ** First occurrence *)

Lemma find_first_some {A : Type} (p : A -> bool) (l : list A) (i : nat) :
  find_first p l = Some i ->
  (exists x, nth_error l i = Some x /\ p x = true) /\
  (forall j y, j < i -> nth_error l j = Some y -> p y = false).
Proof.
  revert i. induction l as [|a l IH]; intros i H; simpl in H; [discriminate|].
  destruct (p a) eqn:Ea.
  - injection H as <-. split; [exists a; now split | intros j y Hj; lia].
  - destruct (find_first p l) as [k|] eqn:Ek; [|discriminate].
    injection H as <-. destruct (IH k eq_refl) as [[x [Hx Hp]] Hmin].
    split; [exists x; now split|].
    intros [|j] y Hj Hy; simpl in Hy.
    + now injection Hy as <-.
    + apply (Hmin j y); [lia | exact Hy].
Qed.

Lemma find_first_none {A : Type} (p : A -> bool) (l : list A) :
  find_first p l = None <-> (forall x, In x l -> p x = false).
Proof.
  induction l as [|a l IH]; simpl.
  - split; [intros _ x [] | reflexivity].
  - destruct (p a) eqn:Ea.
    + split; [discriminate|]. intros H. specialize (H a (or_introl eq_refl)). congruence.
    + destruct (find_first p l) as [k|].
      * split; [discriminate|]. intros H.
        assert (E : Some k = None) by (apply IH; intros x Hx; apply H; now right).
        discriminate E.
      * split; [|reflexivity]. intros _ x [<-|Hx]; [exact Ea|].
        now apply IH.
Qed.

Lemma find_first_le {A : Type} (p : A -> bool) (l : list A) (i : nat) (x : A) :
  nth_error l i = Some x -> p x = true ->
  exists j, find_first p l = Some j /\ j <= i.
Proof.
  intros Hx Hp.
  destruct (find_first p l) as [j|] eqn:E.
  - exists j. split; [reflexivity|].
    destruct (find_first_some p l j E) as [_ Hmin].
    destruct (Nat.le_gt_cases j i) as [|Hlt]; [assumption|].
    specialize (Hmin i x Hlt Hx). congruence.
  - rewrite find_first_none in E.
    specialize (E x (nth_error_In _ _ Hx)). congruence.
Qed.

(** ** Title lookup *)

Lemma exact_mask_iff (q : string) (r : Row) :
  exact_mask q r = true <-> norm_title r = Some q.
Proof.
  unfold exact_mask, norm_title, normalize.
  destruct (title r) as [t|]; simpl.
  - rewrite String.eqb_eq. split; [now intros -> | now intros [= ->]].
  - split; discriminate.
Qed.

Lemma exact_mask_false_iff (q : string) (r : Row) :
  exact_mask q r = false <-> norm_title r <> Some q.
Proof.
  rewrite <- exact_mask_iff. destruct (exact_mask q r); split; congruence.
Qed.

Lemma partial_mask_empty (r : Row) : partial_mask EmptyString r = has_title r.
Proof.
  unfold partial_mask, has_title.
  destruct (title r); [apply PyStrFacts.contains_empty | reflexivity].
Qed.

Lemma find_first_ext {A : Type} (p q : A -> bool) (l : list A) :
  (forall x, p x = q x) -> find_first p l = find_first q l.
Proof.
  intros E. induction l as [|a l IH]; simpl; [reflexivity|].
  now rewrite E, IH.
Qed.

(** A frame with a string title has a title column the accessor takes. *)
Lemma str_accessor_titled (df : DataFrame) (r : Row) :
  In r (rows df) -> has_title r = true -> str_accessor_ok df = true.
Proof.
  intros Hin Ht. unfold str_accessor_ok. apply Bool.orb_true_iff. left.
  apply existsb_exists. now exists r.
Qed.

(** C7.  Looking up the normalized title of a catalog row returns the first
    row, in catalog order, whose normalized title is the same; it is that row
    itself when no earlier row shares the normalized title. *)
Theorem find_exact_first_occurrence (self : MovieRecommender) (i : nat) (r : Row)
    (t : string) :
  has_col (movies_df self) "title" = true ->
  nth_error (rows (movies_df self)) i = Some r ->
  title r = Some t ->
  exists j r',
    find_movie_in_dataset self (normalize t) = Ok (Some j) /\
    nth_error (rows (movies_df self)) j = Some r' /\
    norm_title r' = Some (normalize t) /\
    j <= i /\
    (forall k rk, k < j -> nth_error (rows (movies_df self)) k = Some rk ->
                  norm_title rk <> Some (normalize t)) /\
    ((forall k rk, k < i -> nth_error (rows (movies_df self)) k = Some rk ->
                   norm_title rk <> Some (normalize t)) ->
     j = i /\ r' = r).
Proof.
  intros Hcol Hr Ht.
  assert (Hexact : exact_mask (normalize t) r = true).
  { apply exact_mask_iff. unfold norm_title. now rewrite Ht. }
  destruct (find_first_le _ _ _ _ Hr Hexact) as [j [Hj Hle]].
  destruct (find_first_some _ _ _ Hj) as [[r' [Hr' Hp]] Hmin].
  exists j, r'.
  split.
  { unfold find_movie_in_dataset. rewrite Hcol.
    rewrite (str_accessor_titled (movies_df self) r);
      [|now apply (nth_error_In _ i) | unfold has_title; now rewrite Ht].
    fold (normalize (normalize t)). rewrite normalize_idem. now rewrite Hj. }
  split; [exact Hr'|].
  split; [now apply exact_mask_iff|].
  split; [exact Hle|].
  split.
  { intros k rk Hk Hrk. apply exact_mask_false_iff. now apply (Hmin k rk). }
  intros Hfirst.
  assert (j = i) as ->.
  { destruct (Nat.eq_dec j i) as [|Hne]; [assumption|].
    exfalso. apply (Hfirst j r'); [lia | exact Hr' | now apply exact_mask_iff]. }
  split; [reflexivity | congruence].
Qed.

Lemma find_exact_first_occurrence_witness :
  exists j r',
    find_movie_in_dataset Demo.demo (normalize " HEAT ") = Ok (Some j) /\
    nth_error (rows (movies_df Demo.demo)) j = Some r' /\
    norm_title r' = Some (normalize " HEAT ") /\
    j <= 5 /\
    (forall k rk, k < j -> nth_error (rows (movies_df Demo.demo)) k = Some rk ->
                  norm_title rk <> Some (normalize " HEAT ")) /\
    ((forall k rk, k < 5 -> nth_error (rows (movies_df Demo.demo)) k = Some rk ->
                   norm_title rk <> Some (normalize " HEAT ")) ->
     j = 5 /\ r' = Demo.movie " HEAT " "Documentary" (60 # 10) 10).
Proof.
  apply (find_exact_first_occurrence Demo.demo 5 _ " HEAT "); reflexivity.
Defined.

Example find_exact_tie : find_movie_in_dataset Demo.demo "heat" = Ok (Some 3).
Proof. reflexivity. Qed.

(** ** Slices and the genre filter *)

Lemma slice_to_incl {A : Type} (n : Z) (l : list A) (x : A) :
  In x (slice_to n l) -> In x l.
Proof.
  unfold slice_to. intros H.
  destruct (0 <=? n)%Z;
    match type of H with
    | In _ (firstn ?k _) => rewrite <- (firstn_skipn k l)
    end; apply in_or_app; now left.
Qed.

Lemma slice_to_length {A : Type} (n : Z) (l : list A) :
  (0 <= n)%Z -> (Z.of_nat (List.length (slice_to n l)) <= n)%Z.
Proof.
  intros Hn. unfold slice_to.
  destruct (Z.leb_spec 0 n) as [_|]; [|lia].
  rewrite length_firstn. lia.
Qed.

Lemma slice_to_nonempty {A : Type} (n : Z) (l : list A) :
  (1 <= n)%Z -> l <> [] -> slice_to n l <> [].
Proof.
  intros Hn Hl. unfold slice_to.
  destruct (Z.leb_spec 0 n) as [_|]; [|lia].
  destruct l as [|a l]; [congruence|].
  destruct (Z.to_nat n) as [|k] eqn:E; [lia|].
  simpl. discriminate.
Qed.

Lemma filter_recs_total (prefs : list string) (recs : list Rec) :
  prefs <> [] ->
  Forall (fun rec => rec_genres rec <> None) recs ->
  filter_recs prefs recs = Ok (filter (matches prefs) recs).
Proof.
  intros Hp Hg. induction Hg as [|rec recs Hrec _ IH]; simpl; [reflexivity|].
  rewrite IH. unfold genre_match, matches.
  destruct prefs as [|p ps]; [congruence|].
  destruct (rec_genres rec) as [g|]; [|congruence].
  reflexivity.
Qed.

Lemma filter_recs_incl (prefs : list string) (recs kept : list Rec) :
  filter_recs prefs recs = Ok kept -> incl kept recs.
Proof.
  revert kept. induction recs as [|rec recs IH]; simpl; intros kept H.
  - injection H as <-. apply incl_refl.
  - destruct (genre_match prefs rec) as [keep|]; [|discriminate].
    destruct (filter_recs prefs recs) as [k|]; [|discriminate].
    injection H as <-. specialize (IH k eq_refl).
    destruct keep.
    + intros x [<-|Hx]; [now left | right; now apply IH].
    + intros x Hx. right. now apply IH.
Qed.

Lemma apply_genre_filter_incl (prefs : list string) (recs out : list Rec) :
  apply_genre_filter prefs recs = Ok out -> incl out recs.
Proof.
  unfold apply_genre_filter. destruct prefs as [|p ps].
  - intros [= <-]. apply incl_refl.
  - destruct (filter_recs (p :: ps) recs) as [[|k ks]|] eqn:E; intros H;
      [injection H as <-; apply incl_refl | | discriminate].
    injection H as <-. now apply (filter_recs_incl (p :: ps)).
Qed.

(** ** The rankers tag what they produce *)

Lemma popular_tagged (self : MovieRecommender) (n : Z) (rec : Rec) :
  In rec (get_popular_movies self n) ->
  similarity_score rec = 0%Q /\ recommendation_method rec = "popular".
Proof.
  unfold get_popular_movies. rewrite in_map_iff.
  intros [x [<- _]]. now split.
Qed.

Lemma existing_tagged (self : MovieRecommender) (idx : nat) (n : Z) (rec : Rec) :
  In rec (recommend_for_existing_movie self idx n) ->
  similarity_score rec = 0%Q /\
  (recommendation_method rec = "popular" \/
   recommendation_method rec = "cluster_based" /\ kmeans_model self <> None).
Proof.
  unfold recommend_for_existing_movie.
  destruct (kmeans_model self) as [km|].
  - destruct (cluster_frame self km idx n) as [top|e].
    + rewrite in_map_iff. intros [x [<- _]].
      split; [reflexivity|]. right. split; [reflexivity | discriminate].
    + intros H. destruct (popular_tagged _ _ _ H). now split; [|left].
  - intros H. destruct (popular_tagged _ _ _ H). now split; [|left].
Qed.

(** ** The resolver *)

Section ResolverFacts.

Variable pyfloat : PyFloat.
Variable net : Network.

Lemma get_recommendations_eq (self : MovieRecommender) (name : string) (n : Z)
    (prefs : list string) (w : World) :
  get_recommendations pyfloat net self name n prefs w =
  match resolve_candidates pyfloat net self name n w with
  | (Ok pre, w') =>
      match apply_genre_filter prefs (snd pre) with
      | Ok recs =>
          (Ok {| status := status (fst pre);
                 searched_movie := searched_movie (fst pre);
                 recommendations := slice_to n recs;
                 message := message (fst pre) |}, w')
      | Raise e => (Raise e, w')
      end
  | (Raise e, w') => (Raise e, w')
  end.
Proof.
  unfold get_recommendations, bind, lift, ret.
  destruct (resolve_candidates pyfloat net self name n w) as [[pre|e] w']; [|reflexivity].
  destruct (apply_genre_filter prefs (snd pre)); reflexivity.
Qed.

(** The three branches of lines 230-253. *)
Lemma resolve_candidates_eq (self : MovieRecommender) (name : string) (n : Z)
    (w : World) :
  resolve_candidates pyfloat net self name n w =
  match find_movie_in_dataset self name with
  | Raise e => (Raise e, w)
  | Ok (Some idx) =>
      match nth_error (rows (movies_df self)) idx with
      | None => (Raise IndexError, w)
      | Some movie =>
          (Ok ({| status := "success";
                  searched_movie :=
                    Some (FromDataset
                            (cell (movies_df self) "title" (title movie) name)
                            (cell (movies_df self) "overview" (overview movie) EmptyString)
                            (cell (movies_df self) "genres" (genres movie) EmptyString)
                            (cell (movies_df self) "release_date" (release_date movie) EmptyString)
                            (cell_rating (movies_df self) movie)
                            (cell (movies_df self) "poster_path" (poster_path movie) EmptyString));
                  recommendations := [];
                  message := "Movie found in dataset" |},
               recommend_for_existing_movie self idx (n * 2)), w)
      end
  | Ok None =>
      match lookup_any pyfloat net self name w with
      | (Raise e, w1) => (Raise e, w1)
      | (Ok (Some info), w1) =>
          (Ok ({| status := "success";
                  searched_movie := Some (FromProvider info);
                  recommendations := [];
                  message := ("Movie found via " ++ mi_source info ++ " API")%string |},
               get_popular_movies self (n * 2)), w1)
      | (Ok None, w1) =>
          (Ok ({| status := "not_found";
                  searched_movie := None;
                  recommendations := [];
                  message := ("Movie " ++ dquote ++ name ++ dquote ++ " not found")%string |},
               get_popular_movies self n), w1)
      end
  end.
Proof.
  unfold resolve_candidates, bind, lift, ret.
  destruct (find_movie_in_dataset self name) as [[idx|]|e]; [| |reflexivity].
  - destruct (nth_error (rows (movies_df self)) idx); reflexivity.
  - destruct (lookup_any pyfloat net self name w) as [[[info|]|e] w1]; reflexivity.
Qed.

(** C1 (amended).  The status is [success] both when the title matched the
    local catalog and when a provider resolved it, and [not_found] when both
    missed; the two found branches differ in the message and in the source of
    the searched movie. *)
Theorem status_reports_found_or_not (self : MovieRecommender) (name : string)
    (n : Z) (prefs : list string) (w w' : World) (result : ResolutionResult) :
  get_recommendations pyfloat net self name n prefs w = (Ok result, w') ->
  match find_movie_in_dataset self name with
  | Ok (Some idx) =>
      status result = "success" /\
      message result = "Movie found in dataset" /\
      option_map source_of (searched_movie result) = Some "dataset" /\
      w' = w
  | Ok None =>
      match lookup_any pyfloat net self name w with
      | (Ok (Some info), w1) =>
          status result = "success" /\
          message result = ("Movie found via " ++ mi_source info ++ " API")%string /\
          searched_movie result = Some (FromProvider info) /\
          w' = w1
      | (Ok None, w1) =>
          status result = "not_found" /\ searched_movie result = None /\ w' = w1
      | (Raise _, _) => False
      end
  | Raise _ => False
  end.
Proof.
  rewrite get_recommendations_eq, resolve_candidates_eq.
  destruct (find_movie_in_dataset self name) as [[idx|]|e].
  - destruct (nth_error (rows (movies_df self)) idx) as [movie|]; [|discriminate].
    simpl. destruct (apply_genre_filter prefs _); [|discriminate].
    intros [= <- <-]. now repeat split.
  - destruct (lookup_any pyfloat net self name w) as [[[info|]|e] w1]; [| |discriminate];
      simpl; (destruct (apply_genre_filter prefs _); [|discriminate]);
      intros [= <- <-]; now repeat split.
  - discriminate.
Qed.

(** What holds of the genre filter when every candidate has a genres string:
    with at least one preferred genre and a requested count of at least one,
    a non-empty candidate list gives a non-empty recommendation list; when no
    candidate matches, the recommendations are cut from the unfiltered
    candidates, otherwise from the matching ones. *)
Theorem genre_filter_never_empties (self : MovieRecommender) (name : string)
    (n : Z) (prefs : list string) (w w' : World) (pre : ResolutionResult)
    (recs : list Rec) :
  (1 <= n)%Z ->
  prefs <> [] ->
  resolve_candidates pyfloat net self name n w = (Ok (pre, recs), w') ->
  recs <> [] ->
  Forall (fun rec => rec_genres rec <> None) recs ->
  exists result,
    get_recommendations pyfloat net self name n prefs w = (Ok result, w') /\
    recommendations result <> [] /\
    ((forall rec, In rec recs -> matches prefs rec = false) ->
     recommendations result = slice_to n recs) /\
    ((exists rec, In rec recs /\ matches prefs rec = true) ->
     recommendations result = slice_to n (filter (matches prefs) recs)).
Proof.
  intros Hn Hp Hpre Hrecs Hg.
  rewrite get_recommendations_eq, Hpre. simpl.
  unfold apply_genre_filter.
  destruct prefs as [|p ps]; [congruence|].
  rewrite (filter_recs_total (p :: ps) recs Hp Hg).
  destruct (filter (matches (p :: ps)) recs) as [|k ks] eqn:E.
  - eexists. split; [reflexivity|]. simpl.
    split; [now apply slice_to_nonempty|].
    split; [reflexivity|].
    intros [rec [Hin Hm]].
    assert (Hk : In rec (filter (matches (p :: ps)) recs))
      by (apply filter_In; now split).
    rewrite E in Hk. destruct Hk.
  - eexists. split; [reflexivity|]. simpl.
    split; [apply slice_to_nonempty; [exact Hn | discriminate]|].
    split; [|reflexivity].
    intros Hnone.
    assert (Hk : In k (filter (matches (p :: ps)) recs)) by (rewrite E; now left).
    apply filter_In in Hk. destruct Hk as [Hin Hm].
    rewrite (Hnone k Hin) in Hm. discriminate.
Qed.

Lemma validate_count_int (n : Z) :
  validate_count (JInt n) = CountInt (if ((1 <=? n) && (n <=? 50))%Z then n else 10).
Proof. unfold validate_count. now destruct ((1 <=? n) && (n <=? 50))%Z. Qed.

Lemma validate_count_range (n_recommendations : json) :
  (1 <= count_value (validate_count n_recommendations) <= 50)%Z.
Proof.
  destruct n_recommendations as [|[|]|z| | | |]; simpl; try lia.
  destruct (Z.leb_spec 1 z); destruct (Z.leb_spec z 50); simpl; lia.
Qed.

(** With an integer count the resolver of [api_search] is
    [get_recommendations]. *)
Lemma get_recommendations_count_int (self : MovieRecommender) (name : string)
    (z : Z) (prefs : list string) (w : World) :
  get_recommendations_count pyfloat net self name (CountInt z) prefs w =
  get_recommendations pyfloat net self name z prefs w.
Proof.
  unfold get_recommendations_count, get_recommendations, resolve_candidates_count,
    resolve_candidates, bind, lift, ret. simpl.
  destruct (find_movie_in_dataset self name) as [[idx|]|e]; [| |reflexivity].
  - destruct (nth_error (rows (movies_df self)) idx); reflexivity.
  - destruct (lookup_any pyfloat net self name w) as [[[info|]|e] w1]; reflexivity.
Qed.

(** With [True] a returning run is the run for the count 1; the not-found
    branch does not return. *)
Lemma get_recommendations_count_true (self : MovieRecommender) (name : string)
    (prefs : list string) (w w' : World) (result : ResolutionResult) :
  get_recommendations_count pyfloat net self name CountTrue prefs w = (Ok result, w') ->
  get_recommendations pyfloat net self name 1 prefs w = (Ok result, w') /\
  status result = "success".
Proof.
  unfold get_recommendations_count, get_recommendations, resolve_candidates_count,
    resolve_candidates, bind, lift, ret. simpl.
  destruct (find_movie_in_dataset self name) as [[idx|]|e]; [| |discriminate].
  - destruct (nth_error (rows (movies_df self)) idx); [|discriminate]. simpl.
    destruct (apply_genre_filter prefs _); [|discriminate].
    intros [= <- <-]. now split.
  - destruct (lookup_any pyfloat net self name w) as [[[info|]|e] w1];
      [| discriminate | discriminate]. simpl.
    destruct (apply_genre_filter prefs _); [|discriminate].
    intros [= <- <-]. now split.
Qed.

Lemma get_recommendations_length (self : MovieRecommender) (name : string)
    (n : Z) (prefs : list string) (w w' : World) (result : ResolutionResult) :
  (0 <= n)%Z ->
  get_recommendations pyfloat net self name n prefs w = (Ok result, w') ->
  (Z.of_nat (List.length (recommendations result)) <= n)%Z.
Proof.
  intros Hn. rewrite get_recommendations_eq.
  destruct (resolve_candidates pyfloat net self name n w) as [[pre|e] w1]; [|discriminate].
  destruct (apply_genre_filter prefs (snd pre)) as [recs|e]; [|discriminate].
  intros [= <- _]. simpl. now apply slice_to_length.
Qed.

(** [api_search] on a body with a string [movie_name] that is not blank. *)
Lemma api_search_named (movie_recommender : option MovieRecommender)
    (fields : list (string * json)) (raw : string) (w : World) :
  PyJson.assoc "movie_name" fields = Some (JStr raw) ->
  PyStr.strip raw <> EmptyString ->
  api_search pyfloat net movie_recommender (JObj fields) w =
  match movie_recommender with
  | None => (Reply503, w)
  | Some self =>
      reply_of (get_recommendations_count pyfloat net self (PyStr.strip raw)
                  (validate_count (count_field fields)) [] w)
  end.
Proof.
  intros Hname Hblank. unfold api_search, count_field. simpl.
  destruct fields as [|f fields]; [discriminate|].
  cbn [PyJson.truthy negb]. rewrite Hname.
  destruct (PyJson.assoc "n_recommendations" (f :: fields));
    destruct (PyJson.assoc "preference_genres" (f :: fields));
    (destruct (String.eqb_spec (PyStr.strip raw) EmptyString); [contradiction|]);
    destruct movie_recommender; reflexivity.
Qed.

(** C5.  For a count in [1, 50] the recommendation list is no longer than the
    count.  [api_search] calls the resolver with the integer count of the
    request when it lies in [1, 50] and with 10 otherwise, also when the
    request has no count, and answers with that result: a count outside the
    range behaves as the count 10, and the reply is not a rejection. *)
Theorem count_is_bounded_or_clamped (self : MovieRecommender) (name raw : string)
    (fields : list (string * json)) (n : Z) (prefs : list string) (w : World) :
  (forall result w',
      (1 <= n <= 50)%Z ->
      get_recommendations pyfloat net self name n prefs w = (Ok result, w') ->
      (Z.of_nat (List.length (recommendations result)) <= n)%Z) /\
  (PyJson.assoc "movie_name" fields = Some (JStr raw) ->
   PyStr.strip raw <> EmptyString ->
   (PyJson.assoc "n_recommendations" fields = Some (JInt n) ->
    api_search pyfloat net (Some self) (JObj fields) w =
    reply_of (get_recommendations pyfloat net self (PyStr.strip raw)
                (if ((1 <=? n) && (n <=? 50))%Z then n else 10) [] w)) /\
   (PyJson.assoc "n_recommendations" fields = None ->
    api_search pyfloat net (Some self) (JObj fields) w =
    reply_of (get_recommendations pyfloat net self (PyStr.strip raw) 10 [] w)) /\
   (PyJson.assoc "n_recommendations" fields = Some (JInt n) ->
    forall movie recs reply_status w',
      api_search pyfloat net (Some self) (JObj fields) w
        = (Reply200 movie recs reply_status, w') ->
      (Z.of_nat (List.length recs)
       <= (if ((1 <=? n) && (n <=? 50))%Z then n else 10))%Z)).
Proof.
  split.
  - intros result w' Hn. apply get_recommendations_length. lia.
  - intros Hname Hblank.
    assert (Hint : PyJson.assoc "n_recommendations" fields = Some (JInt n) ->
                   api_search pyfloat net (Some self) (JObj fields) w =
                   reply_of (get_recommendations pyfloat net self (PyStr.strip raw)
                               (if ((1 <=? n) && (n <=? 50))%Z then n else 10) [] w)).
    { intros Hn. rewrite (api_search_named _ _ raw) by assumption.
      unfold count_field. rewrite Hn, validate_count_int.
      now rewrite get_recommendations_count_int. }
    split; [exact Hint|]. split.
    + intros Hn. rewrite (api_search_named _ _ raw) by assumption.
      unfold count_field. rewrite Hn. simpl.
      now rewrite get_recommendations_count_int.
    + intros Hn movie recs st w'. rewrite (Hint Hn). unfold reply_of.
      destruct (get_recommendations pyfloat net self (PyStr.strip raw)
                  (if ((1 <=? n) && (n <=? 50))%Z then n else 10) [] w)
        as [[result|e] w1] eqn:E; [|discriminate].
      intros [= _ <- _ _].
      apply get_recommendations_length in E; [exact E|].
      destruct (Z.leb_spec 1 n); destruct (Z.leb_spec n 50); simpl; lia.
Qed.

(** C9 (amended).  Every recommendation carries the constant similarity score
    0 and a method tag: [cluster_based] only for a title found locally with a
    cluster model loaded, [popular] for the popularity ranking. *)
Theorem recommendation_score_and_method (self : MovieRecommender) (name : string)
    (n : Z) (prefs : list string) (w w' : World) (result : ResolutionResult)
    (rec : Rec) :
  get_recommendations pyfloat net self name n prefs w = (Ok result, w') ->
  In rec (recommendations result) ->
  similarity_score rec = 0%Q /\
  (recommendation_method rec = "popular" \/
   recommendation_method rec = "cluster_based" /\
   kmeans_model self <> None /\
   exists idx, find_movie_in_dataset self name = Ok (Some idx)).
Proof.
  rewrite get_recommendations_eq, resolve_candidates_eq.
  intros Hrun Hin.
  assert (Hpop : forall k recs out,
             apply_genre_filter prefs (get_popular_movies self k) = Ok recs ->
             out = slice_to n recs -> In rec out ->
             similarity_score rec = 0%Q /\ recommendation_method rec = "popular").
  { intros k recs out Hf -> Hr.
    apply (popular_tagged self k).
    apply (apply_genre_filter_incl _ _ _ Hf).
    now apply slice_to_incl in Hr. }
  destruct (find_movie_in_dataset self name) as [[idx|]|e]; [| |discriminate].
  - destruct (nth_error (rows (movies_df self)) idx) as [movie|]; [|discriminate].
    simpl in Hrun.
    destruct (apply_genre_filter prefs _) as [recs|] eqn:Hf; [|discriminate].
    injection Hrun as <- _. simpl in Hin.
    apply slice_to_incl in Hin. apply (apply_genre_filter_incl _ _ _ Hf) in Hin.
    destruct (existing_tagged _ _ _ _ Hin) as [Hs [Hm|[Hm Hk]]].
    + split; [exact Hs | now left].
    + split; [exact Hs|]. right. repeat split; try assumption. now exists idx.
  - destruct (lookup_any pyfloat net self name w) as [[[info|]|e] w1]; [| |discriminate];
      simpl in Hrun;
      (destruct (apply_genre_filter prefs _) as [recs|] eqn:Hf; [|discriminate]);
      injection Hrun as <- _; simpl in Hin;
      destruct (Hpop _ _ _ Hf eq_refl Hin) as [Hs Hm];
      (split; [exact Hs | now left]).
Qed.

End ResolverFacts.

(** ** The resolver on the demo catalog *)

Lemma status_reports_found_or_not_witness :
  exists result w',
    get_recommendations Demo.no_float Demo.tmdb_hit Demo.demo "Zzz" 2 [] Demo.w0
      = (Ok result, w') /\
    status result = "success" /\
    message result = "Movie found via TMDB API".
Proof.
  destruct (get_recommendations Demo.no_float Demo.tmdb_hit Demo.demo "Zzz" 2 []
              Demo.w0) as [[result|e] w'] eqn:E;
    [|vm_compute in E; discriminate E].
  exists result, w'. split; [reflexivity|].
  pose proof (status_reports_found_or_not _ _ _ _ _ _ _ _ _ E) as H.
  cbn in H. destruct H as [Hs [Hm _]]. now split.
Defined.

(** C1, as stated, fails: a title found in the catalog and a title found by
    a provider both give the status [success]. *)
Lemma status_found_local_counterexample :
  find_movie_in_dataset Demo.demo "Inception" = Ok (Some 0) /\
  option_map status
    (result_of (get_recommendations Demo.no_float Demo.offline Demo.demo
                  "Inception" 2 [] Demo.w0)) = Some "success" /\
  option_map status
    (result_of (get_recommendations Demo.no_float Demo.offline Demo.demo
                  "Inception" 2 [] Demo.w0)) <> Some "found_local" /\
  find_movie_in_dataset Demo.demo "Zzz" = Ok None /\
  option_map status
    (result_of (get_recommendations Demo.no_float Demo.tmdb_hit Demo.demo
                  "Zzz" 2 [] Demo.w0)) = Some "success" /\
  option_map status
    (result_of (get_recommendations Demo.no_float Demo.tmdb_hit Demo.demo
                  "Zzz" 2 [] Demo.w0)) <> Some "found_external".
Proof.
  repeat split; try reflexivity; vm_compute; discriminate.
Qed.

Lemma genre_filter_never_empties_witness :
  exists result,
    get_recommendations Demo.no_float Demo.offline Demo.demo "Inception" 2
      ["Nonexistent Genre"] Demo.w0 = (Ok result, Demo.w0) /\
    recommendations result <> [] /\
    recommendations result =
      slice_to 2 (recommend_for_existing_movie Demo.demo 0 4).
Proof.
  edestruct (genre_filter_never_empties Demo.no_float Demo.offline Demo.demo
               "Inception" 2 ["Nonexistent Genre"] Demo.w0)
    as [result [Hrun [Hne [Hnone _]]]].
  - lia.
  - discriminate.
  - reflexivity.
  - discriminate.
  - repeat constructor; discriminate.
  - exists result. split; [exact Hrun|]. split; [exact Hne|].
    apply Hnone. intros rec Hin.
    repeat (destruct Hin as [<-|Hin]; [reflexivity|]). destruct Hin.
Defined.

Lemma count_is_bounded_or_clamped_witness :
  (forall result w',
      get_recommendations Demo.no_float Demo.offline Demo.dozen "Zzz" 2 [] Demo.w0
        = (Ok result, w') ->
      (Z.of_nat (List.length (recommendations result)) <= 2)%Z) /\
  api_search Demo.no_float Demo.offline (Some Demo.dozen)
    (Demo.request " Zzz " (JInt 99)) Demo.w0
  = reply_of (get_recommendations Demo.no_float Demo.offline Demo.dozen "Zzz" 10 []
                Demo.w0) /\
  api_search Demo.no_float Demo.offline (Some Demo.dozen)
    (Demo.request " Zzz " (JInt 3)) Demo.w0
  = reply_of (get_recommendations Demo.no_float Demo.offline Demo.dozen "Zzz" 3 []
                Demo.w0).
Proof.
  split; [|split].
  - intros result w'.
    apply (proj1 (count_is_bounded_or_clamped Demo.no_float Demo.offline Demo.dozen
                    "Zzz" "" [] 2 [] Demo.w0)).
    lia.
  - apply (proj1 (proj2 (count_is_bounded_or_clamped Demo.no_float Demo.offline
                           Demo.dozen "" " Zzz "
                           [("movie_name", JStr " Zzz "); ("n_recommendations", JInt 99)]
                           99 [] Demo.w0) eq_refl ltac:(discriminate)) eq_refl).
  - apply (proj1 (proj2 (count_is_bounded_or_clamped Demo.no_float Demo.offline
                           Demo.dozen "" " Zzz "
                           [("movie_name", JStr " Zzz "); ("n_recommendations", JInt 3)]
                           3 [] Demo.w0) eq_refl ltac:(discriminate)) eq_refl).
Defined.

(** On a catalog of twelve films a request for 99, for 0 or without a count
    gets ten recommendations, a request for 3 gets three. *)
Example clamped_counts :
  map (fun n =>
         match fst (api_search Demo.no_float Demo.offline (Some Demo.dozen)
                      (Demo.request "Zzz" n) Demo.w0) with
         | Reply200 _ recs _ => Some (List.length recs)
         | _ => None
         end)
      [JInt 99; JInt 0; JInt (-3); JInt 51; JInt 3; JInt 50; JStr "7"; JFloat 7; JNull]
  = [Some 10; Some 10; Some 10; Some 10; Some 3; Some 12; Some 10; Some 10; Some 10] /\
  match fst (api_search Demo.no_float Demo.offline (Some Demo.dozen)
               (JObj [("movie_name", JStr "Zzz")]) Demo.w0) with
  | Reply200 _ recs _ => Some (List.length recs)
  | _ => None
  end = Some 10.
Proof. split; reflexivity. Qed.

(** The count [True] passes the range check as it is; the popularity ranking
    of the not-found branch rejects it, and the reply is 500. *)
Example validate_count_values :
  map validate_count [JInt 7; JInt 0; JInt 51; JInt (-3); JStr "7"; JFloat 7; JNull;
                      JBool true; JBool false]
  = [CountInt 7; CountInt 10; CountInt 10; CountInt 10; CountInt 10; CountInt 10;
     CountInt 10; CountTrue; CountInt 10] /\
  fst (api_search Demo.no_float Demo.offline (Some Demo.dozen)
         (Demo.request "Zzz" (JBool true)) Demo.w0) = Reply500.
Proof. split; reflexivity. Qed.

Example count_two_returns :
  option_map (fun r => List.length (recommendations r))
    (result_of (get_recommendations Demo.no_float Demo.offline Demo.demo "Zzz" 2 []
                  Demo.w0)) = Some 2.
Proof. reflexivity. Qed.

Lemma recommendation_score_and_method_witness :
  exists result rec,
    get_recommendations Demo.no_float Demo.offline Demo.demo "Inception" 2 [] Demo.w0
      = (Ok result, Demo.w0) /\
    In rec (recommendations result) /\
    similarity_score rec = 0%Q.
Proof.
  destruct (get_recommendations Demo.no_float Demo.offline Demo.demo "Inception" 2 []
              Demo.w0) as [[result|e] w'] eqn:E;
    [|vm_compute in E; discriminate E].
  pose proof E as E'. vm_compute in E'. injection E' as Hr Hw. subst w'.
  destruct (recommendations result) as [|rec rest] eqn:Erecs;
    [rewrite <- Hr in Erecs; discriminate Erecs|].
  assert (Hin : In rec (recommendations result)) by (rewrite Erecs; now left).
  exists result, rec. split; [reflexivity|].
  split; [exact Hin|].
  exact (proj1 (recommendation_score_and_method _ _ _ _ _ _ _ _ _ _ E Hin)).
Defined.

(** C9, as stated, fails: the two recommendations for "Inception" have the
    ratings 8.7 and 8.6 and both carry the score 0. *)
Lemma similarity_score_counterexample :
  option_map
    (fun r => map (fun rec => (rec_title rec, rec_vote_average rec, similarity_score rec))
                  (recommendations r))
    (result_of (get_recommendations Demo.no_float Demo.offline Demo.demo
                  "Inception" 2 [] Demo.w0))
  = Some [(Some "The Matrix", 87 # 10, 0); (Some "Interstellar", 86 # 10, 0)]%Q.
Proof. reflexivity. Qed.

(** C10, as stated, fails when a stored title is blank: the exact step
    matches the blank title in row 1, not the first titled row 0. *)
Lemma blank_query_counterexample :
  normalize " " = EmptyString /\
  find_first has_title (rows (movies_df Demo.blank)) = Some 0 /\
  find_first (exact_mask EmptyString) (rows (movies_df Demo.blank)) = Some 1 /\
  find_movie_in_dataset Demo.blank " " = Ok (Some 1) /\
  option_map searched_movie
    (result_of (get_recommendations Demo.no_float Demo.offline Demo.blank " " 2 []
                  Demo.w0))
  = Some (Some (FromDataset (Some " ") (Some "-") (Some "Drama") (Some "2000")
                            (50 # 10) None)).
Proof. repeat split. Qed.

(** ** [nlargest]: stable selection of the largest keys *)

Section StableSort.

Context {A : Type}.
Variable key : A -> Q.

(** The order of the source frame. *)
Variable prior : A -> A -> Prop.

Lemma insert_desc_perm (x : A) (l : list A) :
  Permutation (insert_desc key x l) (x :: l).
Proof.
  induction l as [|y ys IH]; simpl; [reflexivity|].
  destruct (Qle_bool (key y) (key x)); [reflexivity|].
  rewrite IH. apply perm_swap.
Qed.

Lemma sort_desc_perm (l : list A) : Permutation (sort_desc key l) l.
Proof.
  induction l as [|x l IH]; simpl; [reflexivity|].
  rewrite insert_desc_perm. now constructor.
Qed.

Lemma ranks_before_le (x z : A) :
  (key z <= key x)%Q -> prior x z -> ranks_before key prior x z.
Proof.
  intros Hle Hp. unfold ranks_before.
  destruct (Qlt_le_dec (key z) (key x)) as [Hlt|Hge]; [now left|].
  right. split; [lra | exact Hp].
Qed.

Lemma ranks_before_key (y z : A) :
  ranks_before key prior y z -> (key z <= key y)%Q.
Proof. unfold ranks_before. intros [H|[H _]]; lra. Qed.

Lemma insert_desc_sorted (x : A) (l : list A) :
  Forall (prior x) l ->
  StronglySorted (ranks_before key prior) l ->
  StronglySorted (ranks_before key prior) (insert_desc key x l).
Proof.
  induction l as [|y ys IH]; intros Hx Hs; simpl.
  - repeat constructor.
  - apply StronglySorted_inv in Hs. destruct Hs as [Hys Hy].
    inversion Hx as [|? ? Hxy Hxys]; subst.
    destruct (Qle_bool (key y) (key x)) eqn:E.
    + apply Qle_bool_iff in E.
      constructor; [now constructor|].
      constructor; [now apply ranks_before_le|].
      rewrite Forall_forall in *. intros z Hz.
      apply ranks_before_le; [|now apply Hxys].
      specialize (Hy z Hz). apply ranks_before_key in Hy. lra.
    + assert (Hlt : (key x < key y)%Q).
      { apply Qnot_le_lt. intros Hle. apply Qle_bool_iff in Hle. congruence. }
      constructor; [now apply IH|].
      rewrite Forall_forall in *. intros z Hz.
      apply (Permutation_in _ (insert_desc_perm x ys)) in Hz.
      destruct Hz as [<-|Hz]; [now left | now apply Hy].
Qed.

Lemma sort_desc_sorted (l : list A) :
  StronglySorted prior l -> StronglySorted (ranks_before key prior) (sort_desc key l).
Proof.
  induction l as [|x l IH]; intros Hs; simpl; [constructor|].
  apply StronglySorted_inv in Hs. destruct Hs as [Hl Hx].
  apply insert_desc_sorted; [|now apply IH].
  rewrite Forall_forall in *. intros z Hz. apply Hx.
  now apply (Permutation_in _ (sort_desc_perm l)).
Qed.

Lemma sorted_app_inv (before : A -> A -> Prop) (l1 l2 : list A) :
  StronglySorted before (l1 ++ l2) ->
  StronglySorted before l1 /\
  (forall y x, In y l1 -> In x l2 -> before y x).
Proof.
  induction l1 as [|a l1 IH]; simpl; intros Hs.
  - split; [constructor | intros y x []].
  - apply StronglySorted_inv in Hs. destruct Hs as [Hs Ha].
    destruct (IH Hs) as [H1 H12].
    rewrite Forall_forall in Ha.
    split.
    + constructor; [exact H1|]. rewrite Forall_forall.
      intros z Hz. apply Ha. apply in_or_app. now left.
    + intros y x [<-|Hy] Hx; [|now apply H12].
      apply Ha. apply in_or_app. now right.
Qed.

(** The first [k] items of a sorted permutation of [l] are the top [k]. *)
Lemma firstn_top_of (before : A -> A -> Prop) (k : nat) (l s : list A) :
  Permutation s l ->
  StronglySorted before s ->
  StronglySorted before (firstn k s) /\
  incl (firstn k s) l /\
  List.length (firstn k s) = Nat.min k (List.length l) /\
  (forall x y, In x l -> ~ In x (firstn k s) -> In y (firstn k s) -> before y x).
Proof.
  intros Hp Hs.
  rewrite <- (firstn_skipn k s) in Hs.
  destruct (sorted_app_inv _ _ _ Hs) as [H1 H12].
  split; [exact H1|].
  split.
  { intros x Hx. apply (Permutation_in _ Hp).
    rewrite <- (firstn_skipn k s). apply in_or_app. now left. }
  split.
  { rewrite length_firstn. now rewrite (Permutation_length Hp). }
  intros x y Hx Hnot Hy. apply H12; [exact Hy|].
  apply (Permutation_in _ (Permutation_sym Hp)) in Hx.
  rewrite <- (firstn_skipn k s) in Hx.
  apply in_app_or in Hx. destruct Hx as [Hx|Hx]; [contradiction | exact Hx].
Qed.

Lemma nlargest_top_of (n : Z) (l : list A) :
  StronglySorted prior l ->
  top_of (ranks_before key prior) n l (nlargest key n l).
Proof.
  intros Hs. unfold top_of, nlargest.
  destruct (Z.leb_spec n 0) as [Hn|Hn].
  - replace (Z.to_nat n) with 0%nat by lia. simpl.
    split; [constructor|]. split; [intros x []|]. split; [reflexivity|].
    intros x y _ _ [].
  - apply firstn_top_of; [apply sort_desc_perm | now apply sort_desc_sorted].
Qed.

End StableSort.

(** ** The popularity ranking *)

Lemma combine_seq_sorted (l : list Row) (s : nat) :
  StronglySorted by_label (combine (seq s (List.length l)) l).
Proof.
  revert s. induction l as [|r l IH]; intros s; simpl; [constructor|].
  constructor; [apply IH|].
  rewrite Forall_forall. intros [i x] Hin.
  apply in_combine_l in Hin. apply in_seq in Hin.
  unfold by_label, label. simpl. lia.
Qed.

Lemma index_rows_sorted (l : list Row) : StronglySorted by_label (index_rows l).
Proof. apply combine_seq_sorted. Qed.

Lemma index_rows_length (l : list Row) : List.length (index_rows l) = List.length l.
Proof. unfold index_rows. rewrite length_combine, length_seq. lia. Qed.

(** C3 (amended).  With both the rating and the vote-count columns, the
    ranking takes the [2 n] best rows by rating (equal ratings in catalog
    order) and returns the [n] of them with the most votes, in descending
    order of votes, equal votes by rating and then catalog order.  With the
    rating column alone it returns the [n] best rows by rating, equal ratings
    in catalog order.  Without the rating column it returns the first [n]
    rows in catalog order. *)
Theorem popular_ranking (self : MovieRecommender) (n : Z) :
  let df := movies_df self in
  let all := index_rows (rows df) in
  get_popular_movies self n = map (to_rec df "popular") (popular_frame self n) /\
  (has_col df "vote_average" = true -> has_col df "vote_count" = true ->
   exists best,
     top_of by_rating (n * 2) all best /\
     top_of by_votes n best (popular_frame self n)) /\
  (has_col df "vote_average" = true -> has_col df "vote_count" = false ->
   top_of by_rating n all (popular_frame self n)) /\
  (has_col df "vote_average" = false ->
   popular_frame self n = slice_to n all).
Proof.
  intros df all. split; [reflexivity|].
  unfold popular_frame. fold df. fold all.
  split; [|split].
  - intros -> ->. simpl.
    exists (nlargest rating (n * 2) all). split.
    + apply nlargest_top_of. apply index_rows_sorted.
    + apply nlargest_top_of.
      apply (nlargest_top_of rating by_label (n * 2) all).
      apply index_rows_sorted.
  - intros -> ->. simpl.
    apply nlargest_top_of. apply index_rows_sorted.
  - intros ->. reflexivity.
Qed.

Lemma popular_ranking_witness :
  exists best,
    top_of by_rating 4 (index_rows Demo.demo_rows) best /\
    top_of by_votes 2 best (popular_frame Demo.demo 2).
Proof.
  apply (proj1 (proj2 (popular_ranking Demo.demo 2))); reflexivity.
Defined.

(** C3, as stated, fails when both columns are present: of the four best
    rated rows the two with the most votes are returned, so "Interstellar"
    (8.6) is listed and "The Matrix" (8.7) is not; asked for all rows, the
    order is by votes and 8.6 precedes 8.7. *)
Lemma popular_ranking_counterexample :
  map (fun x => (title (snd x), rating x, votes x)) (popular_frame Demo.demo 2)
  = [(Some "Inception", 88 # 10, 30000); (Some "Interstellar", 86 # 10, 28000)]%Q /\
  map (fun x => (title (snd x), rating x))
      (nlargest rating 2 (index_rows Demo.demo_rows))
  = [(Some "Inception", 88 # 10); (Some "The Matrix", 87 # 10)]%Q /\
  map rating (popular_frame Demo.demo 3) = [88 # 10; 86 # 10; 87 # 10]%Q.
Proof. repeat split. Qed.

(** ** The cluster ranker *)

Lemma nlargest_incl {A : Type} (key : A -> Q) (n : Z) (l : list A) (x : A) :
  In x (nlargest key n l) -> In x l.
Proof.
  unfold nlargest. destruct (n <=? 0)%Z; [intros []|].
  intros H. apply (Permutation_in _ (sort_desc_perm key l)).
  rewrite <- (firstn_skipn (Z.to_nat n) (sort_desc key l)).
  apply in_or_app. now left.
Qed.

(** A labelled row paired with a stored cluster label sits at its label in
    both the catalog and [labels_]. *)
Lemma combine_index_labels (l : list Row) (labs : list Z) (s i : nat) (r : Row)
    (lab : Z) :
  In ((i, r), lab) (combine (combine (seq s (List.length l)) l) labs) ->
  s <= i /\ nth_error l (i - s) = Some r /\ nth_error labs (i - s) = Some lab.
Proof.
  revert labs s. induction l as [|a l IH]; intros labs s; simpl; [intros []|].
  destruct labs as [|b labs]; simpl; [intros []|].
  intros [H|H].
  - injection H as <- <- <-. rewrite Nat.sub_diag. now repeat split.
  - destruct (IH labs (S s) H) as [Hle [Hr Hl]].
    replace (i - s) with (S (i - S s)) by lia.
    split; [lia | now split].
Qed.

(** C6 (amended).  When a cluster model is loaded and its stored assignment
    covers the catalog, the candidates of the cluster ranker are catalog rows
    whose stored label equals the label that [predict] computes for the
    embedding of the queried row, and the queried row is not among them. *)
Theorem cluster_candidates (self : MovieRecommender) (km : KMeans) (idx : nat)
    (n : Z) (v : Embedding) :
  kmeans_model self = Some km ->
  nth_error (tfidf_matrix self) idx = Some v ->
  List.length (labels_ km) = List.length (rows (movies_df self)) ->
  idx < List.length (rows (movies_df self)) ->
  exists top,
    cluster_frame self km idx n = Ok top /\
    recommend_for_existing_movie self idx n
      = map (to_rec (movies_df self) "cluster_based") top /\
    forall x, In x top ->
      nth_error (rows (movies_df self)) (label x) = Some (snd x) /\
      nth_error (labels_ km) (label x) = Some (predict km v) /\
      label x <> idx.
Proof.
  intros Hkm Hv Hlen Hidx.
  unfold recommend_for_existing_movie, cluster_frame. rewrite Hkm, Hv, Hlen.
  rewrite Nat.eqb_refl. simpl.
  apply Nat.ltb_lt in Hidx. rewrite Hidx. simpl.
  eexists. split; [reflexivity|]. split; [reflexivity|].
  intros x Hx.
  assert (Hin : In x (filter (fun x => negb (label x =? idx))
                        (map fst
                           (filter (fun xl => Z.eqb (snd xl) (predict km v))
                              (combine (index_rows (rows (movies_df self)))
                                       (labels_ km)))))).
  { destruct (has_col (movies_df self) "vote_average");
      [now apply nlargest_incl in Hx | now apply slice_to_incl in Hx]. }
  apply filter_In in Hin. destruct Hin as [Hin Hne].
  apply in_map_iff in Hin. destruct Hin as [[[i r] lab] [<- Hin]].
  apply filter_In in Hin. destruct Hin as [Hin Hlab].
  simpl in Hlab. apply Z.eqb_eq in Hlab. subst lab.
  apply combine_index_labels in Hin. destruct Hin as [_ [Hr Hl]].
  rewrite Nat.sub_0_r in Hr, Hl. unfold label in *. simpl in *.
  repeat split; try assumption.
  apply Bool.negb_true_iff in Hne. now apply Nat.eqb_neq in Hne.
Qed.

Lemma cluster_candidates_witness :
  exists top,
    cluster_frame Demo.demo Demo.demo_km 0 10 = Ok top /\
    recommend_for_existing_movie Demo.demo 0 10
      = map (to_rec Demo.demo_df "cluster_based") top /\
    forall x, In x top ->
      nth_error Demo.demo_rows (label x) = Some (snd x) /\
      nth_error (labels_ Demo.demo_km) (label x) = Some 0%Z /\
      label x <> 0.
Proof.
  apply (cluster_candidates Demo.demo Demo.demo_km 0 10 [0%Q]);
    [reflexivity | reflexivity | reflexivity | simpl; lia].
Defined.

(** C6, as stated, fails.  The label of the queried row is computed by
    [predict], not read from [labels_]: with a model that predicts cluster 1
    for row 0, stored in cluster 0, the candidates are the rows stored in
    cluster 1.  And without a cluster model the popularity ranking is used,
    which lists the queried row itself. *)
Lemma cluster_label_counterexample :
  nth_error (labels_ Demo.drifted_km) 0 = Some 0%Z /\
  match cluster_frame Demo.drifted Demo.drifted_km 0 10 with
  | Ok top => map (fun x => (label x, nth_error (labels_ Demo.drifted_km) (label x))) top
  | Raise _ => []
  end = [(4, Some 1%Z); (3, Some 1%Z); (5, Some 1%Z)] /\
  map rec_title (recommend_for_existing_movie Demo.drifted 0 10)
  = [Some "Alien"; Some "Heat"; Some " HEAT "] /\
  find_movie_in_dataset Demo.blank "Alien" = Ok (Some 0) /\
  map rec_title (recommend_for_existing_movie Demo.blank 0 10)
  = [Some "Alien"; Some " "].
Proof. repeat split. Qed.

(** ** The lookup caches *)

Lemma key_eqb_refl (k : nat * string) : key_eqb k k = true.
Proof. unfold key_eqb. now rewrite Nat.eqb_refl, String.eqb_refl. Qed.

Lemma cache_store_lookup (k : nat * string) (v : option MovieInfo) (c : Cache) :
  cache_lookup k (cache_store k v c) = Some v.
Proof. unfold cache_store, maxsize. simpl. now rewrite key_eqb_refl. Qed.

Lemma cache_touch_lookup (k : nat * string) (v : option MovieInfo) (c : Cache) :
  cache_lookup k (cache_touch k v c) = Some v.
Proof. unfold cache_touch. simpl. now rewrite key_eqb_refl. Qed.

Lemma cache_store_length (k : nat * string) (v : option MovieInfo) (c : Cache) :
  List.length (cache_store k v c) <= maxsize.
Proof. unfold cache_store. rewrite length_firstn. lia. Qed.

(** On a full cache the entry that goes is the last one, the least recently
    used. *)
Lemma cache_store_evicts_last (k : nat * string) (v : option MovieInfo) (c : Cache) :
  List.length c = maxsize -> cache_store k v c = (k, v) :: removelast c.
Proof.
  intros Hc. unfold cache_store. rewrite <- Hc, removelast_firstn_len.
  destruct c; [discriminate Hc | reflexivity].
Qed.

Lemma cache_remove_length (k : nat * string) (c : Cache) (v : option MovieInfo) :
  cache_lookup k c = Some v ->
  S (List.length (cache_remove k c)) <= List.length c.
Proof.
  induction c as [|[k' v'] c IH]; simpl; [discriminate|].
  destruct (key_eqb k k'); simpl.
  - intros _. pose proof (filter_length_le (fun e => negb (key_eqb k (fst e))) c).
    unfold cache_remove. lia.
  - intros H. specialize (IH H). lia.
Qed.

Lemma cache_touch_length (k : nat * string) (c : Cache) (v : option MovieInfo) :
  cache_lookup k c = Some v ->
  List.length (cache_touch k v c) <= List.length c.
Proof. intros H. unfold cache_touch. simpl. now apply cache_remove_length in H. Qed.

Lemma sends_ret {A : Type} (b : nat) (a : A) : sends_at_most b (ret a).
Proof.
  intros w r w' [= <- <-]. repeat split. exists []. split; [reflexivity | simpl; lia].
Qed.

Lemma sends_bind_lift {A B : Type} (b : nat) (r : res A) (k : A -> M B) :
  (forall a, sends_at_most b (k a)) -> sends_at_most b (bind (lift r) k).
Proof.
  intros Hk w r' w'. unfold bind, lift.
  destruct r as [a|e]; [apply Hk|].
  intros [= <- <-]. repeat split. exists []. split; [reflexivity | simpl; lia].
Qed.

Section CacheFacts.

Variable pyfloat : PyFloat.
Variable net : Network.

Lemma sends_bind_get {B : Type} (b : nat) (req : Request) (k : HttpOutcome -> M B) :
  (forall out, sends_at_most b (k out)) ->
  sends_at_most (S b) (bind (requests_get net req) k).
Proof.
  intros Hk w r w'. unfold bind, requests_get.
  intros H. apply Hk in H. simpl in H.
  destruct H as [Ht [Ho [reqs [Hs Hl]]]].
  repeat split; try assumption.
  exists (reqs ++ [req]). rewrite <- app_assoc. split; [exact Hs|].
  rewrite length_app. simpl. lia.
Qed.

Lemma details_sends_one (api_key : string) (movie_id : json) :
  sends_at_most 1 (_get_tmdb_movie_details net api_key movie_id).
Proof.
  unfold _get_tmdb_movie_details.
  apply sends_bind_get. intros [|code [body|]]; try apply sends_ret;
    destruct (Z.eqb code 200); try apply sends_ret.
  repeat (apply sends_bind_lift; intro). apply sends_ret.
Qed.

Lemma tmdb_body_sends_two (self : MovieRecommender) (name : string) :
  sends_at_most 2 (tmdb_body net self name).
Proof.
  unfold tmdb_body.
  destruct (api_key_of (tmdb_api_key self)) as [api_key|]; [|apply sends_ret].
  apply sends_bind_get. intros [|code [body|]]; try apply sends_ret;
    destruct (Z.eqb code 200); try apply sends_ret.
  apply sends_bind_lift. intros results.
  destruct (PyJson.truthy results); [|apply sends_ret].
  repeat (apply sends_bind_lift; intro). apply details_sends_one.
Qed.

Lemma omdb_body_sends_one (self : MovieRecommender) (name : string) :
  sends_at_most 1 (omdb_body pyfloat net self name).
Proof.
  unfold omdb_body.
  destruct (api_key_of (omdb_api_key self)) as [api_key|]; [|apply sends_ret].
  apply sends_bind_get. intros [|code [body|]]; try apply sends_ret;
    destruct (Z.eqb code 200); try apply sends_ret.
  apply sends_bind_lift. intros r.
  destruct (PyJson.is_str r "True"); [|apply sends_ret].
  repeat (apply sends_bind_lift; intro). apply sends_ret.
Qed.

(** What a decorated lookup guarantees, whichever cache it uses. *)
Lemma lru_cache_memoizes (sel : World -> Cache) (upd : Cache -> World -> World)
    (b : nat) (k : nat * string) (body : M (option MovieInfo))
    (w w1 : World) (v : option MovieInfo) :
  (forall c w, sel (upd c w) = c) ->
  (forall c w, sent (upd c w) = sent w) ->
  (forall w r w', body w = (r, w') -> sel w' = sel w) ->
  sends_at_most b body ->
  List.length (sel w) <= maxsize ->
  lru_cache sel upd k body w = (Ok v, w1) ->
  cache_lookup k (sel w1) = Some v /\
  List.length (sel w1) <= maxsize /\
  List.length (sent w1) <= List.length (sent w) + b /\
  (cache_lookup k (sel w) <> None -> sent w1 = sent w) /\
  exists w2,
    lru_cache sel upd k body w1 = (Ok v, w2) /\
    sent w2 = sent w1 /\
    cache_lookup k (sel w2) = Some v /\
    List.length (sel w2) <= maxsize.
Proof.
  intros Hsel Hsent Hbody Hsends Hlen Hrun.
  assert (Hhit : forall w0, cache_lookup k (sel w0) = Some v ->
                            List.length (sel w0) <= maxsize ->
                            exists w2,
                              lru_cache sel upd k body w0 = (Ok v, w2) /\
                              sent w2 = sent w0 /\
                              cache_lookup k (sel w2) = Some v /\
                              List.length (sel w2) <= maxsize).
  { intros w0 Hl Hb. unfold lru_cache. rewrite Hl. eexists. split; [reflexivity|].
    rewrite Hsent, Hsel. split; [reflexivity|].
    split; [apply cache_touch_lookup|].
    pose proof (cache_touch_length _ _ _ Hl). lia. }
  unfold lru_cache in Hrun.
  destruct (cache_lookup k (sel w)) as [v0|] eqn:Hl.
  - injection Hrun as <- <-. rewrite Hsel, Hsent.
    pose proof (cache_touch_length _ _ _ Hl) as Ht.
    split; [apply cache_touch_lookup|].
    split; [lia|]. split; [lia|]. split; [reflexivity|].
    destruct (Hhit (upd (cache_touch k v0 (sel w)) w)) as [w2 [H1 [H2 [H3 H4]]]].
    + rewrite Hsel. apply cache_touch_lookup.
    + rewrite Hsel. lia.
    + exists w2. rewrite Hsent in H2. now repeat split.
  - destruct (body w) as [[v0|e] w'] eqn:Hb; [|discriminate].
    injection Hrun as <- <-. rewrite Hsel, Hsent.
    destruct (Hsends _ _ _ Hb) as [_ [_ [reqs [Hs Hr]]]].
    split; [apply cache_store_lookup|].
    split; [apply cache_store_length|].
    split; [rewrite Hs, length_app; lia|].
    split; [congruence|].
    destruct (Hhit (upd (cache_store k v0 (sel w')) w')) as [w2 [H1 [H2 [H3 H4]]]].
    + rewrite Hsel. apply cache_store_lookup.
    + rewrite Hsel. apply cache_store_length.
    + exists w2. rewrite Hsent in H2. now repeat split.
Qed.

(** C8 (amended).  Each provider lookup is memoized per recommender and query
    string as passed, in its own cache of at most 100 entries, whatever the
    lookup returned (a record or [None]): the call that returns sends at most
    two requests to TMDB, one to OMDB, and none on a hit; the next call with
    the same query returns the same value from the cache and sends no
    request. *)
Theorem lookups_are_memoized (self : MovieRecommender) (name : string)
    (w w1 : World) (v : option MovieInfo) :
  (List.length (tmdb_cache w) <= maxsize ->
   search_movie_tmdb net self name w = (Ok v, w1) ->
   cache_lookup (obj_id self, name) (tmdb_cache w1) = Some v /\
   List.length (tmdb_cache w1) <= maxsize /\
   List.length (sent w1) <= List.length (sent w) + 2 /\
   (cache_lookup (obj_id self, name) (tmdb_cache w) <> None -> sent w1 = sent w) /\
   exists w2,
     search_movie_tmdb net self name w1 = (Ok v, w2) /\
     sent w2 = sent w1 /\
     cache_lookup (obj_id self, name) (tmdb_cache w2) = Some v /\
     List.length (tmdb_cache w2) <= maxsize) /\
  (List.length (omdb_cache w) <= maxsize ->
   search_movie_omdb pyfloat net self name w = (Ok v, w1) ->
   cache_lookup (obj_id self, name) (omdb_cache w1) = Some v /\
   List.length (omdb_cache w1) <= maxsize /\
   List.length (sent w1) <= List.length (sent w) + 1 /\
   (cache_lookup (obj_id self, name) (omdb_cache w) <> None -> sent w1 = sent w) /\
   exists w2,
     search_movie_omdb pyfloat net self name w1 = (Ok v, w2) /\
     sent w2 = sent w1 /\
     cache_lookup (obj_id self, name) (omdb_cache w2) = Some v /\
     List.length (omdb_cache w2) <= maxsize).
Proof.
  split; intros Hlen Hrun.
  - apply (lru_cache_memoizes tmdb_cache set_tmdb_cache 2 _ _ _ _ _
             (fun _ _ => eq_refl) (fun _ _ => eq_refl)) in Hrun;
      [exact Hrun | | apply tmdb_body_sends_two | exact Hlen].
    intros w0 r w' H. now apply tmdb_body_sends_two in H.
  - apply (lru_cache_memoizes omdb_cache set_omdb_cache 1 _ _ _ _ _
             (fun _ _ => eq_refl) (fun _ _ => eq_refl)) in Hrun;
      [exact Hrun | | apply omdb_body_sends_one | exact Hlen].
    intros w0 r w' H. now apply omdb_body_sends_one in H.
Qed.

End CacheFacts.

Lemma lookups_are_memoized_witness :
  exists v w1 w2,
    search_movie_tmdb Demo.tmdb_hit Demo.demo "Zzz" Demo.w0 = (Ok v, w1) /\
    List.length (sent w1) <= 2 /\
    search_movie_tmdb Demo.tmdb_hit Demo.demo "Zzz" w1 = (Ok v, w2) /\
    sent w2 = sent w1.
Proof.
  destruct (search_movie_tmdb Demo.tmdb_hit Demo.demo "Zzz" Demo.w0)
    as [[v|e] w1] eqn:E; [|vm_compute in E; discriminate E].
  destruct (proj1 (lookups_are_memoized Demo.no_float Demo.tmdb_hit Demo.demo
                     "Zzz" Demo.w0 w1 v))
    as [_ [_ [Hreq [_ [w2 [Hagain [Hsent _]]]]]]].
  - unfold maxsize. simpl. lia.
  - exact E.
  - exists v, w1, w2. repeat split; assumption.
Defined.

(** A miss is stored like a hit: offline, the first OMDB lookup sends one
    request and stores [None]; the second sends none. *)
Example not_found_is_cached :
  bind (search_movie_omdb Demo.no_float Demo.offline Demo.demo "Zzz")
       (fun _ => search_movie_omdb Demo.no_float Demo.offline Demo.demo "Zzz")
       Demo.w0
  = (Ok None,
     {| tmdb_cache := []; omdb_cache := [((0, "Zzz"), None)];
        sent := [OmdbByTitle "k2" "Zzz"] |}).
Proof. reflexivity. Qed.

(** C8, as stated, fails.  Two consecutive TMDB lookups of one query send
    two requests, the search and the details; and the cache key is the query
    as passed, so two queries with the same normalized form are looked up
    twice. *)
Lemma memoization_counterexample :
  sent (snd (bind (search_movie_tmdb Demo.tmdb_hit Demo.demo "Zzz")
                  (fun _ => search_movie_tmdb Demo.tmdb_hit Demo.demo "Zzz")
                  Demo.w0))
  = [TmdbDetails "k1" (JInt 7); TmdbSearch "k1" "Zzz"] /\
  normalize "Zzz" = normalize "zzz" /\
  sent (snd (bind (search_movie_omdb Demo.no_float Demo.offline Demo.demo "Zzz")
                  (fun _ => search_movie_omdb Demo.no_float Demo.offline Demo.demo "zzz")
                  Demo.w0))
  = [OmdbByTitle "k2" "zzz"; OmdbByTitle "k2" "Zzz"].
Proof. repeat split. Qed.

(** ** Provider failures *)

(** The failures the two bodies turn into a miss: no API key, a transport
    error, a status other than 200, a body that is not JSON, and a payload
    with the expected field but no result. *)
Lemma tmdb_failures_are_misses (net : Network) (self : MovieRecommender)
    (name : string) (w : World) :
  match api_key_of (tmdb_api_key self) with
  | None => True
  | Some api_key =>
      match net (sent w) (TmdbSearch api_key name) with
      | TransportError => True
      | Response code body =>
          code <> 200%Z \/ body = None \/
          exists fields r,
            body = Some (JObj fields) /\ PyJson.assoc "results" fields = Some r /\
            PyJson.truthy r = false
      end
  end ->
  fst (tmdb_body net self name w) = Ok None.
Proof.
  unfold tmdb_body.
  destruct (api_key_of (tmdb_api_key self)) as [api_key|]; [|reflexivity].
  unfold bind, requests_get, lift, ret. simpl.
  destruct (net (sent w) (TmdbSearch api_key name)) as [|code body]; [reflexivity|].
  destruct (Z.eqb_spec code 200) as [->|Hne]; [|reflexivity].
  intros [H|[->|[fields [r [-> [Ha Ht]]]]]]; [congruence | reflexivity |].
  simpl. rewrite Ha, Ht. reflexivity.
Qed.

Lemma omdb_failures_are_misses (pyfloat : PyFloat) (net : Network)
    (self : MovieRecommender) (name : string) (w : World) :
  match api_key_of (omdb_api_key self) with
  | None => True
  | Some api_key =>
      match net (sent w) (OmdbByTitle api_key name) with
      | TransportError => True
      | Response code body =>
          code <> 200%Z \/ body = None \/
          exists fields,
            body = Some (JObj fields) /\
            match PyJson.assoc "Response" fields with
            | Some r => PyJson.is_str r "True" = false
            | None => True
            end
      end
  end ->
  fst (omdb_body pyfloat net self name w) = Ok None.
Proof.
  unfold omdb_body.
  destruct (api_key_of (omdb_api_key self)) as [api_key|]; [|reflexivity].
  unfold bind, requests_get, lift, ret. simpl.
  destruct (net (sent w) (OmdbByTitle api_key name)) as [|code body]; [reflexivity|].
  destruct (Z.eqb_spec code 200) as [->|Hne]; [|reflexivity].
  intros [H|[->|[fields [-> Hr]]]]; [congruence | reflexivity |].
  simpl. destruct (PyJson.assoc "Response" fields) as [r|]; simpl.
  - now rewrite Hr.
  - reflexivity.
Qed.

(** C4.  The code at the failing input: a 200 response whose JSON object
    lacks [results] makes [search_movie_tmdb] raise [KeyError], and a true
    OMDB response with a null [Genre] makes [search_movie_omdb] raise
    [AttributeError]; nothing is cached, and [api_search] answers 500. *)
Theorem malformed_payload_raises :
  search_movie_tmdb Demo.malformed Demo.demo "Zzz" Demo.w0
  = (Raise KeyError,
     {| tmdb_cache := []; omdb_cache := []; sent := [TmdbSearch "k1" "Zzz"] |}) /\
  search_movie_omdb Demo.no_float Demo.malformed Demo.demo "Zzz" Demo.w0
  = (Raise AttributeError,
     {| tmdb_cache := []; omdb_cache := []; sent := [OmdbByTitle "k2" "Zzz"] |}) /\
  fst (get_recommendations Demo.no_float Demo.malformed Demo.demo "Zzz" 10 [] Demo.w0)
  = Raise KeyError /\
  fst (api_search Demo.no_float Demo.malformed (Some Demo.demo)
         (Demo.request "Zzz" (JInt 10)) Demo.w0)
  = Reply500.
Proof. repeat split. Qed.

(** ** Limits of the core function *)

(** C2.  The code at the failing input.  On a catalog whose second row has a
    NaN genres cell the candidate list for "Alien" is not empty: it holds
    that row.  With the preferred genre "Drama" and the count 2 the genre
    filter calls [lower] on the NaN cell and [get_recommendations] raises
    [AttributeError] instead of returning a non-empty list; without a
    preferred genre the same call returns the candidate. *)
Theorem genre_filter_raises_on_nan_genres :
  option_map
    (fun pre => map (fun rec => (rec_title rec, rec_genres rec)) (snd pre))
    (result_of (resolve_candidates Demo.no_float Demo.offline Demo.sparse "Alien" 2
                  Demo.w0))
  = Some [(Some "Solaris", None)] /\
  fst (get_recommendations Demo.no_float Demo.offline Demo.sparse "Alien" 2
         ["Drama"] Demo.w0)
  = Raise AttributeError /\
  option_map (fun r => map rec_title (recommendations r))
    (result_of (get_recommendations Demo.no_float Demo.offline Demo.sparse "Alien" 2
                  [] Demo.w0))
  = Some [Some "Solaris"].
Proof. repeat split. Qed.

(** A candidate whose genres cell is NaN makes a non-empty genre filter
    raise. *)
Example nan_genres_raise :
  fst (get_recommendations Demo.no_float Demo.offline Demo.sparse "Alien" 2
         ["Drama"] Demo.w0)
  = Raise AttributeError.
Proof. reflexivity. Qed.

(** The range check is made by [api_search]; [get_recommendations] itself
    takes any count. *)
Example core_takes_any_count :
  option_map (fun r => List.length (recommendations r))
    (result_of (get_recommendations Demo.no_float Demo.offline Demo.demo "Zzz" 0 []
                  Demo.w0)) = Some 0 /\
  option_map (fun r => List.length (recommendations r))
    (result_of (get_recommendations Demo.no_float Demo.offline Demo.demo "Zzz" 51 []
                  Demo.w0)) = Some 6.
Proof. split; reflexivity. Qed.

(** * Further properties of the code *)

(** ** The title lookup, completely *)

Lemma prefix_rstrip (s : string) : String.prefix (PyStr.rstrip s) s = true.
Proof.
  induction s as [|c s IH]; simpl; [reflexivity|].
  destruct (PyStr.rstrip s) as [|d r] eqn:E.
  - destruct (PyStr.is_space c); simpl; [reflexivity|].
    destruct (Ascii.ascii_dec c c) as [_|N]; [|congruence]. now destruct s.
  - simpl. destruct (Ascii.ascii_dec c c) as [_|N]; [exact IH | congruence].
Qed.

(** A stripped string occurs in the string it was stripped from. *)
Lemma contains_strip (s : string) : PyStr.contains (PyStr.strip s) s = true.
Proof.
  unfold PyStr.strip. rewrite <- PyStrFacts.rstrip_lstrip.
  induction s as [|c s IH]; [reflexivity|].
  cbn [PyStr.lstrip]. destruct (PyStr.is_space c).
  - cbn [PyStr.contains]. rewrite IH. apply Bool.orb_true_r.
  - cbn [PyStr.contains]. now rewrite prefix_rstrip.
Qed.

Lemma exact_implies_partial (q : string) (r : Row) :
  exact_mask q r = true -> partial_mask q r = true.
Proof.
  unfold exact_mask, partial_mask. destruct (title r) as [t|]; [|discriminate].
  intros H. apply String.eqb_eq in H. subst q. apply contains_strip.
Qed.

Lemma nth_error_find_first {A : Type} (p : A -> bool) (l : list A) (i : nat) :
  find_first p l = Some i -> i < List.length l.
Proof.
  intros H. destruct (find_first_some p l i H) as [[x [Hx _]] _].
  apply nth_error_Some. congruence.
Qed.

(** X1.  [find_movie_in_dataset] raises [KeyError] exactly when the frame
    has no title column, and [AttributeError] exactly when the title column
    holds no string and is not of dtype object.  Otherwise it returns: no
    match exactly when no stored title contains the normalized query; else
    the index of a catalog row whose lower-cased title contains the
    normalized query, the first row whose normalized title equals the query
    when there is one, even after an earlier row that only contains it, and
    the first row containing the query otherwise. *)
Theorem find_movie_characterized (self : MovieRecommender) (name : string) :
  let q := normalize name in
  let l := rows (movies_df self) in
  match find_movie_in_dataset self name with
  | Raise e =>
      e = KeyError /\ has_col (movies_df self) "title" = false \/
      e = AttributeError /\ has_col (movies_df self) "title" = true /\
      (forall r, In r l -> title r = None) /\
      title_is_object (movies_df self) = false
  | Ok None =>
      has_col (movies_df self) "title" = true /\
      ((exists r, In r l /\ title r <> None) \/ title_is_object (movies_df self) = true) /\
      forall r, In r l -> partial_mask q r = false
  | Ok (Some i) =>
      has_col (movies_df self) "title" = true /\
      exists r,
        nth_error l i = Some r /\
        partial_mask q r = true /\
        ((exists r', In r' l /\ norm_title r' = Some q) ->
         norm_title r = Some q /\
         forall k rk, k < i -> nth_error l k = Some rk -> norm_title rk <> Some q) /\
        ((forall r', In r' l -> norm_title r' <> Some q) ->
         forall k rk, k < i -> nth_error l k = Some rk -> partial_mask q rk = false)
  end.
Proof.
  intros q l. unfold find_movie_in_dataset. fold l.
  destruct (has_col (movies_df self) "title"); [|left; now split].
  fold (normalize name). fold q.
  unfold str_accessor_ok. fold l.
  destruct (existsb has_title l) eqn:Et; simpl.
  2: destruct (title_is_object (movies_df self)) eqn:Eo.
  3: { right. repeat split; try reflexivity.
       intros r Hr. destruct (title r) as [t|] eqn:E; [|reflexivity].
       assert (H : existsb has_title l = true).
       { apply existsb_exists. exists r. split; [exact Hr|].
         unfold has_title. now rewrite E. }
       congruence. }
  all: assert (Hok : (exists r, In r l /\ title r <> None) \/
                     title_is_object (movies_df self) = true).
  1: { left. apply existsb_exists in Et. destruct Et as [r [Hr Ht]].
       exists r. split; [exact Hr|]. unfold has_title in Ht.
       destruct (title r); [discriminate | discriminate Ht]. }
  2: { now right. }
  all: destruct (find_first (exact_mask q) l) as [i|] eqn:Ee.
  all: try (destruct (find_first_some _ _ _ Ee) as [[r [Hr Hp]] Hmin];
            split; [reflexivity|]; exists r; split; [exact Hr|];
            split; [now apply exact_implies_partial|]; split;
            [ intros _; split; [now apply exact_mask_iff|];
              intros k rk Hk Hrk; apply exact_mask_false_iff; now apply (Hmin k rk)
            | intros Hnone; exfalso; apply (Hnone r);
              [now apply (nth_error_In l i) | now apply exact_mask_iff] ]).
  all: rewrite find_first_none in Ee;
       destruct (find_first (partial_mask q) l) as [i|] eqn:Ep.
  all: try (destruct (find_first_some _ _ _ Ep) as [[r [Hr Hp]] Hmin];
            split; [reflexivity|]; exists r; split; [exact Hr|];
            split; [exact Hp|]; split;
            [ intros [r' [Hin Hn]]; apply exact_mask_iff in Hn;
              rewrite (Ee r' Hin) in Hn; discriminate
            | intros _ k rk Hk Hrk; now apply (Hmin k rk) ]).
  all: split; [reflexivity|]; split; [first [exact Hok | now right]|];
       now apply find_first_none.
Qed.

(** The exact match wins over an earlier partial match. *)
Example exact_beats_earlier_partial :
  find_movie_in_dataset
    {| obj_id := 0;
       movies_df := {| columns := ["title"];
                       rows := [Demo.movie "Heat 2" "Crime" 7 1;
                                Demo.movie "Heat" "Crime" 8 2];
                       title_is_object := true |};
       tfidf_matrix := []; kmeans_model := None;
       tmdb_api_key := None; omdb_api_key := None |} "heat"
  = Ok (Some 1).
Proof. reflexivity. Qed.

(** ** The two rankers *)

Lemma combine_seq_In (l : list Row) (s i : nat) (r : Row) :
  In (i, r) (combine (seq s (List.length l)) l) <->
  s <= i /\ nth_error l (i - s) = Some r.
Proof.
  revert s. induction l as [|a l IH]; intros s; simpl.
  - split; [intros [] | intros [_ H]]. now destruct (i - s).
  - rewrite IH. split.
    + intros [H|[Hle Hn]].
      * injection H as <- <-. rewrite Nat.sub_diag. now split.
      * split; [lia|]. now replace (i - s) with (S (i - S s)) by lia.
    + intros [Hle Hn]. destruct (Nat.eq_dec s i) as [<-|Hne].
      * rewrite Nat.sub_diag in Hn. simpl in Hn. left. congruence.
      * right. split; [lia|].
        now replace (i - s) with (S (i - S s)) in Hn by lia.
Qed.

Lemma index_rows_In (l : list Row) (x : nat * Row) :
  In x (index_rows l) <-> nth_error l (label x) = Some (snd x).
Proof.
  destruct x as [i r]. unfold index_rows, label. simpl.
  rewrite combine_seq_In, Nat.sub_0_r. split; [now intros [_ H] | split; [lia | assumption]].
Qed.

Lemma nlargest_length {A : Type} (key : A -> Q) (n : Z) (l : list A) :
  List.length (nlargest key n l) = Nat.min (Z.to_nat n) (List.length l).
Proof.
  unfold nlargest. destruct (Z.leb_spec n 0) as [Hn|Hn].
  - replace (Z.to_nat n) with 0 by lia. reflexivity.
  - now rewrite length_firstn, (Permutation_length (sort_desc_perm key l)).
Qed.

Lemma firstn_nodup {A : Type} (k : nat) (l : list A) : NoDup l -> NoDup (firstn k l).
Proof.
  intros H. rewrite <- (firstn_skipn k l) in H. now apply NoDup_app_remove_r in H.
Qed.

Lemma nlargest_nodup {A B : Type} (f : A -> B) (key : A -> Q) (n : Z) (l : list A) :
  NoDup (map f l) -> NoDup (map f (nlargest key n l)).
Proof.
  intros H. unfold nlargest. destruct (n <=? 0)%Z; [constructor|].
  rewrite <- firstn_map. apply firstn_nodup.
  apply (Permutation_NoDup (l := map f l)); [|exact H].
  apply Permutation_map, Permutation_sym, sort_desc_perm.
Qed.

Lemma slice_to_nodup {A B : Type} (f : A -> B) (n : Z) (l : list A) :
  NoDup (map f l) -> NoDup (map f (slice_to n l)).
Proof.
  intros H. unfold slice_to.
  destruct (0 <=? n)%Z; rewrite <- firstn_map; now apply firstn_nodup.
Qed.

Lemma sorted_filter {A : Type} (R : A -> A -> Prop) (p : A -> bool) (l : list A) :
  StronglySorted R l -> StronglySorted R (filter p l).
Proof.
  induction 1 as [|a l Hs IH Ha]; simpl; [constructor|].
  destruct (p a); [|exact IH].
  constructor; [exact IH|].
  rewrite Forall_forall in *. intros x Hx. apply Ha.
  now apply filter_In in Hx.
Qed.

Lemma sorted_selected {A B : Type} (R : A -> A -> Prop) (p : A * B -> bool)
    (a : list A) (b : list B) :
  StronglySorted R a -> StronglySorted R (map fst (filter p (combine a b))).
Proof.
  intros Hs. revert b. induction Hs as [|x a Hs IH Hx]; intros b; [constructor|].
  destruct b as [|y b]; simpl; [constructor|].
  destruct (p (x, y)); simpl; [|apply IH].
  constructor; [apply IH|].
  rewrite Forall_forall in *. intros z Hz. apply Hx.
  apply in_map_iff in Hz. destruct Hz as [[z' y'] [<- Hz]].
  apply filter_In in Hz. destruct Hz as [Hz _]. now apply in_combine_l in Hz.
Qed.

Lemma sorted_by_label_nodup (l : Frame) :
  StronglySorted by_label l -> NoDup (map label l).
Proof.
  induction 1 as [|a l Hs IH Ha]; simpl; constructor; [|exact IH].
  rewrite in_map_iff. intros [x [Hx Hin]].
  rewrite Forall_forall in Ha. specialize (Ha x Hin). unfold by_label in Ha. lia.
Qed.

Lemma combine_index_labels_In (l : list Row) (labs : list Z) (s j : nat) (r : Row)
    (lab : Z) :
  nth_error l j = Some r -> nth_error labs j = Some lab ->
  In ((s + j, r), lab) (combine (combine (seq s (List.length l)) l) labs).
Proof.
  revert labs s j. induction l as [|a l IH]; intros labs s j Hr Hl.
  - now destruct j.
  - destruct labs as [|b labs]; [now destruct j|].
    destruct j as [|j]; simpl in *.
    + injection Hr as <-. injection Hl as <-. left. now rewrite Nat.add_0_r.
    + right. replace (s + S j) with (S s + j) by lia. now apply IH.
Qed.

Lemma cluster_members_In (self : MovieRecommender) (km : KMeans) (idx : nat)
    (v : Embedding) (x : nat * Row) :
  In x (cluster_members self km idx v) <->
  nth_error (rows (movies_df self)) (label x) = Some (snd x) /\
  nth_error (labels_ km) (label x) = Some (predict km v) /\
  label x <> idx.
Proof.
  unfold cluster_members. rewrite filter_In, in_map_iff.
  rewrite Bool.negb_true_iff, Nat.eqb_neq. split.
  - intros [[[[i r] lab] [<- Hin]] Hne].
    apply filter_In in Hin. destruct Hin as [Hin Hlab].
    simpl in Hlab. apply Z.eqb_eq in Hlab. subst lab.
    apply combine_index_labels in Hin. destruct Hin as [_ [Hr Hl]].
    rewrite Nat.sub_0_r in Hr, Hl. now repeat split.
  - intros [Hr [Hl Hne]]. split; [|exact Hne].
    exists (x, predict km v). split; [reflexivity|].
    apply filter_In. split; [|apply Z.eqb_refl].
    destruct x as [i r]. unfold label in *. simpl in *.
    apply (combine_index_labels_In _ _ 0 i r _ Hr Hl).
Qed.

Lemma cluster_members_sorted (self : MovieRecommender) (km : KMeans) (idx : nat)
    (v : Embedding) :
  StronglySorted by_label (cluster_members self km idx v).
Proof.
  unfold cluster_members. apply sorted_filter, sorted_selected, index_rows_sorted.
Qed.

Lemma cluster_frame_ok (self : MovieRecommender) (km : KMeans) (idx : nat) (n : Z)
    (top : Frame) :
  cluster_frame self km idx n = Ok top ->
  exists v,
    nth_error (tfidf_matrix self) idx = Some v /\
    List.length (labels_ km) = List.length (rows (movies_df self)) /\
    idx < List.length (rows (movies_df self)) /\
    top = if has_col (movies_df self) "vote_average"
          then nlargest rating n (cluster_members self km idx v)
          else slice_to n (cluster_members self km idx v).
Proof.
  unfold cluster_frame.
  destruct (nth_error (tfidf_matrix self) idx) as [v|]; [|discriminate].
  destruct (Nat.eqb_spec (List.length (labels_ km)) (List.length (rows (movies_df self))))
    as [Hlen|]; [|discriminate].
  destruct (Nat.ltb_spec idx (List.length (rows (movies_df self)))) as [Hidx|];
    [|discriminate].
  simpl. intros [= <-]. exists v. now repeat split.
Qed.

(** X2.  When the cluster path succeeds, the members of the queried cluster
    are exactly the catalog rows, other than the queried one, whose stored
    label is the predicted label; with a rating column the result is the [n]
    best of them by rating, equal ratings in catalog order, and without it
    the first [n] of them in catalog order. *)
Theorem cluster_ranking (self : MovieRecommender) (km : KMeans) (idx : nat) (n : Z)
    (top : Frame) :
  cluster_frame self km idx n = Ok top ->
  exists v members,
    nth_error (tfidf_matrix self) idx = Some v /\
    (forall x, In x members <->
               nth_error (rows (movies_df self)) (label x) = Some (snd x) /\
               nth_error (labels_ km) (label x) = Some (predict km v) /\
               label x <> idx) /\
    StronglySorted by_label members /\
    (has_col (movies_df self) "vote_average" = true -> top_of by_rating n members top) /\
    (has_col (movies_df self) "vote_average" = false -> top = slice_to n members).
Proof.
  intros H. apply cluster_frame_ok in H. destruct H as [v [Hv [_ [_ ->]]]].
  exists v, (cluster_members self km idx v).
  split; [exact Hv|]. split; [apply cluster_members_In|].
  split; [apply cluster_members_sorted|]. split; intros ->; [|reflexivity].
  apply nlargest_top_of, cluster_members_sorted.
Qed.

Lemma cluster_ranking_witness :
  exists v members,
    nth_error (tfidf_matrix Demo.demo) 3 = Some v /\
    (forall x, In x members <->
               nth_error Demo.demo_rows (label x) = Some (snd x) /\
               nth_error (labels_ Demo.demo_km) (label x) = Some (predict Demo.demo_km v) /\
               label x <> 3) /\
    StronglySorted by_label members /\
    top_of by_rating 1 members [(4, Demo.movie "Alien" "Horror Sci-Fi" (85 # 10) 9000)].
Proof.
  destruct (cluster_ranking Demo.demo Demo.demo_km 3 1
              [(4, Demo.movie "Alien" "Horror Sci-Fi" (85 # 10) 9000)] eq_refl)
    as [v [members [Hv [Hin [Hs [Hr _]]]]]].
  exists v, members.
  split; [exact Hv|]. split; [exact Hin|]. split; [exact Hs|]. exact (Hr eq_refl).
Defined.

(** X3.  Neither ranker lists a catalog row twice. *)
Theorem rankers_never_repeat_a_row (self : MovieRecommender) (n : Z) :
  NoDup (map label (popular_frame self n)) /\
  forall km idx,
    match cluster_frame self km idx n with
    | Ok top => NoDup (map label top)
    | Raise _ => True
    end.
Proof.
  assert (Hall : NoDup (map label (index_rows (rows (movies_df self)))))
    by apply sorted_by_label_nodup, index_rows_sorted.
  split.
  - unfold popular_frame.
    destruct (has_col (movies_df self) "vote_average" && has_col (movies_df self) "vote_count").
    + now repeat apply nlargest_nodup.
    + destruct (has_col (movies_df self) "vote_average");
        [now apply nlargest_nodup | now apply slice_to_nodup].
  - intros km idx. destruct (cluster_frame self km idx n) as [top|] eqn:E; [|exact I].
    apply cluster_frame_ok in E. destruct E as [v [_ [_ [_ ->]]]].
    pose proof (sorted_by_label_nodup _ (cluster_members_sorted self km idx v)).
    destruct (has_col (movies_df self) "vote_average");
      [now apply nlargest_nodup | now apply slice_to_nodup].
Qed.

(** X4.  The popularity ranking returns [min n (catalog size)] movies for
    every [n >= 0] and, with a rating column, none for a negative [n];
    without a rating column a negative [n] drops the last [-n] rows. *)
Theorem popular_length (self : MovieRecommender) (n : Z) :
  List.length (get_popular_movies self n) =
  if has_col (movies_df self) "vote_average" || (0 <=? n)%Z
  then Nat.min (Z.to_nat n) (List.length (rows (movies_df self)))
  else List.length (rows (movies_df self)) - Z.to_nat (- n).
Proof.
  unfold get_popular_movies, popular_frame. rewrite length_map.
  destruct (has_col (movies_df self) "vote_average"); simpl.
  - destruct (has_col (movies_df self) "vote_count");
      rewrite !nlargest_length, index_rows_length; lia.
  - unfold slice_to. destruct (0 <=? n)%Z;
      rewrite length_firstn, index_rows_length; lia.
Qed.

Lemma popular_frame_rows (self : MovieRecommender) (n : Z) (x : nat * Row) :
  In x (popular_frame self n) ->
  nth_error (rows (movies_df self)) (label x) = Some (snd x).
Proof.
  intros H. apply index_rows_In. unfold popular_frame in H.
  destruct (has_col (movies_df self) "vote_average" && has_col (movies_df self) "vote_count").
  - now apply nlargest_incl, nlargest_incl in H.
  - destruct (has_col (movies_df self) "vote_average");
      [now apply nlargest_incl in H | now apply slice_to_incl in H].
Qed.

(** X5.  For [n >= 0] the recommendations for a catalog movie are at most
    [n], on the cluster path and on the popularity fallback alike, and each
    is the record of some catalog row under the method tag it carries. *)
Theorem existing_recommendations_bounded (self : MovieRecommender) (idx : nat) (n : Z) :
  (0 <= n)%Z ->
  List.length (recommend_for_existing_movie self idx n) <= Z.to_nat n /\
  forall rec, In rec (recommend_for_existing_movie self idx n) ->
    exists i row,
      nth_error (rows (movies_df self)) i = Some row /\
      rec = to_rec (movies_df self) (recommendation_method rec) (i, row).
Proof.
  intros Hn.
  assert (Hpop : List.length (get_popular_movies self n) <= Z.to_nat n /\
                 forall rec, In rec (get_popular_movies self n) ->
                   exists i row,
                     nth_error (rows (movies_df self)) i = Some row /\
                     rec = to_rec (movies_df self) (recommendation_method rec) (i, row)).
  { split.
    - rewrite popular_length. destruct (Z.leb_spec 0 n); [|lia].
      rewrite Bool.orb_true_r. lia.
    - intros rec Hin. unfold get_popular_movies in Hin.
      apply in_map_iff in Hin. destruct Hin as [[i row] [<- Hin]].
      exists i, row. split; [|reflexivity].
      now apply popular_frame_rows in Hin. }
  unfold recommend_for_existing_movie.
  destruct (kmeans_model self) as [km|]; [|exact Hpop].
  destruct (cluster_frame self km idx n) as [top|] eqn:E; [|exact Hpop].
  apply cluster_frame_ok in E. destruct E as [v [_ [_ [_ ->]]]].
  split.
  - rewrite length_map.
    destruct (has_col (movies_df self) "vote_average").
    + rewrite nlargest_length. lia.
    + unfold slice_to. destruct (Z.leb_spec 0 n); [|lia].
      rewrite length_firstn. lia.
  - intros rec Hin. apply in_map_iff in Hin. destruct Hin as [[i row] [<- Hin]].
    exists i, row. split; [|reflexivity].
    assert (Hm : In (i, row) (cluster_members self km idx v)).
    { destruct (has_col (movies_df self) "vote_average");
        [now apply nlargest_incl in Hin | now apply slice_to_incl in Hin]. }
    now apply cluster_members_In in Hm.
Qed.

Lemma existing_recommendations_bounded_witness :
  List.length (recommend_for_existing_movie Demo.demo 0 1) <= 1.
Proof.
  apply (proj1 (existing_recommendations_bounded Demo.demo 0 1 ltac:(lia))).
Defined.

(** ** The genre filter, completely *)

Lemma filter_recs_raise (prefs : list string) (recs : list Rec) (e : exn) :
  filter_recs prefs recs = Raise e ->
  e = AttributeError /\ prefs <> [] /\ exists rec, In rec recs /\ rec_genres rec = None.
Proof.
  induction recs as [|rec recs IH]; simpl; [discriminate|].
  unfold genre_match at 1.
  destruct prefs as [|p ps].
  - destruct (filter_recs [] recs) as [k|e'] eqn:E; [discriminate|].
    intros [= ->]. destruct (IH eq_refl) as [_ [H _]]. congruence.
  - destruct (rec_genres rec) as [g|] eqn:Eg.
    + destruct (filter_recs (p :: ps) recs) as [k|e'] eqn:E; [discriminate|].
      intros [= ->]. destruct (IH eq_refl) as [He [Hp [r [Hin Hr]]]].
      split; [exact He|]. split; [exact Hp|]. exists r. split; [now right | exact Hr].
    + intros [= <-]. split; [reflexivity|]. split; [discriminate|].
      exists rec. split; [now left | exact Eg].
Qed.

Lemma filter_recs_ok (prefs : list string) (recs kept : list Rec) :
  prefs <> [] -> filter_recs prefs recs = Ok kept ->
  Forall (fun rec => rec_genres rec <> None) recs.
Proof.
  intros Hp. revert kept. induction recs as [|rec recs IH]; simpl; intros kept H;
    [constructor|].
  unfold genre_match in H at 1. destruct prefs as [|p ps]; [congruence|].
  destruct (rec_genres rec) as [g|] eqn:Eg; [|discriminate].
  destruct (filter_recs (p :: ps) recs) as [k|] eqn:E; [|discriminate].
  constructor; [congruence | now apply (IH k)].
Qed.

(** X6.  The genre filter raises only [AttributeError], and only when a
    genre is preferred and some candidate has no genres string.  When it
    returns, the result is the candidate list itself or, when some candidate
    matches, the matching candidates in their order. *)
Theorem genre_filter_characterized (prefs : list string) (recs : list Rec) :
  match apply_genre_filter prefs recs with
  | Raise e =>
      e = AttributeError /\ prefs <> [] /\
      exists rec, In rec recs /\ rec_genres rec = None
  | Ok out =>
      (prefs = [] \/ Forall (fun rec => rec_genres rec <> None) recs) /\
      (out = recs /\ (prefs = [] \/ filter (matches prefs) recs = []) \/
       out = filter (matches prefs) recs /\ out <> [] /\ prefs <> [])
  end.
Proof.
  unfold apply_genre_filter. destruct prefs as [|p ps].
  - split; [now left|]. left. split; [reflexivity | now left].
  - destruct (filter_recs (p :: ps) recs) as [kept|e] eqn:E.
    + assert (Hg : Forall (fun rec => rec_genres rec <> None) recs)
        by (apply (filter_recs_ok (p :: ps) recs kept); [discriminate | exact E]).
      rewrite (filter_recs_total (p :: ps) recs) in E; [|discriminate | exact Hg].
      injection E as <-.
      destruct (filter (matches (p :: ps)) recs) as [|k ks] eqn:Ef.
      * split; [now right|]. left. split; [reflexivity | now right].
      * split; [now right|]. right. repeat split; discriminate.
    + now apply filter_recs_raise.
Qed.

(** ** The lookup caches as a store *)

Lemma key_eqb_eq (k1 k2 : nat * string) : key_eqb k1 k2 = true <-> k1 = k2.
Proof.
  destruct k1 as [a s], k2 as [b t]. unfold key_eqb. simpl.
  rewrite Bool.andb_true_iff, Nat.eqb_eq, String.eqb_eq.
  split; [intros [-> ->]; reflexivity | intros [= -> ->]; now split].
Qed.

Lemma key_eqb_neq (k1 k2 : nat * string) : key_eqb k1 k2 = false <-> k1 <> k2.
Proof.
  rewrite <- key_eqb_eq. destruct (key_eqb k1 k2); split; congruence.
Qed.

Lemma cache_lookup_none (k : nat * string) (c : Cache) :
  cache_lookup k c = None <-> ~ In k (map fst c).
Proof.
  induction c as [|[k' v'] c IH]; simpl; [tauto|].
  destruct (key_eqb k k') eqn:E.
  - apply key_eqb_eq in E. subst k'. split; [discriminate | intros H; exfalso; apply H; now left].
  - apply key_eqb_neq in E. rewrite IH. split; [intros H [Hk|Hk]; congruence | tauto].
Qed.

Lemma cache_lookup_In (k : nat * string) (v : option MovieInfo) (c : Cache) :
  cache_lookup k c = Some v -> In (k, v) c.
Proof.
  induction c as [|[k' v'] c IH]; simpl; [discriminate|].
  destruct (key_eqb k k') eqn:E.
  - apply key_eqb_eq in E. subst k'. intros [= ->]. now left.
  - intros H. right. now apply IH.
Qed.

Lemma cache_remove_In (k : nat * string) (c : Cache) (e : (nat * string) * option MovieInfo) :
  In e (cache_remove k c) <-> In e c /\ fst e <> k.
Proof.
  unfold cache_remove. rewrite filter_In, Bool.negb_true_iff, key_eqb_neq.
  split; intros [H1 H2]; split; congruence.
Qed.

Lemma cache_remove_nodup (k : nat * string) (c : Cache) :
  NoDup (map fst c) -> NoDup (map fst (cache_remove k c)).
Proof.
  induction c as [|[k' v'] c IH]; simpl; intros H; [constructor|].
  inversion H as [|? ? Hnot Hc]; subst.
  destruct (negb (key_eqb k k')); simpl; [|now apply IH].
  constructor; [|now apply IH].
  rewrite in_map_iff. intros [e [He Hin]]. apply cache_remove_In in Hin.
  apply Hnot. rewrite in_map_iff. exists e. tauto.
Qed.

Lemma cache_lookup_remove_other (k k' : nat * string) (c : Cache) :
  k' <> k -> cache_lookup k' (cache_remove k c) = cache_lookup k' c.
Proof.
  intros Hne. induction c as [|[k'' v''] c IH]; simpl; [reflexivity|].
  destruct (key_eqb k k'') eqn:E; simpl.
  - apply key_eqb_eq in E. subst k''.
    apply key_eqb_neq in Hne. now rewrite Hne.
  - now rewrite IH.
Qed.

(** X7.  A cache hit changes no binding of the cache: every key, the one hit
    included, is bound as before.  The entry that was hit moves to the
    front, so the next insertion of another key cannot evict it. *)
Theorem cache_hit_keeps_bindings (k : nat * string) (v : option MovieInfo) (c : Cache) :
  cache_lookup k c = Some v ->
  (forall k', cache_lookup k' (cache_touch k v c) = cache_lookup k' c) /\
  (forall k' v', k' <> k ->
     cache_lookup k (cache_store k' v' (cache_touch k v c)) = Some v).
Proof.
  intros Hk. split.
  - intros k'. unfold cache_touch. simpl.
    destruct (key_eqb k' k) eqn:E.
    + apply key_eqb_eq in E. now subst k'.
    + apply key_eqb_neq in E. now apply cache_lookup_remove_other.
  - intros k' v' Hne. unfold cache_store, cache_touch, maxsize. simpl.
    assert (E : key_eqb k k' = false) by (apply key_eqb_neq; congruence).
    now rewrite E, key_eqb_refl.
Qed.

Lemma cache_hit_keeps_bindings_witness :
  cache_lookup (0, "b")
    (cache_touch (0, "a") None [((0, "b"), None); ((0, "a"), None)])
  = Some None.
Proof.
  rewrite (proj1 (cache_hit_keeps_bindings (0, "a") None
                    [((0, "b"), None); ((0, "a"), None)] eq_refl)).
  reflexivity.
Defined.

Lemma cache_touch_ok (k : nat * string) (v : option MovieInfo) (c : Cache) :
  cache_lookup k c = Some v -> cache_ok c -> cache_ok (cache_touch k v c).
Proof.
  intros Hk [Hnd Hlen]. split.
  - unfold cache_touch. simpl. constructor; [|now apply cache_remove_nodup].
    rewrite in_map_iff. intros [e [He Hin]]. apply cache_remove_In in Hin. tauto.
  - pose proof (cache_touch_length _ _ _ Hk). lia.
Qed.

Lemma cache_store_ok (k : nat * string) (v : option MovieInfo) (c : Cache) :
  cache_lookup k c = None -> cache_ok c -> cache_ok (cache_store k v c).
Proof.
  intros Hk [Hnd Hlen]. split; [|apply cache_store_length].
  unfold cache_store. rewrite <- firstn_map. apply firstn_nodup.
  simpl. constructor; [now apply cache_lookup_none | exact Hnd].
Qed.

Lemma cache_touch_source (source : string) (k : nat * string) (v : option MovieInfo)
    (c : Cache) :
  cache_lookup k c = Some v -> cache_source source c ->
  cache_source source (cache_touch k v c).
Proof.
  intros Hk Hs k' info [H|H].
  - injection H as <- ->. apply (Hs k). now apply cache_lookup_In.
  - apply cache_remove_In in H. apply (Hs k'). tauto.
Qed.

Lemma cache_store_source (source : string) (k : nat * string) (v : option MovieInfo)
    (c : Cache) :
  (forall info, v = Some info -> mi_source info = source) ->
  cache_source source c -> cache_source source (cache_store k v c).
Proof.
  intros Hv Hs k' info H. unfold cache_store in H.
  assert (Hin : In (k', Some info) ((k, v) :: c)).
  { rewrite <- (firstn_skipn maxsize ((k, v) :: c)). apply in_or_app. now left. }
  destruct Hin as [Hin|Hin]; [injection Hin as _ ->; now apply Hv | now apply (Hs k')].
Qed.

(** ** The provider chain and its caches *)

Lemma sends_only_ret {A : Type} (P : Request -> Prop) (a : A) : sends_only P (ret a).
Proof. intros w r w' [= <- <-]. repeat split. now exists []. Qed.

Lemma sends_only_bind_lift {A B : Type} (P : Request -> Prop) (r : res A)
    (k : A -> M B) :
  (forall a, sends_only P (k a)) -> sends_only P (bind (lift r) k).
Proof.
  intros Hk w r' w'. unfold bind, lift.
  destruct r as [a|e]; [apply Hk|].
  intros [= <- <-]. repeat split. now exists [].
Qed.

Lemma returns_only_ret {A : Type} (Q : A -> Prop) (a : A) : Q a -> returns_only Q (ret a).
Proof. intros H w a' w' [= <- _]. exact H. Qed.

Lemma returns_only_bind {A B : Type} (Q : B -> Prop) (m : M A) (k : A -> M B) :
  (forall a, returns_only Q (k a)) -> returns_only Q (bind m k).
Proof.
  intros Hk w b w'. unfold bind.
  destruct (m w) as [[a|e] w1]; [apply Hk | discriminate].
Qed.

Section ProviderFacts.

Variable pyfloat : PyFloat.
Variable net : Network.

Lemma sends_only_bind_get {B : Type} (P : Request -> Prop) (req : Request)
    (k : HttpOutcome -> M B) :
  P req -> (forall out, sends_only P (k out)) ->
  sends_only P (bind (requests_get net req) k).
Proof.
  intros Hreq Hk w r w'. unfold bind, requests_get.
  intros H. apply Hk in H. simpl in H.
  destruct H as [Ht [Ho [reqs [Hs Hl]]]].
  repeat split; try assumption.
  exists (reqs ++ [req]). rewrite <- app_assoc. split; [exact Hs|].
  apply Forall_app. split; [exact Hl | now constructor].
Qed.

Lemma tmdb_body_sends_tmdb (self : MovieRecommender) (name : string) :
  sends_only is_tmdb_request (tmdb_body net self name).
Proof.
  unfold tmdb_body.
  destruct (api_key_of (tmdb_api_key self)) as [api_key|]; [|apply sends_only_ret].
  apply sends_only_bind_get; [exact I|].
  intros [|code [body|]]; try apply sends_only_ret;
    destruct (Z.eqb code 200); try apply sends_only_ret.
  apply sends_only_bind_lift. intros results.
  destruct (PyJson.truthy results); [|apply sends_only_ret].
  repeat (apply sends_only_bind_lift; intro).
  unfold _get_tmdb_movie_details.
  apply sends_only_bind_get; [exact I|].
  intros [|code' [body'|]]; try apply sends_only_ret;
    destruct (Z.eqb code' 200); try apply sends_only_ret.
  repeat (apply sends_only_bind_lift; intro). apply sends_only_ret.
Qed.

Lemma omdb_body_sends_omdb (self : MovieRecommender) (name : string) :
  sends_only is_omdb_request (omdb_body pyfloat net self name).
Proof.
  unfold omdb_body.
  destruct (api_key_of (omdb_api_key self)) as [api_key|]; [|apply sends_only_ret].
  apply sends_only_bind_get; [exact I|].
  intros [|code [body|]]; try apply sends_only_ret;
    destruct (Z.eqb code 200); try apply sends_only_ret.
  apply sends_only_bind_lift. intros r.
  destruct (PyJson.is_str r "True"); [|apply sends_only_ret].
  repeat (apply sends_only_bind_lift; intro). apply sends_only_ret.
Qed.

Ltac returns_none := apply returns_only_ret; discriminate.

Ltac returns_step :=
  first [ apply returns_only_ret; first [discriminate | intros ? [= <-]; reflexivity]
        | apply returns_only_bind; intro ].

Lemma tmdb_body_source (self : MovieRecommender) (name : string) :
  returns_only (fun o => forall info, o = Some info -> mi_source info = "TMDB")
               (tmdb_body net self name).
Proof.
  unfold tmdb_body.
  destruct (api_key_of (tmdb_api_key self)) as [api_key|]; [|returns_none].
  apply returns_only_bind. intros [|code [body|]]; try returns_none;
    destruct (Z.eqb code 200); try returns_none.
  apply returns_only_bind. intros results.
  destruct (PyJson.truthy results); [|returns_none].
  do 2 (apply returns_only_bind; intro).
  unfold _get_tmdb_movie_details.
  apply returns_only_bind. intros [|code' [body'|]]; try returns_none;
    destruct (Z.eqb code' 200); try returns_none.
  repeat returns_step.
Qed.

Lemma omdb_body_source (self : MovieRecommender) (name : string) :
  returns_only (fun o => forall info, o = Some info -> mi_source info = "OMDB")
               (omdb_body pyfloat net self name).
Proof.
  unfold omdb_body.
  destruct (api_key_of (omdb_api_key self)) as [api_key|]; [|returns_none].
  apply returns_only_bind. intros [|code [body|]]; try returns_none;
    destruct (Z.eqb code 200); try returns_none.
  apply returns_only_bind. intros r.
  destruct (PyJson.is_str r "True"); [|returns_none].
  repeat returns_step.
Qed.

(** The three ways a decorated lookup can run. *)
Lemma lru_cache_cases (sel : World -> Cache) (upd : Cache -> World -> World)
    (k : nat * string) (body : M (option MovieInfo)) (w w1 : World)
    (r : res (option MovieInfo)) :
  lru_cache sel upd k body w = (r, w1) ->
  (exists v, cache_lookup k (sel w) = Some v /\ r = Ok v /\
             w1 = upd (cache_touch k v (sel w)) w) \/
  (exists v w', cache_lookup k (sel w) = None /\ body w = (Ok v, w') /\ r = Ok v /\
                w1 = upd (cache_store k v (sel w')) w') \/
  (exists e, cache_lookup k (sel w) = None /\ body w = (Raise e, w1) /\ r = Raise e).
Proof.
  unfold lru_cache. destruct (cache_lookup k (sel w)) as [v|].
  - intros [= <- <-]. left. now exists v.
  - destruct (body w) as [[v|e] w'] eqn:E; intros [= <- <-]; right.
    + left. now exists v, w'.
    + right. now exists e.
Qed.

Lemma search_tmdb_effect (self : MovieRecommender) (name : string) (w w1 : World)
    (r : res (option MovieInfo)) :
  search_movie_tmdb net self name w = (r, w1) ->
  omdb_cache w1 = omdb_cache w /\
  exists reqs, sent w1 = reqs ++ sent w /\ Forall is_tmdb_request reqs.
Proof.
  intros H. apply lru_cache_cases in H.
  destruct H as [[v [_ [_ ->]]]|[[v [w' [_ [Hb [_ ->]]]]]|[e [_ [Hb _]]]]]; simpl.
  - split; [reflexivity | now exists []].
  - apply tmdb_body_sends_tmdb in Hb. tauto.
  - apply tmdb_body_sends_tmdb in Hb. tauto.
Qed.

Lemma search_omdb_effect (self : MovieRecommender) (name : string) (w w1 : World)
    (r : res (option MovieInfo)) :
  search_movie_omdb pyfloat net self name w = (r, w1) ->
  tmdb_cache w1 = tmdb_cache w /\
  exists reqs, sent w1 = reqs ++ sent w /\ Forall is_omdb_request reqs.
Proof.
  intros H. apply lru_cache_cases in H.
  destruct H as [[v [_ [_ ->]]]|[[v [w' [_ [Hb [_ ->]]]]]|[e [_ [Hb _]]]]]; simpl.
  - split; [reflexivity | now exists []].
  - apply omdb_body_sends_omdb in Hb. tauto.
  - apply omdb_body_sends_omdb in Hb. tauto.
Qed.

(** X8.  The chain asks TMDB first.  A record from TMDB is the answer and
    OMDB is neither asked nor its cache touched; a miss at TMDB hands the
    query to OMDB; an exception in the TMDB lookup ends the chain, and OMDB
    is not tried. *)
Theorem chain_order (self : MovieRecommender) (name : string) (w : World) :
  match search_movie_tmdb net self name w with
  | (Ok (Some info), w1) =>
      lookup_any pyfloat net self name w = (Ok (Some info), w1) /\
      omdb_cache w1 = omdb_cache w /\
      exists reqs, sent w1 = reqs ++ sent w /\ Forall is_tmdb_request reqs
  | (Ok None, w1) =>
      lookup_any pyfloat net self name w = search_movie_omdb pyfloat net self name w1
  | (Raise e, w1) =>
      lookup_any pyfloat net self name w = (Raise e, w1) /\
      omdb_cache w1 = omdb_cache w /\
      exists reqs, sent w1 = reqs ++ sent w /\ Forall is_tmdb_request reqs
  end.
Proof.
  unfold lookup_any, bind.
  destruct (search_movie_tmdb net self name w) as [[[info|]|e] w1] eqn:E;
    try reflexivity; (split; [reflexivity | now apply search_tmdb_effect in E]).
Qed.

(** X9.  A lookup that raises stores nothing: both caches are as before and
    the query is still absent from the provider's cache, so the next call
    asks the provider again. *)
Theorem exceptions_are_not_cached (self : MovieRecommender) (name : string)
    (w w1 : World) (e : exn) :
  (search_movie_tmdb net self name w = (Raise e, w1) ->
   tmdb_cache w1 = tmdb_cache w /\ omdb_cache w1 = omdb_cache w /\
   cache_lookup (obj_id self, name) (tmdb_cache w1) = None /\
   search_movie_tmdb net self name w1 =
     match tmdb_body net self name w1 with
     | (Ok v, w2) =>
         (Ok v, set_tmdb_cache (cache_store (obj_id self, name) v (tmdb_cache w2)) w2)
     | (Raise e', w2) => (Raise e', w2)
     end) /\
  (search_movie_omdb pyfloat net self name w = (Raise e, w1) ->
   tmdb_cache w1 = tmdb_cache w /\ omdb_cache w1 = omdb_cache w /\
   cache_lookup (obj_id self, name) (omdb_cache w1) = None /\
   search_movie_omdb pyfloat net self name w1 =
     match omdb_body pyfloat net self name w1 with
     | (Ok v, w2) =>
         (Ok v, set_omdb_cache (cache_store (obj_id self, name) v (omdb_cache w2)) w2)
     | (Raise e', w2) => (Raise e', w2)
     end).
Proof.
  split; intros H; apply lru_cache_cases in H;
    destruct H as [[v [_ [H _]]]|[[v [w' [_ [_ [H _]]]]]|[e' [Hl [Hb _]]]]];
    try discriminate.
  - destruct (tmdb_body_sends_two net self name _ _ _ Hb) as [Ht [Ho _]].
    assert (Hl1 : cache_lookup (obj_id self, name) (tmdb_cache w1) = None) by congruence.
    repeat split; try assumption.
    unfold search_movie_tmdb, lru_cache. now rewrite Hl1.
  - destruct (omdb_body_sends_one pyfloat net self name _ _ _ Hb) as [Ht [Ho _]].
    assert (Hl1 : cache_lookup (obj_id self, name) (omdb_cache w1) = None) by congruence.
    repeat split; try assumption.
    unfold search_movie_omdb, lru_cache. now rewrite Hl1.
Qed.

Lemma search_tmdb_keeps_ok (self : MovieRecommender) (name : string) (w w1 : World)
    (r : res (option MovieInfo)) :
  caches_ok w ->
  search_movie_tmdb net self name w = (r, w1) ->
  caches_ok w1 /\ forall info, r = Ok (Some info) -> mi_source info = "TMDB".
Proof.
  intros [Ht [Ho [St So]]] H. apply lru_cache_cases in H.
  destruct H as [[v [Hl [-> ->]]]|[[v [w' [Hl [Hb [-> ->]]]]]|[e [_ [Hb ->]]]]].
  - split.
    + unfold caches_ok. simpl.
      split; [now apply cache_touch_ok|]. split; [exact Ho|].
      split; [now apply cache_touch_source | exact So].
    + intros info [= ->]. apply (St (obj_id self, name)). now apply cache_lookup_In.
  - pose proof (tmdb_body_source self name _ _ _ Hb) as Hsrc. simpl in Hsrc.
    destruct (tmdb_body_sends_two net self name _ _ _ Hb) as [Et [Eo _]].
    split.
    + unfold caches_ok. simpl. rewrite Et, Eo.
      split; [now apply cache_store_ok|]. split; [exact Ho|].
      split; [now apply cache_store_source | exact So].
    + intros info [= ->]. now apply Hsrc.
  - destruct (tmdb_body_sends_two net self name _ _ _ Hb) as [Et [Eo _]].
    split; [|discriminate]. unfold caches_ok. rewrite Et, Eo. tauto.
Qed.

Lemma search_omdb_keeps_ok (self : MovieRecommender) (name : string) (w w1 : World)
    (r : res (option MovieInfo)) :
  caches_ok w ->
  search_movie_omdb pyfloat net self name w = (r, w1) ->
  caches_ok w1 /\ forall info, r = Ok (Some info) -> mi_source info = "OMDB".
Proof.
  intros [Ht [Ho [St So]]] H. apply lru_cache_cases in H.
  destruct H as [[v [Hl [-> ->]]]|[[v [w' [Hl [Hb [-> ->]]]]]|[e [_ [Hb ->]]]]].
  - split.
    + unfold caches_ok. simpl.
      split; [exact Ht|]. split; [now apply cache_touch_ok|].
      split; [exact St | now apply cache_touch_source].
    + intros info [= ->]. apply (So (obj_id self, name)). now apply cache_lookup_In.
  - pose proof (omdb_body_source self name _ _ _ Hb) as Hsrc. simpl in Hsrc.
    destruct (omdb_body_sends_one pyfloat net self name _ _ _ Hb) as [Et [Eo _]].
    split.
    + unfold caches_ok. simpl. rewrite Et, Eo.
      split; [exact Ht|]. split; [now apply cache_store_ok|].
      split; [exact St | now apply cache_store_source].
    + intros info [= ->]. now apply Hsrc.
  - destruct (omdb_body_sends_one pyfloat net self name _ _ _ Hb) as [Et [Eo _]].
    split; [|discriminate]. unfold caches_ok. rewrite Et, Eo. tauto.
Qed.

Lemma lookup_any_keeps_ok (self : MovieRecommender) (name : string) (w w1 : World)
    (r : res (option MovieInfo)) :
  caches_ok w ->
  lookup_any pyfloat net self name w = (r, w1) ->
  caches_ok w1 /\
  forall info, r = Ok (Some info) -> mi_source info = "TMDB" \/ mi_source info = "OMDB".
Proof.
  intros Hok. unfold lookup_any, bind.
  destruct (search_movie_tmdb net self name w) as [[[info|]|e] w'] eqn:E;
    destruct (search_tmdb_keeps_ok _ _ _ _ _ Hok E) as [Hok' Hsrc].
  - intros [= <- <-]. split; [exact Hok'|]. intros i [= <-]. left. now apply Hsrc.
  - intros H. destruct (search_omdb_keeps_ok _ _ _ _ _ Hok' H) as [Hok2 Hsrc2].
    split; [exact Hok2|]. intros i Hi. right. now apply Hsrc2.
  - intros [= <- <-]. split; [exact Hok'|]. discriminate.
Qed.

End ProviderFacts.

Section ResolverMore.

Variable pyfloat : PyFloat.
Variable net : Network.

(** X10.  Starting from caches with at most 100 entries, no key twice and
    records of the right provider, [get_recommendations] leaves such caches
    behind, whether it returns or raises; and a searched movie that came from
    a provider is a TMDB or an OMDB record, named in the message. *)
Theorem resolver_keeps_caches (self : MovieRecommender) (name : string) (n : Z)
    (prefs : list string) (w w' : World) (r : res ResolutionResult) :
  caches_ok w ->
  get_recommendations pyfloat net self name n prefs w = (r, w') ->
  caches_ok w' /\
  forall result info,
    r = Ok result -> searched_movie result = Some (FromProvider info) ->
    mi_source info = "TMDB" /\ message result = "Movie found via TMDB API" \/
    mi_source info = "OMDB" /\ message result = "Movie found via OMDB API".
Proof.
  intros Hok. rewrite get_recommendations_eq, resolve_candidates_eq.
  destruct (find_movie_in_dataset self name) as [[idx|]|e].
  - destruct (nth_error (rows (movies_df self)) idx) as [movie|].
    + simpl. destruct (apply_genre_filter prefs _); intros [= <- <-];
        (split; [exact Hok|]); intros result info [= <-]; discriminate.
    + intros [= <- <-]. split; [exact Hok | discriminate].
  - destruct (lookup_any pyfloat net self name w) as [[[info|]|e] w1] eqn:E;
      destruct (lookup_any_keeps_ok _ _ _ _ _ _ _ Hok E) as [Hok1 Hsrc]; simpl.
    + destruct (apply_genre_filter prefs _); intros [= <- <-];
        (split; [exact Hok1|]); [|discriminate].
      intros result i [= <-]. simpl. intros [= <-].
      destruct (Hsrc info eq_refl) as [Hs|Hs]; rewrite Hs; [left | right]; now split.
    + destruct (apply_genre_filter prefs _); intros [= <- <-];
        (split; [exact Hok1|]); intros result i [= <-]; discriminate.
    + intros [= <- <-]. split; [exact Hok1 | discriminate].
  - intros [= <- <-]. split; [exact Hok | discriminate].
Qed.

Lemma no_key_tmdb (self : MovieRecommender) (name : string) (w : World) :
  api_key_of (tmdb_api_key self) = None ->
  exists v w1,
    search_movie_tmdb net self name w = (Ok v, w1) /\
    sent w1 = sent w /\
    omdb_cache w1 = omdb_cache w /\
    (cache_lookup (obj_id self, name) (tmdb_cache w) = None -> v = None).
Proof.
  intros Hk. unfold search_movie_tmdb, lru_cache, tmdb_body. rewrite Hk.
  destruct (cache_lookup (obj_id self, name) (tmdb_cache w)) as [v|].
  - exists v. eexists. repeat split. discriminate.
  - exists None. eexists. repeat split.
Qed.

Lemma no_key_omdb (self : MovieRecommender) (name : string) (w : World) :
  api_key_of (omdb_api_key self) = None ->
  exists v w1,
    search_movie_omdb pyfloat net self name w = (Ok v, w1) /\
    sent w1 = sent w /\
    (cache_lookup (obj_id self, name) (omdb_cache w) = None -> v = None).
Proof.
  intros Hk. unfold search_movie_omdb, lru_cache, omdb_body. rewrite Hk.
  destruct (cache_lookup (obj_id self, name) (omdb_cache w)) as [v|].
  - exists v. eexists. repeat split. discriminate.
  - exists None. eexists. repeat split.
Qed.

(** X11.  Without API keys (unset or empty) the resolver sends no request:
    for a title that is not in the catalog it returns, and with no earlier
    cache entry for the query the status is [not_found], the searched movie
    is absent and the recommendations are the first [n] popular movies. *)
Theorem no_keys_no_requests (self : MovieRecommender) (name : string) (n : Z)
    (w : World) :
  api_key_of (tmdb_api_key self) = None ->
  api_key_of (omdb_api_key self) = None ->
  find_movie_in_dataset self name = Ok None ->
  exists result w',
    get_recommendations pyfloat net self name n [] w = (Ok result, w') /\
    sent w' = sent w /\
    (cache_lookup (obj_id self, name) (tmdb_cache w) = None ->
     cache_lookup (obj_id self, name) (omdb_cache w) = None ->
     status result = "not_found" /\
     searched_movie result = None /\
     recommendations result = slice_to n (get_popular_movies self n)).
Proof.
  intros Ht Ho Hfind.
  rewrite get_recommendations_eq, resolve_candidates_eq, Hfind.
  unfold lookup_any, bind.
  destruct (no_key_tmdb self name w Ht) as [v [w1 [E1 [Hs1 [Hc1 Hv1]]]]].
  rewrite E1.
  destruct v as [info|].
  - simpl. eexists. eexists. split; [reflexivity|]. split; [exact Hs1|].
    intros Hn _. specialize (Hv1 Hn). discriminate.
  - destruct (no_key_omdb self name w1 Ho) as [v2 [w2 [E2 [Hs2 Hv2]]]].
    rewrite E2. destruct v2 as [info|]; simpl.
    + eexists. eexists. split; [reflexivity|]. split; [congruence|].
      intros _ Hn. rewrite <- Hc1 in Hn. specialize (Hv2 Hn). discriminate.
    + eexists. eexists. split; [reflexivity|]. split; [congruence|].
      intros _ _. now repeat split.
Qed.

Lemma apply_genre_filter_raise (prefs : list string) (recs : list Rec) (e : exn) :
  apply_genre_filter prefs recs = Raise e ->
  e = AttributeError /\ prefs <> [] /\ exists rec, In rec recs /\ rec_genres rec = None.
Proof.
  unfold apply_genre_filter. destruct prefs as [|p ps]; [discriminate|].
  destruct (filter_recs (p :: ps) recs) as [[|k ks]|e'] eqn:E; try discriminate.
  intros [= <-]. now apply filter_recs_raise.
Qed.

(** A title found in the catalog is reported as such, whatever the preferred
    genres; only the genre filter can make the call raise. *)
Lemma local_hit_reported (self : MovieRecommender) (name : string) (idx : nat)
    (movie : Row) (n : Z) (prefs : list string) (w : World) :
  find_movie_in_dataset self name = Ok (Some idx) ->
  nth_error (rows (movies_df self)) idx = Some movie ->
  reports_row self name n prefs idx movie w
    (get_recommendations pyfloat net self name n prefs w).
Proof.
  intros Hf Hm. rewrite get_recommendations_eq, resolve_candidates_eq, Hf, Hm.
  unfold reports_row. cbn [snd fst].
  destruct (apply_genre_filter prefs (recommend_for_existing_movie self idx (n * 2)))
    as [recs|e] eqn:E.
  - cbn. repeat split. now exists recs.
  - apply apply_genre_filter_raise in E. destruct E as [He [Hp Hrec]].
    now repeat split.
Qed.

(** C10 (amended).  For a query that is empty after normalization: when no
    stored title is blank and some row has a title, the exact step misses,
    the partial step matches the first row with a title, and the resolver
    reports that row as found in the dataset, without asking a provider,
    for every list of preferred genres on which it returns (it raises only
    in the genre filter).  When some stored title is blank, the exact step
    returns the first row with a blank title instead, and the resolver
    reports that row in the same way. *)
Theorem blank_query_matches_first_titled_row (self : MovieRecommender)
    (q : string) (n : Z) (w : World) :
  has_col (movies_df self) "title" = true ->
  normalize q = EmptyString ->
  (forall i,
     (forall r, In r (rows (movies_df self)) -> norm_title r <> Some EmptyString) ->
     find_first has_title (rows (movies_df self)) = Some i ->
     find_first (exact_mask EmptyString) (rows (movies_df self)) = None /\
     find_first (partial_mask EmptyString) (rows (movies_df self)) = Some i /\
     find_movie_in_dataset self q = Ok (Some i) /\
     exists movie,
       nth_error (rows (movies_df self)) i = Some movie /\
       title movie <> None /\
       forall prefs,
         reports_row self q n prefs i movie w
           (get_recommendations pyfloat net self q n prefs w)) /\
  (forall j,
     find_first (exact_mask EmptyString) (rows (movies_df self)) = Some j ->
     find_movie_in_dataset self q = Ok (Some j) /\
     exists movie,
       nth_error (rows (movies_df self)) j = Some movie /\
       norm_title movie = Some EmptyString /\
       (forall k rk, k < j -> nth_error (rows (movies_df self)) k = Some rk ->
                     norm_title rk <> Some EmptyString) /\
       forall prefs,
         reports_row self q n prefs j movie w
           (get_recommendations pyfloat net self q n prefs w)).
Proof.
  intros Hcol Hq. split.
  - intros i Hblank Hi.
    assert (Hexact : find_first (exact_mask EmptyString) (rows (movies_df self)) = None).
    { apply find_first_none. intros r Hr. apply exact_mask_false_iff. now apply Hblank. }
    assert (Hpartial : find_first (partial_mask EmptyString) (rows (movies_df self))
                       = Some i).
    { rewrite (find_first_ext _ has_title); [exact Hi | apply partial_mask_empty]. }
    destruct (find_first_some _ _ _ Hi) as [[movie [Hm Ht]] _].
    assert (Hfind : find_movie_in_dataset self q = Ok (Some i)).
    { unfold find_movie_in_dataset. rewrite Hcol.
      rewrite (str_accessor_titled (movies_df self) movie);
        [|now apply (nth_error_In _ i) | exact Ht].
      fold (normalize q). rewrite Hq. now rewrite Hexact, Hpartial. }
    repeat split; try assumption.
    exists movie. split; [exact Hm|]. split.
    + unfold has_title in Ht. destruct (title movie); [discriminate | discriminate Ht].
    + intros prefs. now apply local_hit_reported.
  - intros j Hj.
    destruct (find_first_some _ _ _ Hj) as [[movie [Hm Hp]] Hmin].
    assert (Hfind : find_movie_in_dataset self q = Ok (Some j)).
    { unfold find_movie_in_dataset. rewrite Hcol.
      rewrite (str_accessor_titled (movies_df self) movie);
        [|now apply (nth_error_In _ j)
         |unfold exact_mask in Hp; unfold has_title;
          destruct (title movie); [reflexivity | discriminate Hp]].
      fold (normalize q). rewrite Hq. now rewrite Hj. }
    split; [exact Hfind|].
    exists movie. split; [exact Hm|]. split; [now apply exact_mask_iff|]. split.
    + intros k rk Hk Hrk. apply exact_mask_false_iff. now apply (Hmin k rk).
    + intros prefs. now apply local_hit_reported.
Qed.

Lemma returned_shape (self : MovieRecommender) (name : string) (n : Z)
    (w w' : World) (result : ResolutionResult) :
  get_recommendations pyfloat net self name n [] w = (Ok result, w') ->
  status result = "success" /\ searched_movie result <> None \/
  status result = "not_found" /\ searched_movie result = None /\
  Forall (fun rec => recommendation_method rec = "popular") (recommendations result).
Proof.
  rewrite get_recommendations_eq, resolve_candidates_eq. intros E.
  destruct (find_movie_in_dataset self name) as [[idx|]|e]; [| |discriminate].
  - destruct (nth_error (rows (movies_df self)) idx); [|discriminate].
    injection E as <- _. left. split; [reflexivity | discriminate].
  - destruct (lookup_any pyfloat net self name w) as [[[info|]|e] w1];
      [| |discriminate]; injection E as <- _; simpl.
    + left. split; [reflexivity | discriminate].
    + right. split; [reflexivity|]. split; [reflexivity|].
      rewrite Forall_forall. intros rec Hin. apply slice_to_incl in Hin.
      now apply popular_tagged in Hin.
Qed.

(** A returning run for the count of [api_search] is the run of
    [get_recommendations] for the value of the count. *)
Lemma count_run_returns (self : MovieRecommender) (name : string) (c : Count)
    (w w' : World) (result : ResolutionResult) :
  get_recommendations_count pyfloat net self name c [] w = (Ok result, w') ->
  get_recommendations pyfloat net self name (count_value c) [] w = (Ok result, w').
Proof.
  destruct c as [z|]; simpl.
  - now rewrite get_recommendations_count_int.
  - intros H. now apply get_recommendations_count_true in H.
Qed.

Lemma api_search_blank (movie_recommender : option MovieRecommender)
    (fields : list (string * json)) (raw : string) (w : World) :
  PyJson.assoc "movie_name" fields = Some (JStr raw) ->
  PyStr.strip raw = EmptyString ->
  api_search pyfloat net movie_recommender (JObj fields) w
  = (Reply400 "Movie name cannot be empty", w).
Proof.
  intros Hname Hblank. unfold api_search. simpl.
  destruct fields as [|f fields]; [discriminate|].
  cbn [PyJson.truthy negb]. rewrite Hname.
  destruct (PyJson.assoc "n_recommendations" (f :: fields));
    destruct (PyJson.assoc "preference_genres" (f :: fields));
    rewrite Hblank; reflexivity.
Qed.

(** X12.  What each reply of [api_search] means.  400 "Movie name is
    required": the body is false or lacks [movie_name]; 400 "Movie name
    cannot be empty": the name is a blank string; in both nothing was done.
    503: a proper name and no recommender, nothing done.  500: reading the
    name raised (a body that is no dictionary, a name that is no string), or
    the resolver raised.  200: the body is a dictionary with a string name
    that is not blank and the resolver returned, called with the stripped
    name, the validated count and no preferred genre; the status is
    [success] with a searched movie, or [not_found] with none and only
    popular movies; there are at most 50 recommendations. *)
Theorem api_search_replies (movie_recommender : option MovieRecommender)
    (data : json) (w : World) :
  match api_search pyfloat net movie_recommender data w with
  | (Reply400 error, w') =>
      w' = w /\
      (error = "Movie name is required" /\
       (PyJson.truthy data = false \/ PyJson.py_in "movie_name" data = Ok false) \/
       error = "Movie name cannot be empty" /\
       exists fields raw,
         data = JObj fields /\
         PyJson.assoc "movie_name" fields = Some (JStr raw) /\
         PyStr.strip raw = EmptyString)
  | (Reply503, w') =>
      w' = w /\ movie_recommender = None /\
      exists fields raw,
        data = JObj fields /\
        PyJson.assoc "movie_name" fields = Some (JStr raw) /\
        PyStr.strip raw <> EmptyString
  | (Reply500, w') =>
      w' = w /\ PyJson.truthy data = true /\
      ((exists e, PyJson.py_in "movie_name" data = Raise e) \/
       PyJson.py_in "movie_name" data = Ok true /\
       forall raw, PyJson.getitem_str data "movie_name" <> Ok (JStr raw)) \/
      exists self fields raw e,
        movie_recommender = Some self /\
        data = JObj fields /\
        PyJson.assoc "movie_name" fields = Some (JStr raw) /\
        PyStr.strip raw <> EmptyString /\
        get_recommendations_count pyfloat net self (PyStr.strip raw)
          (validate_count (count_field fields)) [] w = (Raise e, w')
  | (Reply200 movie recs reply_status, w') =>
      exists self fields raw result,
        movie_recommender = Some self /\
        data = JObj fields /\
        PyJson.assoc "movie_name" fields = Some (JStr raw) /\
        PyStr.strip raw <> EmptyString /\
        get_recommendations_count pyfloat net self (PyStr.strip raw)
          (validate_count (count_field fields)) [] w = (Ok result, w') /\
        movie = searched_movie result /\ recs = recommendations result /\
        reply_status = status result /\
        (reply_status = "success" /\ movie <> None \/
         reply_status = "not_found" /\ movie = None /\
         Forall (fun rec => recommendation_method rec = "popular") recs) /\
        List.length recs <= 50
  end.
Proof.
  destruct (PyJson.truthy data) eqn:Et.
  2: { unfold api_search. rewrite Et. simpl. split; [reflexivity|].
       left. split; [reflexivity | now left]. }
  destruct (PyJson.py_in "movie_name" data) as [[|]|e] eqn:Ei.
  2: { unfold api_search. rewrite Et, Ei. simpl. split; [reflexivity|].
       left. split; [reflexivity | now right]. }
  2: { unfold api_search. rewrite Et, Ei. simpl. left.
       split; [reflexivity|]. split; [reflexivity|]. left. now exists e. }
  destruct (PyJson.getitem_str data "movie_name") as [v|e] eqn:Eg.
  2: { unfold api_search. rewrite Et, Ei, Eg. simpl. left.
       split; [reflexivity|]. split; [reflexivity|]. right.
       split; [reflexivity | discriminate]. }
  assert (Hother : (forall raw, v <> JStr raw) ->
                   api_search pyfloat net movie_recommender data w = (Reply500, w)).
  { intros Hv. unfold api_search. rewrite Et, Ei, Eg. simpl.
    destruct v; try reflexivity. now destruct (Hv s). }
  destruct v as [| | | |raw| |];
    try (rewrite Hother by discriminate; left;
         split; [reflexivity|]; split; [reflexivity|]; right;
         split; [reflexivity | discriminate]).
  clear Hother.
  destruct data as [| | | | | |fields]; try discriminate Eg.
  simpl in Eg. destruct (PyJson.assoc "movie_name" fields) as [x|] eqn:Ha;
    [|discriminate]. injection Eg as ->.
  destruct (String.eqb_spec (PyStr.strip raw) EmptyString) as [Hb|Hb].
  { rewrite (api_search_blank _ _ raw) by assumption. split; [reflexivity|].
    right. split; [reflexivity|]. now exists fields, raw. }
  rewrite (api_search_named pyfloat net _ _ raw) by assumption.
  destruct movie_recommender as [self|].
  2: { split; [reflexivity|]. split; [reflexivity|]. now exists fields, raw. }
  unfold reply_of.
  destruct (get_recommendations_count pyfloat net self (PyStr.strip raw)
              (validate_count (count_field fields)) [] w) as [[result|e] w'] eqn:E.
  - exists self, fields, raw, result. repeat split; try assumption.
    + pose proof (count_run_returns _ _ _ _ _ _ E) as E1.
      now apply returned_shape in E1.
    + pose proof (count_run_returns _ _ _ _ _ _ E) as E1.
      pose proof (validate_count_range (count_field fields)) as Hr.
      apply get_recommendations_length in E1; lia.
  - right. exists self, fields, raw, e. now repeat split.
Qed.

End ResolverMore.

Lemma blank_query_matches_first_titled_row_witness :
  find_movie_in_dataset Demo.demo " " = Ok (Some 0) /\
  (exists movie,
     nth_error Demo.demo_rows 0 = Some movie /\
     reports_row Demo.demo " " 2 ["Drama"] 0 movie Demo.w0
       (get_recommendations Demo.no_float Demo.offline Demo.demo " " 2 ["Drama"]
          Demo.w0)) /\
  find_movie_in_dataset Demo.blank " " = Ok (Some 1) /\
  (exists movie,
     nth_error Demo.blank_rows 1 = Some movie /\
     norm_title movie = Some EmptyString).
Proof.
  destruct (blank_query_matches_first_titled_row Demo.no_float Demo.offline
              Demo.demo " " 2 Demo.w0 eq_refl eq_refl) as [HA _].
  destruct (HA 0) as [_ [_ [Hfind [movie [Hm [_ Hrep]]]]]].
  { intros r Hin.
    repeat (destruct Hin as [<-|Hin]; [vm_compute; discriminate|]). destruct Hin. }
  { reflexivity. }
  destruct (blank_query_matches_first_titled_row Demo.no_float Demo.offline
              Demo.blank " " 2 Demo.w0 eq_refl eq_refl) as [_ HB].
  destruct (HB 1 eq_refl) as [Hfind' [movie' [Hm' [Hn' _]]]].
  split; [exact Hfind|]. split; [exists movie; split; [exact Hm | apply Hrep]|].
  split; [exact Hfind'|]. exists movie'. now split.
Defined.

Lemma resolver_keeps_caches_witness :
  caches_ok
    (snd (get_recommendations Demo.no_float Demo.tmdb_hit Demo.demo "Zzz" 2 [] Demo.w0)).
Proof.
  refine (proj1 (resolver_keeps_caches Demo.no_float Demo.tmdb_hit Demo.demo "Zzz" 2 []
                   Demo.w0 _ _ _ (surjective_pairing _))).
  unfold caches_ok, cache_ok, cache_source, maxsize. simpl.
  repeat split; try constructor; try lia; intros k info [].
Defined.

Lemma no_keys_no_requests_witness :
  exists result w',
    get_recommendations Demo.no_float Demo.tmdb_hit Demo.sparse "Zzz" 1 [] Demo.w0
      = (Ok result, w') /\
    sent w' = [] /\ status result = "not_found".
Proof.
  destruct (no_keys_no_requests Demo.no_float Demo.tmdb_hit Demo.sparse "Zzz" 1 Demo.w0
              eq_refl eq_refl eq_refl) as [result [w' [Hrun [Hsent Hres]]]].
  exists result, w'. split; [exact Hrun|]. split; [exact Hsent|].
  now apply Hres.
Defined.

Lemma exceptions_are_not_cached_witness :
  tmdb_cache (snd (search_movie_tmdb Demo.malformed Demo.demo "Zzz" Demo.w0)) = [] /\
  cache_lookup (0, "Zzz")
    (tmdb_cache (snd (search_movie_tmdb Demo.malformed Demo.demo "Zzz" Demo.w0))) = None.
Proof.
  destruct (proj1 (exceptions_are_not_cached Demo.no_float Demo.malformed Demo.demo
                     "Zzz" Demo.w0
                     (snd (search_movie_tmdb Demo.malformed Demo.demo "Zzz" Demo.w0))
                     KeyError) eq_refl)
    as [Ht [_ [Hl _]]].
  split; [exact Ht | exact Hl].
Defined.

(** ** The provider clients of the service layer *)

Module MovieApisFacts.
Import MovieApis.

Section ClientFacts.

Variable net : ApiNetwork.

Lemma tmdb_details_run (api_key : string) (movie_id : json) (s : list ApiRequest) :
  exists v,
    tmdb_get_movie_details net api_key movie_id s
      = (Ok v, MovieDetails api_key movie_id :: s) /\
    (v <> JNull ->
     net s (MovieDetails api_key movie_id) = Response 200 (Some v)).
Proof.
  unfold tmdb_get_movie_details, try_except, abind, api_get, alift, aret.
  destruct (net s (MovieDetails api_key movie_id)) as [|code body]; simpl.
  - exists JNull. split; [reflexivity | congruence].
  - destruct (Z.eqb_spec code 200) as [->|Hne].
    + destruct body as [data|]; simpl.
      * exists data. now split.
      * exists JNull. split; [reflexivity | congruence].
    + exists JNull. split; [reflexivity | congruence].
Qed.

Lemma omdb_lookup_run (req : ApiRequest) (s : list ApiRequest) :
  exists v,
    omdb_lookup net req s = (Ok v, req :: s) /\
    (v <> JNull ->
     exists fields,
       v = JObj fields /\
       net s req = Response 200 (Some v) /\
       PyJson.assoc "Response" fields = Some (JStr "True")).
Proof.
  unfold omdb_lookup, try_except, abind, api_get, alift, aret.
  destruct (net s req) as [|code body]; simpl.
  - exists JNull. split; [reflexivity | congruence].
  - destruct (Z.eqb_spec code 200) as [->|Hne];
      [|exists JNull; split; [reflexivity | congruence]].
    destruct body as [data|]; simpl;
      [|exists JNull; split; [reflexivity | congruence]].
    destruct data as [| | | | | |fields]; simpl;
      try (exists JNull; split; [reflexivity | congruence]).
    destruct (PyJson.assoc "Response" fields) as [r|] eqn:Ea; simpl;
      [|exists JNull; split; [reflexivity | congruence]].
    destruct r as [| | | |t| |]; simpl;
      try (exists JNull; split; [reflexivity | congruence]).
    destruct (String.eqb_spec t "True") as [->|Hne];
      [|exists JNull; split; [reflexivity | congruence]].
    exists (JObj fields). split; [reflexivity|]. intros _. now exists fields.
Qed.

Lemma tmdb_search_run (api_key query : string) (year : option Z)
    (s : list ApiRequest) :
  exists v,
    tmdb_search_movie net api_key query year s
      = (Ok v, SearchMovie api_key query (year_param year) :: s) /\
    (v <> JNull ->
     exists fields results,
       net s (SearchMovie api_key query (year_param year))
         = Response 200 (Some (JObj fields)) /\
       PyJson.assoc "results" fields = Some results /\
       PyJson.truthy results = true /\
       PyJson.getitem_0 results = Ok v).
Proof.
  unfold tmdb_search_movie, try_except, abind, api_get, alift, aret.
  destruct (net s (SearchMovie api_key query (year_param year))) as [|code body]; simpl.
  - exists JNull. split; [reflexivity | congruence].
  - destruct (Z.eqb_spec code 200) as [->|Hne];
      [|exists JNull; split; [reflexivity | congruence]].
    destruct body as [data|]; simpl;
      [|exists JNull; split; [reflexivity | congruence]].
    destruct data as [| | | | | |fields]; simpl;
      try (exists JNull; split; [reflexivity | congruence]).
    destruct (PyJson.assoc "results" fields) as [results|] eqn:Ea; simpl;
      [|exists JNull; split; [reflexivity | congruence]].
    destruct (PyJson.truthy results) eqn:Et; simpl;
      [|exists JNull; split; [reflexivity | congruence]].
    destruct (PyJson.getitem_0 results) as [v|e] eqn:Eg.
    + exists v. split; [reflexivity|]. intros _. now exists fields, results.
    + exists JNull. split; [reflexivity | congruence].
Qed.

(** X13.  The clients of [services/movie_apis.py] never raise and send
    exactly one request per call.  A search returns a value other than
    [None] only for a 200 response whose JSON object has a true [results]
    field, of which it is the first item; a details lookup only the body of a
    200 response; an OMDB lookup only a 200 JSON object whose [Response] is
    the string [True]. *)
Theorem clients_never_raise (s : list ApiRequest) :
  (forall api_key query year,
     exists v,
       tmdb_search_movie net api_key query year s
         = (Ok v, SearchMovie api_key query (year_param year) :: s) /\
       (v <> JNull ->
        exists fields results,
          net s (SearchMovie api_key query (year_param year))
            = Response 200 (Some (JObj fields)) /\
          PyJson.assoc "results" fields = Some results /\
          PyJson.truthy results = true /\
          PyJson.getitem_0 results = Ok v)) /\
  (forall api_key movie_id,
     exists v,
       tmdb_get_movie_details net api_key movie_id s
         = (Ok v, MovieDetails api_key movie_id :: s) /\
       (v <> JNull -> net s (MovieDetails api_key movie_id) = Response 200 (Some v))) /\
  (forall req,
     exists v,
       omdb_lookup net req s = (Ok v, req :: s) /\
       (v <> JNull ->
        exists fields,
          v = JObj fields /\
          net s req = Response 200 (Some v) /\
          PyJson.assoc "Response" fields = Some (JStr "True"))).
Proof.
  split; [intros; apply tmdb_search_run|].
  split; [intros; apply tmdb_details_run | intros; apply omdb_lookup_run].
Qed.

Variable Formatted : Type.
Variable tmdb_format_movie_data : json -> res Formatted.
Variable omdb_format_movie_data : json -> res Formatted.

(** X14.  [MovieAPIService.get_movie_details] never asks OMDB: it sends the
    one TMDB details request, returns the formatted details when they are
    true, and [None] otherwise, since the IMDB id is read from the details
    only when they are true. *)
Theorem service_never_asks_omdb (tmdb_key omdb_key : string) (movie_id : json)
    (s : list ApiRequest) :
  exists details,
    tmdb_get_movie_details net tmdb_key movie_id s
      = (Ok details, MovieDetails tmdb_key movie_id :: s) /\
    service_get_movie_details net Formatted tmdb_format_movie_data
      omdb_format_movie_data tmdb_key omdb_key movie_id s
    = (if PyJson.truthy details
       then match tmdb_format_movie_data details with
            | Ok d => Ok (Some d)
            | Raise e => Raise e
            end
       else Ok None,
       MovieDetails tmdb_key movie_id :: s).
Proof.
  destruct (tmdb_details_run tmdb_key movie_id s) as [details [Hrun _]].
  exists details. split; [exact Hrun|].
  unfold service_get_movie_details, abind. rewrite Hrun.
  destruct (PyJson.truthy details) eqn:Et.
  - unfold alift, aret. now destruct (tmdb_format_movie_data details).
  - unfold imdb_id_of. rewrite Et. reflexivity.
Qed.

(** X15.  [TMDBApi.search_and_get_details] sends the search and, only for a
    true search result with an [id], the details request.  Without a result
    it returns [None]; a result without [id] raises; otherwise it formats
    the details, or the search result itself when the details are not
    available. *)
Theorem search_and_get_details_runs (api_key movie_name : string) (year : option Z)
    (s : list ApiRequest) :
  let search := SearchMovie api_key movie_name (year_param year) in
  let run := tmdb_search_and_get_details net Formatted tmdb_format_movie_data
               api_key movie_name year s in
  let format j := match tmdb_format_movie_data j with
                  | Ok d => Ok (Some d)
                  | Raise e => Raise e
                  end in
  exists found,
    tmdb_search_movie net api_key movie_name year s = (Ok found, search :: s) /\
    if PyJson.truthy found then
      match PyJson.getitem_str found "id" with
      | Raise e => run = (Raise e, search :: s)
      | Ok movie_id =>
          exists details,
            tmdb_get_movie_details net api_key movie_id (search :: s)
              = (Ok details, MovieDetails api_key movie_id :: search :: s) /\
            run = (format (if PyJson.truthy details then details else found),
                   MovieDetails api_key movie_id :: search :: s)
      end
    else run = (Ok None, search :: s).
Proof.
  intros search run format. subst search run format.
  destruct (tmdb_search_run api_key movie_name year s) as [found [Hrun _]].
  exists found. split; [exact Hrun|].
  unfold tmdb_search_and_get_details, abind. rewrite Hrun.
  destruct (PyJson.truthy found); [|reflexivity].
  unfold alift at 1.
  destruct (PyJson.getitem_str found "id") as [movie_id|e]; [|reflexivity].
  destruct (tmdb_details_run api_key movie_id
              (SearchMovie api_key movie_name (year_param year) :: s))
    as [details [Hd _]].
  exists details. split; [exact Hd|]. rewrite Hd.
  unfold alift, aret.
  destruct (PyJson.truthy details);
    [now destruct (tmdb_format_movie_data details)
    | now destruct (tmdb_format_movie_data found)].
Qed.

End ClientFacts.

End MovieApisFacts.

(** ** How many recommendations a title outside the catalog gets *)

Lemma slice_to_length_exact {A : Type} (n : Z) (l : list A) :
  (0 <= n)%Z -> List.length (slice_to n l) = Nat.min (Z.to_nat n) (List.length l).
Proof.
  intros Hn. unfold slice_to. destruct (Z.leb_spec 0 n); [|lia].
  apply length_firstn.
Qed.

(** X16.  For a title that is not in the catalog, a count [n >= 0] and no
    preferred genre, the resolver returns exactly [min n (catalog size)]
    recommendations, all from the popularity ranking, whether a provider
    knew the title or not. *)
Theorem unknown_title_gets_popular (pyfloat : PyFloat) (net : Network)
    (self : MovieRecommender) (name : string) (n : Z) (w w' : World)
    (result : ResolutionResult) :
  (0 <= n)%Z ->
  find_movie_in_dataset self name = Ok None ->
  get_recommendations pyfloat net self name n [] w = (Ok result, w') ->
  List.length (recommendations result)
    = Nat.min (Z.to_nat n) (List.length (rows (movies_df self))) /\
  Forall (fun rec => recommendation_method rec = "popular") (recommendations result).
Proof.
  intros Hn Hfind. rewrite get_recommendations_eq, resolve_candidates_eq, Hfind.
  destruct (lookup_any pyfloat net self name w) as [[[info|]|e] w1]; [| |discriminate];
    intros [= <- _]; simpl; rewrite slice_to_length_exact, popular_length by exact Hn.
  - split.
    + destruct (Z.leb_spec 0 (n * 2)); [|lia].
      rewrite Bool.orb_true_r. lia.
    + rewrite Forall_forall. intros rec Hin. apply slice_to_incl in Hin.
      now apply popular_tagged in Hin.
  - split.
    + destruct (Z.leb_spec 0 n); [|lia].
      rewrite Bool.orb_true_r. lia.
    + rewrite Forall_forall. intros rec Hin. apply slice_to_incl in Hin.
      now apply popular_tagged in Hin.
Qed.

Lemma unknown_title_gets_popular_witness :
  exists result w',
    get_recommendations Demo.no_float Demo.offline Demo.demo "Zzz" 10 [] Demo.w0
      = (Ok result, w') /\
    List.length (recommendations result) = 6.
Proof.
  destruct (get_recommendations Demo.no_float Demo.offline Demo.demo "Zzz" 10 []
              Demo.w0) as [[result|e] w'] eqn:E;
    [|vm_compute in E; discriminate E].
  exists result, w'. split; [reflexivity|].
  exact (proj1 (unknown_title_gets_popular Demo.no_float Demo.offline Demo.demo "Zzz"
                  10 Demo.w0 w' result ltac:(lia) eq_refl E)).
Defined.

(** ** The characterizations at work *)

Lemma find_movie_characterized_witness :
  exists r, nth_error Demo.demo_rows 3 = Some r /\ norm_title r = Some "heat".
Proof.
  pose proof (find_movie_characterized Demo.demo "heat") as H.
  change (find_movie_in_dataset Demo.demo "heat") with (@Ok (option nat) (Some 3)) in H.
  cbv zeta beta iota in H.
  destruct H as [_ [r [Hr [_ [Hexact _]]]]].
  exists r. split; [exact Hr|].
  apply Hexact. exists (Demo.movie "Heat" "Crime Drama" (83 # 10) 6000).
  split; [simpl; tauto | reflexivity].
Defined.

(** A float64 title column makes every lookup raise. *)
Example float_title_raises :
  find_movie_in_dataset Demo.untitled "heat" = Raise AttributeError.
Proof. reflexivity. Qed.

Lemma clients_never_raise_witness :
  exists fields results,
    DemoApis.search_only [] (MovieApis.SearchMovie "k" "Zzz" None)
      = Response 200 (Some (JObj fields)) /\
    PyJson.assoc "results" fields = Some results /\
    PyJson.getitem_0 results = Ok (JObj [("id", JInt 7)]).
Proof.
  destruct (proj1 (MovieApisFacts.clients_never_raise DemoApis.search_only [])
              "k" "Zzz" None) as [v [Hrun Hv]].
  injection Hrun as <-.
  destruct (Hv ltac:(discriminate)) as [fields [results [Hnet [Ha [_ Hg]]]]].
  now exists fields, results.
Defined.
